(** * RAGVideo content-understanding pipeline: orchestrator, starter, status

  A shallow embedding of the three Azure Durable Functions entry points
  of the repository,

    - [functions/VideoProcessingStarter/__init__.py]
    - [functions/VideoProcessingOrchestrator/__init__.py]
    - [functions/VideoProcessingStatus/__init__.py]

  and the properties of them that the specification states.

  Python values are embedded as a small universe of JSON-like values,
  exceptions as an error result carrying the exception class and its
  message, and the orchestrator generator as a resumable state machine:
  one state per [yield], resumed with the outcome of the awaited
  activity.  Calls to [logging] have no effect on any value computed by
  the code and are left out. *)

From Stdlib Require Import List String Ascii ZArith QArith Bool Arith Lia.
From Stdlib Require Import Sorted Lqa DecimalString.
Import ListNotations.

Set Warnings "-register-all".

Local Open Scope string_scope.
Local Open Scope list_scope.

(* ================================================================== *)
(** ** Python values, exceptions and the few builtins the code uses    *)
(* ================================================================== *)

Module Py.

(** The JSON-shaped values that travel through the functions.  A
    [dict] keeps its insertion order, so it is an association list. *)
Inductive value : Type :=
| VNone
| VBool (b : bool)
| VInt (z : Z)
| VFloat (q : Q)
| VStr (s : string)
| VList (l : list value)
| VDict (d : list (string * value)).

(** Exception classes the code raises or catches.  [JSONDecodeError]
    is a subclass of [ValueError]; every class is an [Exception]. *)
Inductive exn_class : Type :=
| AttributeError
| ValueError
| JSONDecodeError
| IndexError
| KeyError
| Exception.

Record exn : Type := mk_exn { exn_cls : exn_class; exn_msg : string }.

Definition isinstance (e : exn) (c : exn_class) : bool :=
  match c, exn_cls e with
  | Exception, _ => true
  | AttributeError, AttributeError => true
  | ValueError, ValueError => true
  | ValueError, JSONDecodeError => true
  | JSONDecodeError, JSONDecodeError => true
  | IndexError, IndexError => true
  | KeyError, KeyError => true
  | _, _ => false
  end.

(** A computation either returns a value or raises. *)
Inductive result (A : Type) : Type :=
| Ok (a : A)
| Raise (e : exn).
Arguments Ok {A} a.
Arguments Raise {A} e.

Definition bind {A B : Type} (m : result A) (k : A -> result B) : result B :=
  match m with
  | Ok a => k a
  | Raise e => Raise e
  end.

(** [try: body  except (classes): handler]. *)
Definition try_except {A : Type} (body : result A)
    (classes : list exn_class) (handler : exn -> result A) : result A :=
  match body with
  | Ok a => Ok a
  | Raise e =>
      if existsb (isinstance e) classes then handler e else Raise e
  end.

Definition type_name (v : value) : string :=
  match v with
  | VNone => "NoneType"
  | VBool _ => "bool"
  | VInt _ => "int"
  | VFloat _ => "float"
  | VStr _ => "str"
  | VList _ => "list"
  | VDict _ => "dict"
  end.

(** [str(e)] of the [AttributeError] raised by [v.attr]. *)
Definition no_attribute (v : value) (attr : string) : exn :=
  mk_exn AttributeError
    ("'" ++ type_name v ++ "' object has no attribute '" ++ attr ++ "'").

(** Truth value of an object in a condition. *)
Definition truthy (v : value) : bool :=
  match v with
  | VNone => false
  | VBool b => b
  | VInt z => negb (Z.eqb z 0)
  | VFloat q => negb (Qeq_bool q 0)
  | VStr s => negb (String.eqb s "")
  | VList l => match l with [] => false | _ => true end
  | VDict d => match d with [] => false | _ => true end
  end.

Fixpoint lookup (key : string) (d : list (string * value)) : option value :=
  match d with
  | [] => None
  | (k, v) :: rest => if String.eqb k key then Some v else lookup key rest
  end.

(** [obj.get(key, default)]: only a dict has the method. *)
Definition get (obj : value) (key : string) (default : value) : result value :=
  match obj with
  | VDict d =>
      Ok match lookup key d with
         | Some v => v
         | None => default
         end
  | _ => Raise (no_attribute obj "get")
  end.

(** [obj[key]] on a dict. *)
Definition item (obj : value) (key : string) : result value :=
  match obj with
  | VDict d =>
      match lookup key d with
      | Some v => Ok v
      | None => Raise (mk_exn KeyError ("'" ++ key ++ "'"))
      end
  | _ => Raise (mk_exn Exception
                  ("'" ++ type_name obj ++ "' object is not subscriptable"))
  end.

(** [d[key] = v]: replaces the value of a key that is present, in
    place, and appends a new key at the end. *)
Fixpoint setitem {V : Type} (d : list (string * V)) (key : string) (v : V)
  : list (string * V) :=
  match d with
  | [] => [(key, v)]
  | (k, old) :: rest =>
      if String.eqb k key then (k, v) :: rest
      else (k, old) :: setitem rest key v
  end.

(** [str.lower()] on ASCII letters; other characters are kept. *)
Definition lower_ascii (c : ascii) : ascii :=
  let n := nat_of_ascii c in
  if andb (65 <=? n)%nat (n <=? 90)%nat then ascii_of_nat (n + 32) else c.

Fixpoint str_lower (s : string) : string :=
  match s with
  | EmptyString => EmptyString
  | String c rest => String (lower_ascii c) (str_lower rest)
  end.

(** [s.endswith(suffix)]. *)
Definition str_endswith (s suffix : string) : bool :=
  let n := String.length s in
  let m := String.length suffix in
  if (m <=? n)%nat then String.eqb (substring (n - m) m s) suffix else false.

(** [s.split(sep)] for a one-character separator: never empty. *)
Fixpoint str_split (sep : ascii) (s : string) : list string :=
  match s with
  | EmptyString => [EmptyString]
  | String c rest =>
      if Ascii.eqb c sep then EmptyString :: str_split sep rest
      else match str_split sep rest with
           | [] => [String c EmptyString]
           | hd :: tl => String c hd :: tl
           end
  end.

(** [v.split("/")]: only a str has the method. *)
Definition split_slash (v : value) : result (list string) :=
  match v with
  | VStr s => Ok (str_split "/"%char s)
  | _ => Raise (no_attribute v "split")
  end.

(** [v.lower()]. *)
Definition lower (v : value) : result string :=
  match v with
  | VStr s => Ok (str_lower s)
  | _ => Raise (no_attribute v "lower")
  end.

(** [l.index(x)]: position of the first occurrence, or [ValueError]. *)
Fixpoint list_index (x : string) (l : list string) : result nat :=
  match l with
  | [] => Raise (mk_exn ValueError ("'" ++ x ++ "' is not in list"))
  | y :: rest =>
      if String.eqb y x then Ok 0%nat
      else bind (list_index x rest) (fun i => Ok (S i))
  end.

(** [l[i]] for [0 <= i]. *)
Definition getitem (l : list string) (i : nat) : result string :=
  match nth_error l i with
  | Some x => Ok x
  | None => Raise (mk_exn IndexError "list index out of range")
  end.

(** [l[-1]]. *)
Definition last_item (l : list string) : result string :=
  match l with
  | [] => Raise (mk_exn IndexError "list index out of range")
  | x :: rest => Ok (last rest x)
  end.

End Py.

Import Py.

Declare Scope py_scope.
Notation "x <- m ;; k" := (bind m (fun x => k))
(at level 61, m at next level, right associativity) : py_scope.
Local Open Scope py_scope.

(* ================================================================== *)
(** ** VideoProcessingStarter                                          *)
(* ================================================================== *)

Module Starter.

Definition video_content_types : list string :=
  [ "video/mp4"; "video/avi"; "video/mov"; "video/wmv"; "video/flv";
    "video/webm"; "video/quicktime"; "video/x-msvideo" ].

Definition video_extensions : list string :=
  [ ".mp4"; ".avi"; ".mov"; ".wmv"; ".flv"; ".webm"; ".mkv" ].

Definition str_in (s : string) (l : list string) : bool :=
  existsb (String.eqb s) l.

(** [is_video_file(content_type, blob_name)]. *)
Definition is_video_file (content_type blob_name : value) : result bool :=
  hit <- (if truthy content_type
          then lc <- lower content_type ;; Ok (str_in lc video_content_types)
          else Ok false) ;;
  if (hit : bool) then Ok true
  else if truthy blob_name
       then lb <- lower blob_name ;;
            Ok (existsb (fun ext => str_endswith lb ext) video_extensions)
       else Ok false.

(** [extract_container_name(subject)]. *)
Definition extract_container_name (subject : value) : result value :=
  try_except
    (parts <- split_slash subject ;;
     i <- list_index "containers" parts ;;
     let container_index := (i + 1)%nat in
     if (container_index <? List.length parts)%nat
     then p <- getitem parts container_index ;; Ok (VStr p)
     else Ok (VStr ""))
    [ValueError; IndexError]
    (fun _ => Ok (VStr "")).

(** The [video_info] dict that [main] builds from the event payload.
    The entries are evaluated in the order of the dict display; in
    [a if c else b] the condition [c] is evaluated first. *)
Definition build_video_info (event_data : value) : result value :=
  blob_url <- get event_data "url" VNone ;;
  cond <- get event_data "subject" VNone ;;
  blob_name <- (if truthy cond
                then subject <- get event_data "subject" (VStr "") ;;
                     parts <- split_slash subject ;;
                     l <- last_item parts ;;
                     Ok (VStr l)
                else Ok VNone) ;;
  subject <- get event_data "subject" (VStr "") ;;
  container_name <- extract_container_name subject ;;
  event_type <- get event_data "eventType" VNone ;;
  event_time <- get event_data "eventTime" VNone ;;
  data <- get event_data "data" (VDict []) ;;
  content_type <- get data "contentType" (VStr "") ;;
  data' <- get event_data "data" (VDict []) ;;
  content_length <- get data' "contentLength" (VInt 0) ;;
  Ok (VDict [ ("blob_url", blob_url);
              ("blob_name", blob_name);
              ("container_name", container_name);
              ("event_type", event_type);
              ("event_time", event_time);
              ("content_type", content_type);
              ("content_length", content_length) ]).

(** The test of [main]:
    [is_video_file(video_info["content_type"], video_info["blob_name"])]. *)
Definition classify (video_info : value) : result bool :=
  content_type <- item video_info "content_type" ;;
  blob_name <- item video_info "blob_name" ;;
  is_video_file content_type blob_name.

Definition orchestration_function_name : string :=
  "VideoProcessingOrchestrator".

Section Main.

(** The durable client is the library's: building it from the binding
    string and starting an instance may each raise. *)
Variable Client : Type.
Variable DurableOrchestrationClient : string -> result Client.
Variable start_new : Client -> string -> value -> result string.

(** What one call of [main] did: the [start_new] requests it sent, and
    how it ended ([Ok tt] is the normal return of [None]). *)
Record run : Type := mk_run {
  start_requests : list (string * value);
  returned : result unit
}.

(** [main(event, starter)], on the payload [event.get_json()].  The
    handler [except Exception as e: ...; raise] re-raises what it
    caught. *)
Definition main (event_data : value) (starter : string) : run :=
  match (video_info <- build_video_info event_data ;;
         is_video <- classify video_info ;;
         Ok (video_info, is_video)) with
  | Raise e => mk_run [] (Raise e)
  | Ok (video_info, false) => mk_run [] (Ok tt)
  | Ok (video_info, true) =>
      match DurableOrchestrationClient starter with
      | Raise e => mk_run [] (Raise e)
      | Ok client =>
          mk_run [(orchestration_function_name, video_info)]
                 (instance_id <-
                    start_new client orchestration_function_name video_info ;;
                  Ok tt)
      end
  end.

End Main.

End Starter.

(* ================================================================== *)
(** ** VideoProcessingOrchestrator                                     *)
(* ================================================================== *)

Module Orchestrator.

(** A [datetime] is kept as its number of microseconds since the epoch.
    The code stores [isoformat()] texts and parses them back with
    [fromisoformat] before subtracting; on such texts that is the
    identity ([isoformat] never writes a ["Z"]). *)
Definition datetime : Type := Z.

(** [timedelta.total_seconds()], as the exact rational it rounds. *)
Definition total_seconds (microseconds : Z) : Q :=
  Qmake microseconds 1000000.

(** An entry of [orchestration_result["steps"]]. *)
Record step_record : Type := mk_step {
  step_status : string;
  step_result : value;
  step_timestamp : datetime
}.

(** An entry of [orchestration_result["errors"]]. *)
Record error_info : Type := mk_error {
  error : string;
  error_timestamp : datetime;
  step : string
}.

(** The dict [orchestration_result]; the two keys that are added at the
    end are optional fields. *)
Record orchestration_result : Type := mk_result {
  video_info : value;
  start_time : datetime;
  status : string;
  steps : list (string * step_record);
  errors : list error_info;
  end_time : option datetime;
  processing_duration_seconds : option Q
}.

Definition set_step (r : orchestration_result) (key : string)
    (res : value) (now : datetime) : orchestration_result :=
  mk_result (video_info r) (start_time r) (status r)
            (setitem (steps r) key (mk_step "completed" res now))
            (errors r) (end_time r) (processing_duration_seconds r).

(** Lines 113-119: mark as completed and compute the duration. *)
Definition mark_completed (r : orchestration_result) (now : datetime)
  : orchestration_result :=
  mk_result (video_info r) (start_time r) "completed" (steps r) (errors r)
            (Some now) (Some (total_seconds (now - start_time r))).

(** The argument of the log lines, [video_info.get('blob_name')]. *)
Definition log_blob_name (vi : value) : result unit :=
  _ <- get vi "blob_name" VNone ;; Ok tt.

(** The generator, suspended at one of its five [yield]s, with the
    local variables bound so far. *)
Inductive gen_state : Type :=
| AwaitMetadata (r : orchestration_result)
| AwaitAnalysis (r : orchestration_result) (metadata_result : value)
| AwaitEmbeddings (r : orchestration_result)
    (metadata_result analysis_result : value)
| AwaitSearch (r : orchestration_result)
    (metadata_result analysis_result embeddings_result : value)
| AwaitInsights (r : orchestration_result)
    (metadata_result analysis_result embeddings_result search_result : value).

(** What the generator hands back to its driver: a
    [context.call_activity(name, input)] task to wait for, or the
    returned [orchestration_result]. *)
Inductive suspension : Type :=
| Yield (name : string) (input : value) (k : gen_state)
| Return (r : orchestration_result).

(** The [except Exception as e] block, lines 123-139. *)
Definition on_exception (r : orchestration_result) (e : exn) (now : datetime)
  : result suspension :=
  let r' := mk_result (video_info r) (start_time r) "failed" (steps r)
              (errors r ++ [mk_error (exn_msg e) now "orchestration"])
              (Some now) (processing_duration_seconds r) in
  _ <- log_blob_name (video_info r) ;;
  Ok (Return r').

(** From the call of the generator to its first [yield]: lines 21-40.
    [now] is [context.current_utc_datetime]. *)
Definition start (input : value) (now : datetime) : result suspension :=
  let video_info := input in
  _ <- log_blob_name video_info ;;
  let orchestration_result :=
    mk_result video_info now "processing" [] [] None None in
  Ok (Yield "ExtractVideoMetadata" video_info
        (AwaitMetadata orchestration_result)).

(** From one [yield] to the next, or to the [return]: the driver sends
    the activity's result in, or throws its failure in. *)
Definition resume (st : gen_state) (now : datetime) (outcome : result value)
  : result suspension :=
  match st with
  | AwaitMetadata r =>
      match outcome with
      | Raise e => on_exception r e now
      | Ok metadata_result =>
          let r := set_step r "metadata" metadata_result now in
          Ok (Yield "AnalyzeVideoContent"
                (VDict [ ("video_info", video_info r);
                         ("metadata", metadata_result) ])
                (AwaitAnalysis r metadata_result))
      end
  | AwaitAnalysis r metadata_result =>
      match outcome with
      | Raise e => on_exception r e now
      | Ok analysis_result =>
          let r := set_step r "analysis" analysis_result now in
          Ok (Yield "GenerateEmbeddings"
                (VDict [ ("video_info", video_info r);
                         ("analysis", analysis_result);
                         ("metadata", metadata_result) ])
                (AwaitEmbeddings r metadata_result analysis_result))
      end
  | AwaitEmbeddings r metadata_result analysis_result =>
      match outcome with
      | Raise e => on_exception r e now
      | Ok embeddings_result =>
          let r := set_step r "embeddings" embeddings_result now in
          Ok (Yield "StoreInAzureSearch"
                (VDict [ ("video_info", video_info r);
                         ("metadata", metadata_result);
                         ("analysis", analysis_result);
                         ("embeddings", embeddings_result) ])
                (AwaitSearch r metadata_result analysis_result
                   embeddings_result))
      end
  | AwaitSearch r metadata_result analysis_result embeddings_result =>
      match outcome with
      | Raise e => on_exception r e now
      | Ok search_result =>
          let r := set_step r "search_storage" search_result now in
          match get search_result "document_id" VNone with
          | Raise e => on_exception r e now
          | Ok document_id =>
              Ok (Yield "GenerateVideoInsights"
                    (VDict [ ("video_info", video_info r);
                             ("metadata", metadata_result);
                             ("analysis", analysis_result);
                             ("search_document_id", document_id) ])
                    (AwaitInsights r metadata_result analysis_result
                       embeddings_result search_result))
          end
      end
  | AwaitInsights r _ _ _ _ =>
      match outcome with
      | Raise e => on_exception r e now
      | Ok insights_result =>
          let r := set_step r "insights" insights_result now in
          let r := mark_completed r now in
          match log_blob_name (video_info r) with
          | Raise e => on_exception r e now
          | Ok _ => Ok (Return r)
          end
      end
  end.

(** The [orchestration_result] local of a suspended generator. *)
Definition local_result (st : gen_state) : orchestration_result :=
  match st with
  | AwaitMetadata r => r
  | AwaitAnalysis r _ => r
  | AwaitEmbeddings r _ _ => r
  | AwaitSearch r _ _ _ => r
  | AwaitInsights r _ _ _ _ => r
  end.

Definition result_of (s : suspension) : orchestration_result :=
  match s with
  | Yield _ _ k => local_result k
  | Return r => r
  end.

(** One invocation of the Activity Invoker: what was called, with what
    input, and what came back. *)
Record exchange : Type := mk_exchange {
  ex_name : string;
  ex_input : value;
  ex_outcome : result value
}.

(** The history a sequence of invocations leaves: the stages that
    completed, with their results. *)
Definition recorded (xs : list exchange) : list (string * value) :=
  flat_map (fun x => match ex_outcome x with
                     | Ok v => [(ex_name x, v)]
                     | Raise _ => []
                     end) xs.

Definition succeeded (x : exchange) : bool :=
  match ex_outcome x with
  | Ok _ => true
  | Raise _ => false
  end.

Definition call_of (x : exchange) : string * value :=
  (ex_name x, ex_input x).

(** Modelled from the spec: what the Instance Store of section 3 holds
    of an instance, which is kept by the durable framework and is not
    in the sources.  Per stage that ran, its StepRecord or ErrorRecord:
    the name of the stage, how it ended (the result, or the failure),
    and the timestamp; and the time at which the instance was created,
    once it has been. *)
Record stage_record : Type := mk_stage_record {
  rec_stage : string;
  rec_outcome : result value;
  rec_timestamp : datetime
}.

(** Modelled from the spec: the OrchestrationInstance of section 3, as
    far as re-execution reads it. *)
Record instance_record : Type := mk_instance {
  inst_created : option datetime;
  inst_history : list stage_record
}.

(** Modelled from the spec: an instance that the Starter has just asked
    for, of which nothing is recorded yet. *)
Definition new_instance : instance_record := mk_instance None [].

(** Modelled from the spec: the check of the Instance Store before a
    stage is invoked, for a record of that stage. *)
Definition find_record (name : string) (history : list stage_record)
  : option stage_record :=
  find (fun r => String.eqb (rec_stage r) name) history.

Section Run.

(** The world outside the generator: the activities and whatever they
    touch, and the clock of the orchestration context.  Calling an
    activity returns its result or its failure and moves the world on. *)
Variable World : Type.
Variable call_activity : string -> value -> World -> result value * World.
Variable current_utc_datetime : World -> datetime.

(** A run: the invocations in order; the [status] entry as it stood at
    the start and after each resumption; how the generator ended
    ([None] while it is still suspended); and the world it left. *)
Record execution : Type := mk_execution {
  exchanges : list exchange;
  statuses : list string;
  final : option (result orchestration_result);
  world : World
}.

Definition observe (st : string) (e : execution) : execution :=
  mk_execution (exchanges e) (st :: statuses e) (final e) (world e).

Definition record_exchange (x : exchange) (e : execution) : execution :=
  mk_execution (x :: exchanges e) (statuses e) (final e) (world e).

(** Drive a suspended generator: invoke the yielded activity, resume
    with its outcome, at most [fuel] times. *)
Fixpoint drive (fuel : nat) (s : suspension) (w : World) : execution :=
  match s with
  | Return r => mk_execution [] [] (Some (Ok r)) w
  | Yield name input k =>
      match fuel with
      | O => mk_execution [] [] None w
      | S fuel' =>
          let '(outcome, w') := call_activity name input w in
          let x := mk_exchange name input outcome in
          match resume k (current_utc_datetime w') outcome with
          | Raise e => mk_execution [x] [] (Some (Raise e)) w'
          | Ok s' =>
              record_exchange x
                (observe (status (result_of s')) (drive fuel' s' w'))
          end
      end
  end.

Definition run_from (fuel : nat) (input : value) (w : World) : execution :=
  match start input (current_utc_datetime w) with
  | Raise e => mk_execution [] [] (Some (Raise e)) w
  | Ok s => observe (status (result_of s)) (drive fuel s w)
  end.

(** One orchestration run; the generator has five [yield]s. *)
Definition orchestrate (input : value) (w : World) : execution :=
  run_from 5 input w.

(** The [status] entry along the run. *)
Definition lifetime (input : value) (w : World) : list string :=
  statuses (orchestrate input w).

(** The Activity Invoker asked for [calls] one after the other, from
    the world [w]: its answers in order, and the world it leaves. *)
Fixpoint invoke_each (calls : list (string * value)) (w : World)
  : list (result value) * World :=
  match calls with
  | [] => ([], w)
  | (name, input) :: rest =>
      let '(outcome, w') := call_activity name input w in
      let '(outcomes, w_end) := invoke_each rest w' in
      (outcome :: outcomes, w_end)
  end.

(** Modelled from the spec: the run after a stage whose record was
    reused, and after a stage that was invoked; the history is the one
    the rest of the run leaves. *)
Definition replayed (st : string) (sub : execution * list stage_record)
  : execution * list stage_record :=
  (observe st (fst sub), snd sub).

(** Modelled from the spec: see [replayed]. *)
Definition invoked (x : exchange) (st : string)
    (sub : execution * list stage_record)
  : execution * list stage_record :=
  (record_exchange x (observe st (fst sub)), snd sub).

(** Modelled from the spec: the replay of section 4.1, which is the
    work of the durable framework behind [df.Orchestrator.create] and of
    its instance store, neither of which is in the sources.  "Before
    invoking a stage, the State Machine checks the Instance Store: if a
    StepRecord already exists for that stage, its recorded result is
    reused instead of re-invoking the Activity Invoker", and "every
    stage transition appends exactly one StepRecord or ErrorRecord to
    the Instance Store".  A recorded failure is reused like a recorded
    result (section 7: the State Machine "never retries past the point
    of a recorded failure"), and a reused record comes with its
    timestamp.  The run is returned with the history it leaves. *)
Fixpoint replay (fuel : nat) (history : list stage_record)
    (s : suspension) (w : World) : execution * list stage_record :=
  match s with
  | Return r => (mk_execution [] [] (Some (Ok r)) w, history)
  | Yield name input k =>
      match fuel with
      | O => (mk_execution [] [] None w, history)
      | S fuel' =>
          match find_record name history with
          | Some found =>
              match resume k (rec_timestamp found) (rec_outcome found) with
              | Raise e => (mk_execution [] [] (Some (Raise e)) w, history)
              | Ok s' =>
                  replayed (status (result_of s'))
                    (replay fuel' history s' w)
              end
          | None =>
              let '(outcome, w') := call_activity name input w in
              let x := mk_exchange name input outcome in
              let now := current_utc_datetime w' in
              let history' :=
                history ++ [mk_stage_record name outcome now] in
              match resume k now outcome with
              | Raise e => (mk_execution [x] [] (Some (Raise e)) w', history')
              | Ok s' =>
                  invoked x (status (result_of s'))
                    (replay fuel' history' s' w')
              end
          end
      end
  end.

(** Modelled from the spec: executing an instance from scratch against
    what the Instance Store holds of it, for at most [fuel] stages.  The
    time of creation is read from the clock for a new instance and from
    the store afterwards. *)
Definition execute (fuel : nat) (inst : instance_record) (input : value)
    (w : World) : execution * instance_record :=
  let now := match inst_created inst with
             | Some t => t
             | None => current_utc_datetime w
             end in
  match start input now with
  | Raise e =>
      (mk_execution [] [] (Some (Raise e)) w,
       mk_instance (Some now) (inst_history inst))
  | Ok s =>
      let sub := replay fuel (inst_history inst) s w in
      (observe (status (result_of s)) (fst sub),
       mk_instance (Some now) (snd sub))
  end.

(** Modelled from the spec: re-executing an instance from scratch
    against its recorded history. *)
Definition reexecute (inst : instance_record) (input : value) (w : World)
  : execution * instance_record :=
  execute 5 inst input w.

End Run.

Arguments exchanges {World} _.
Arguments statuses {World} _.
Arguments final {World} _.
Arguments world {World} _.

End Orchestrator.

(* ================================================================== *)
(** ** VideoProcessingStatus                                           *)
(* ================================================================== *)

Module Status.

Import Orchestrator.

(** An entry of [status.history_events], an object of the durable
    library that the code probes with [hasattr]: [None] stands for an
    attribute that is missing (and, for the timestamp, also for one that
    is empty); [ev_str] is [str(event)]. *)
Record history_event : Type := mk_event {
  ev_name : option string;
  ev_str : string;
  ev_timestamp : option datetime;
  ev_event_type : option string
}.

(** The library's [DurableOrchestrationStatus], by the attributes the
    code reads.  [runtime_status] is the name of the enum member. *)
Record DurableOrchestrationStatus : Type := mk_status {
  input_ : value;
  output : value;
  created_time : option datetime;
  last_updated_time : option datetime;
  runtime_status : option string;
  custom_status : value;
  history_events : option (list history_event)
}.

(** [func.HttpResponse]; [body] is the object given to [json.dumps]. *)
Record HttpResponse : Type := mk_response {
  body : value;
  status_code : Z;
  headers : list (string * string)
}.

(** [func.HttpRequest], by its two mappings. *)
Record HttpRequest : Type := mk_request {
  route_params : list (string * string);
  params : list (string * string)
}.

Fixpoint str_get (key : string) (d : list (string * string)) : option string :=
  match d with
  | [] => None
  | (k, v) :: rest => if String.eqb k key then Some v else str_get key rest
  end.

Definition json_headers : list (string * string) :=
  [("Content-Type", "application/json")].

Section Service.

(** Library functions: the durable client and its [get_status], which
    returns a status object, a false value ([None]) or raises;
    [json.loads] on a str, [None] for [JSONDecodeError]; [str()];
    [datetime.isoformat()]; and the text of [f"{d:.1f}"] for the
    [total_seconds()] of a timedelta given in microseconds. *)
Variable Client : Type.
Variable DurableOrchestrationClient : string -> result Client.
Variable get_status :
  Client -> string -> bool -> bool -> result (option DurableOrchestrationStatus).
Variable json_loads : string -> option value.
Variable py_str : value -> string.
Variable isoformat : datetime -> string.
Variable format_1f : Z -> string.

Definition loads (s : string) : result value :=
  match json_loads s with
  | Some v => Ok v
  | None => Raise (mk_exn JSONDecodeError "Expecting value")
  end.

(** [json.loads(x) if isinstance(x, str) else x]. *)
Definition loads_if_str (x : value) : result value :=
  match x with
  | VStr s => loads s
  | _ => Ok x
  end.

(** Lines 87-98. *)
Definition extract_video_info (st : DurableOrchestrationStatus) : result value :=
  if truthy (input_ st)
  then try_except
         (input_data <- loads_if_str (input_ st) ;;
          video_name <- get input_data "blob_name" (VStr "Unknown") ;;
          container_name <- get input_data "container_name" (VStr "Unknown") ;;
          blob_url <- get input_data "blob_url" (VStr "") ;;
          Ok (VDict [ ("video_name", video_name);
                      ("container_name", container_name);
                      ("blob_url", blob_url) ]))
         [JSONDecodeError; AttributeError]
         (fun _ => Ok (VDict [("video_name", VStr "Unable to parse")]))
  else Ok (VDict []).

(** Lines 100-106. *)
Definition parse_output (st : DurableOrchestrationStatus) : result value :=
  if truthy (output st)
  then try_except
         (loads_if_str (output st))
         [JSONDecodeError; AttributeError]
         (fun _ => Ok (VDict [("raw_output", VStr (py_str (output st)))]))
  else Ok (VDict []).

(** Lines 108-112.  A [datetime] is always true in a condition, so the
    test fails only on [None]. *)
Definition processing_duration (st : DurableOrchestrationStatus) : value :=
  match created_time st, last_updated_time st with
  | Some created, Some last_updated =>
      let duration_microseconds := (last_updated - created)%Z in
      VStr (format_1f duration_microseconds ++ " seconds")
  | _, _ => VNone
  end.

Definition iso_or_none (t : option datetime) : value :=
  match t with
  | Some d => VStr (isoformat d)
  | None => VNone
  end.

(** One entry of [execution_history], lines 128-132. *)
Definition render_event (ev : history_event) : value :=
  VDict [ ("name", VStr match ev_name ev with
                        | Some n => n
                        | None => ev_str ev
                        end);
          ("timestamp", iso_or_none (ev_timestamp ev));
          ("event_type", VStr match ev_event_type ev with
                              | Some n => n
                              | None => "Unknown"
                              end) ].

Definition not_found (instance_id : string) : exn :=
  mk_exn ValueError ("Orchestration instance '" ++ instance_id ++ "' not found").

(** [get_orchestration_status(client, instance_id, include_history)].
    Its handler [except Exception as e: ...; raise] re-raises. *)
Definition get_orchestration_status (client : Client) (instance_id : string)
    (include_history : bool) : result value :=
  status <- get_status client instance_id include_history include_history ;;
  match status with
  | None => Raise (not_found instance_id)
  | Some status =>
      video_info <- extract_video_info status ;;
      output_data <- parse_output status ;;
      let processing_duration := processing_duration status in
      let result :=
        [ ("instance_id", VStr instance_id);
          ("runtime_status", VStr match runtime_status status with
                                  | Some name => name
                                  | None => "Unknown"
                                  end);
          ("created_time", iso_or_none (created_time status));
          ("last_updated_time", iso_or_none (last_updated_time status));
          ("processing_duration", processing_duration);
          ("video_info", video_info);
          ("output", output_data);
          ("custom_status", custom_status status) ] in
      let result :=
        match history_events status with
        | Some (ev :: evs) =>
            if include_history
            then setitem result "execution_history"
                   (VList (map render_event (ev :: evs)))
            else result
        | _ => result
        end in
      let result :=
        setitem result "management_urls"
          (VDict [ ("status_query",
                    VStr ("/api/VideoProcessingStatus/" ++ instance_id));
                   ("status_with_history",
                    VStr ("/api/VideoProcessingStatus/" ++ instance_id
                          ++ "?include_history=true")) ]) in
      Ok (VDict result)
  end.

(** [find_orchestration_by_video_name]: an explicit "not implemented". *)
Definition find_orchestration_by_video_name (client : Client)
    (video_name : string) (include_history : bool) : result value :=
  Ok (VDict
        [ ("message", VStr ("Search by video name '" ++ video_name
                            ++ "' not yet implemented"));
          ("suggestion",
           VStr "Use the instance ID returned when the video processing started");
          ("alternative",
           VStr "Use the list endpoint to see all recent orchestrations") ]).

(** [list_recent_orchestrations]: a placeholder. *)
Definition list_recent_orchestrations (client : Client) : result value :=
  Ok (VDict
        [ ("message",
           VStr "Listing recent orchestrations not yet fully implemented");
          ("note",
           VStr "This feature requires additional configuration in the Durable Functions setup");
          ("recommendation",
           VStr "Store instance IDs when starting orchestrations for better tracking") ]).

Definition nonempty (o : option string) : bool :=
  match o with
  | Some s => negb (String.eqb s "")
  | None => false
  end.

(** The [try] block of [main]. *)
Definition handle (req : HttpRequest) (starter : string) : result HttpResponse :=
  let instance_id := str_get "instanceId" (route_params req) in
  let video_name := str_get "video_name" (params req) in
  let include_history :=
    String.eqb
      (str_lower match str_get "include_history" (params req) with
                 | Some v => v
                 | None => "false"
                 end)
      "true" in
  client <- DurableOrchestrationClient starter ;;
  status_result <-
    (if nonempty instance_id
     then get_orchestration_status client
            match instance_id with Some i => i | None => "" end
            include_history
     else if nonempty video_name
          then find_orchestration_by_video_name client
                 match video_name with Some v => v | None => "" end
                 include_history
          else list_recent_orchestrations client) ;;
  Ok (mk_response status_result 200 json_headers).

(** [main(req, starter)]: [except ValueError] comes before
    [except Exception]. *)
Definition main (req : HttpRequest) (starter : string) : HttpResponse :=
  match handle req starter with
  | Ok response => response
  | Raise e =>
      if isinstance e ValueError
      then mk_response
             (VDict [ ("error", VStr "Bad Request");
                      ("message", VStr (exn_msg e)) ])
             400 json_headers
      else mk_response
             (VDict [ ("error", VStr "Internal Server Error");
                      ("message", VStr (exn_msg e)) ])
             500 json_headers
  end.

End Service.

End Status.

(* ================================================================== *)
(** ** The stage contract, in the words of the specification           *)
(* ================================================================== *)

Module Contract.

Import Orchestrator.

(** The five stages in their fixed order, by the names of the
    activities that carry them out. *)
Definition stage_names : list string :=
  [ "ExtractVideoMetadata"; "AnalyzeVideoContent"; "GenerateEmbeddings";
    "StoreInAzureSearch"; "GenerateVideoInsights" ].

(** The keys under which the step records of the stages are filed. *)
Definition step_keys : list string :=
  [ "metadata"; "analysis"; "embeddings"; "search_storage"; "insights" ].

(** The [document_id] that the search result exposes. *)
Definition document_id_of (search_result : value) : value :=
  match search_result with
  | VDict d => match lookup "document_id" d with
               | Some v => v
               | None => VNone
               end
  | _ => VNone
  end.

(** Section 4.1, "each stage's output is threaded as input context to
    later stages as shown": the five calls, given the input of the
    instance and the outputs of the stages in order. *)
Definition contract_calls (input : value) (outs : list value)
  : list (string * value) :=
  let metadata := nth 0 outs VNone in
  let analysis := nth 1 outs VNone in
  let embeddings := nth 2 outs VNone in
  let search_result := nth 3 outs VNone in
  [ ("ExtractVideoMetadata", input);
    ("AnalyzeVideoContent",
     VDict [ ("video_info", input); ("metadata", metadata) ]);
    ("GenerateEmbeddings",
     VDict [ ("video_info", input); ("analysis", analysis);
             ("metadata", metadata) ]);
    ("StoreInAzureSearch",
     VDict [ ("video_info", input); ("metadata", metadata);
             ("analysis", analysis); ("embeddings", embeddings) ]);
    ("GenerateVideoInsights",
     VDict [ ("video_info", input); ("metadata", metadata);
             ("analysis", analysis);
             ("search_document_id", document_id_of search_result) ]) ].

Definition is_dict_result (o : result value) : bool :=
  match o with
  | Ok (VDict _) => true
  | _ => false
  end.

(** Whether one of the invocations [xs] is of a stage that [history]
    records as completed. *)
Definition invoked_again (history : list stage_record)
    (xs : list exchange) : bool :=
  existsb (fun x => existsb (String.eqb (ex_name x))
                      (map rec_stage history)) xs.

(** The statuses that section 3 of the spec gives an instance. *)
Definition spec_statuses : list string :=
  [ "pending"; "running"; "completed"; "failed" ].

(** The statuses the orchestrator writes. *)
Definition code_statuses : list string :=
  [ "processing"; "completed"; "failed" ].

End Contract.

(* ================================================================== *)
(** ** Fixtures: a stub invoker, a stub client, sample payloads        *)
(* ================================================================== *)

Module Fixtures.

Import Orchestrator.

(** The world of the stub invoker counts the activity calls made so
    far; its clock advances one second per call. *)
Definition World : Type := nat.

Definition stub_result (name : string) : value :=
  VDict [ ("activity", VStr name); ("document_id", VStr "doc-1") ].

(** Every activity returns a fixed payload, except that call number
    [fail_at] (counted from 1) fails; [fail_at = 0] never fails. *)
Definition stub_invoker (fail_at : nat) (name : string) (input : value)
    (w : World) : result value * World :=
  (if Nat.eqb (S w) fail_at
   then Raise (mk_exn Exception ("activity " ++ name ++ " failed"))
   else Ok (stub_result name),
   S w).

Definition stub_clock (w : World) : datetime :=
  (1000000 * Z.of_nat w)%Z.

Definition demo_fields : list (string * value) :=
  [ ("blob_url", VStr "https://account.blob.core.windows.net/videos/demo.mp4");
    ("blob_name", VStr "demo.mp4");
    ("container_name", VStr "videos");
    ("content_type", VStr "video/mp4");
    ("content_length", VInt 12582912) ].

Definition demo_video : value := VDict demo_fields.

(** The stub run in which call number [fail_at] fails. *)
Definition stub_run (fail_at : nat) : execution World :=
  orchestrate World (stub_invoker fail_at) stub_clock demo_video 0%nat.

(** The stub run in which call number [fail_at] fails, stopped after
    at most [k] stages, and its re-execution against the history that
    these have left. *)
Definition stub_stopped (fail_at k : nat)
  : execution World * instance_record :=
  execute World (stub_invoker fail_at) stub_clock k new_instance
    demo_video 0%nat.

Definition stub_again (fail_at k : nat)
  : execution World * instance_record :=
  reexecute World (stub_invoker fail_at) stub_clock
    (snd (stub_stopped fail_at k)) demo_video
    (world (fst (stub_stopped fail_at k))).

Definition empty_result : orchestration_result :=
  mk_result VNone 0%Z "" [] [] None None.

(** The result the stub run without failure returns. *)
Definition stub_completed : orchestration_result :=
  Eval cbv in
    match final (stub_run 0) with
    | Some (Ok r) => r
    | _ => empty_result
    end.

Definition demo_subject : string :=
  "/blobServices/default/containers/videos/blobs/demo.mp4".

Definition image_event : value :=
  VDict [ ("url", VStr "https://account.blob.core.windows.net/images/pic.png");
          ("subject", VStr "/blobServices/default/containers/images/blobs/pic.png");
          ("eventType", VStr "Microsoft.Storage.BlobCreated");
          ("data", VDict [ ("contentType", VStr "image/png");
                           ("contentLength", VInt 2048) ]) ].

Definition video_event : value :=
  VDict [ ("url", VStr "https://account.blob.core.windows.net/videos/demo.mp4");
          ("subject", VStr demo_subject);
          ("eventType", VStr "Microsoft.Storage.BlobCreated");
          ("data", VDict [ ("contentType", VStr "video/mp4");
                           ("contentLength", VInt 12582912) ]) ].

(** A durable client that accepts every binding and every start. *)
Definition stub_client (starter : string) : result unit := Ok tt.

Definition stub_start_new (c : unit) (name : string) (input : value)
  : result string := Ok "instance-1".

(** A status service over a store that knows the single instance
    ["instance-1"]; the library functions are stand-ins. *)
Definition stub_status : Status.DurableOrchestrationStatus :=
  Status.mk_status demo_video VNone (Some 1000000%Z) (Some 13500000%Z)
    (Some "Running") VNone None.

Definition stub_get_status (c : unit) (instance_id : string)
    (show_history show_history_output : bool)
  : result (option Status.DurableOrchestrationStatus) :=
  if String.eqb instance_id "instance-1" then Ok (Some stub_status)
  else Ok None.

Definition stub_json_loads (s : string) : option value := None.

Definition stub_str (v : value) : string :=
  match v with
  | VStr s => s
  | _ => "<object>"
  end.

Definition stub_isoformat (t : datetime) : string :=
  if Z.eqb t 1000000 then "1970-01-01T00:00:01+00:00"
  else "1970-01-01T00:00:13.500000+00:00".

Definition stub_format_1f (microseconds : Z) : string :=
  if Z.eqb microseconds 12500000 then "12.5" else "0.0".

Definition known_request : Status.HttpRequest :=
  Status.mk_request [("instanceId", "instance-1")] [].

Definition unknown_request : Status.HttpRequest :=
  Status.mk_request [("instanceId", "no-such-instance")]
    [("include_history", "True")].

End Fixtures.

(* ================================================================== *)
(** ** More Python builtins, for the activities and the clients        *)
(* ================================================================== *)

Module PyMore.

(** A [TypeError]: no handler of the code names the class, so only its
    message is kept, under [Exception]. *)
Definition type_error (msg : string) : exn := mk_exn Exception msg.

Fixpoint map_result {A B : Type} (f : A -> result B) (l : list A)
  : result (list B) :=
  match l with
  | [] => Ok []
  | x :: rest =>
      y <- f x ;;
      ys <- map_result f rest ;;
      Ok (y :: ys)
  end.

(** [for x in v]: the elements of a list, the characters of a string,
    the keys of a dict. *)
Definition iterate (v : value) : result (list value) :=
  match v with
  | VList l => Ok l
  | VStr s => Ok (map (fun c => VStr (String c "")) (list_ascii_of_string s))
  | VDict d => Ok (map (fun kv => VStr (fst kv)) d)
  | _ => Raise (type_error ("'" ++ type_name v ++ "' object is not iterable"))
  end.

(** [len(v)]. *)
Definition len (v : value) : result nat :=
  match v with
  | VList l => Ok (List.length l)
  | VStr s => Ok (String.length s)
  | VDict d => Ok (List.length d)
  | _ => Raise (type_error
                  ("object of type '" ++ type_name v ++ "' has no len()"))
  end.

(** [v[:n]]. *)
Definition slice_to (v : value) (n : nat) : result value :=
  match v with
  | VList l => Ok (VList (firstn n l))
  | VStr s => Ok (VStr (substring 0 n s))
  | VDict _ => Raise (type_error "unhashable type: 'slice'")
  | _ => Raise (type_error
                  ("'" ++ type_name v ++ "' object is not subscriptable"))
  end.

(** [v[key]] for a string key. *)
Definition subscript (v : value) (key : string) : result value :=
  match v with
  | VDict d =>
      match lookup key d with
      | Some x => Ok x
      | None => Raise (mk_exn KeyError ("'" ++ key ++ "'"))
      end
  | VStr _ => Raise (type_error "string indices must be integers, not 'str'")
  | VList _ =>
      Raise (type_error "list indices must be integers or slices, not str")
  | _ => Raise (type_error
                  ("'" ++ type_name v ++ "' object is not subscriptable"))
  end.

(** Whether [s] starts with [p], and whether it contains [p]. *)
Fixpoint starts_with (p s : string) : bool :=
  match p, s with
  | EmptyString, _ => true
  | String a p', String b s' => andb (Ascii.eqb a b) (starts_with p' s')
  | String _ _, EmptyString => false
  end.

Fixpoint str_contains (p s : string) : bool :=
  if starts_with p s then true
  else match s with
       | EmptyString => false
       | String _ s' => str_contains p s'
       end.

(** [key in v] for a string [key]. *)
Definition contains (key : string) (v : value) : result bool :=
  match v with
  | VDict d => Ok match lookup key d with
                  | Some _ => true
                  | None => false
                  end
  | VList l => Ok (existsb (fun x => match x with
                                     | VStr s => String.eqb s key
                                     | _ => false
                                     end) l)
  | VStr s => Ok (str_contains key s)
  | _ => Raise (type_error
                  ("argument of type '" ++ type_name v ++ "' is not iterable"))
  end.

(** The decimal text of an integer. *)
Definition str_of_Z (z : Z) : string :=
  DecimalString.NilZero.string_of_int (Z.to_int z).

Definition str_of_nat (n : nat) : string := str_of_Z (Z.of_nat n).

(** [sep.join(items)]: every item has to be a string. *)
Fixpoint join_from (sep : string) (index : nat) (items : list value)
  : result string :=
  match items with
  | [] => Ok ""
  | x :: rest =>
      match x with
      | VStr s =>
          match rest with
          | [] => Ok s
          | _ => tail <- join_from sep (S index) rest ;;
                 Ok (s ++ sep ++ tail)%string
          end
      | _ => Raise (type_error
                      ("sequence item " ++ str_of_nat index
                       ++ ": expected str instance, " ++ type_name x
                       ++ " found"))
      end
  end.

Definition join (sep : string) (items : list value) : result string :=
  join_from sep 0 items.

(** The ASCII characters that [str.strip()] removes. *)
Definition is_space (c : ascii) : bool :=
  let n := nat_of_ascii c in
  orb (Nat.eqb n 32)
      (orb (andb (9 <=? n)%nat (n <=? 13)%nat)
           (andb (28 <=? n)%nat (n <=? 31)%nat)).

Fixpoint lstrip (s : string) : string :=
  match s with
  | EmptyString => EmptyString
  | String c rest => if is_space c then lstrip rest else s
  end.

(** Removes the spaces at the end: what is left of [String c rest]
    once [rest] is done is empty only if [c] is a space too. *)
Fixpoint rstrip (s : string) : string :=
  match s with
  | EmptyString => EmptyString
  | String c rest =>
      match rstrip rest with
      | EmptyString => if is_space c then EmptyString
                       else String c EmptyString
      | kept => String c kept
      end
  end.

(** [s.strip()]. *)
Definition strip (s : string) : string := rstrip (lstrip s).

(** [s.isascii()]: every character is below 128.  On such text the
    functions above that stop at ASCII, [str_lower] and [strip], are
    [str.lower()] and [str.strip()]. *)
Definition isascii (s : string) : bool :=
  forallb (fun c => (nat_of_ascii c <? 128)%nat) (list_ascii_of_string s).

(** [s.replace(a, b)] for two one-character strings. *)
Fixpoint replace_char (a b : ascii) (s : string) : string :=
  match s with
  | EmptyString => EmptyString
  | String c rest =>
      String (if Ascii.eqb c a then b else c) (replace_char a b rest)
  end.

(** [v.replace(a, b)]: only a str has the method. *)
Definition replace (v : value) (a b : ascii) : result string :=
  match v with
  | VStr s => Ok (replace_char a b s)
  | _ => Raise (no_attribute v "replace")
  end.

(** [v / n] for an integer [n] that is not zero: the quotient as the
    rational the float stands for; only numbers can be divided. *)
Definition true_div (v : value) (n : Z) : result Q :=
  match v with
  | VInt z => Ok (Qmake z 1 / inject_Z n)%Q
  | VFloat q => Ok (q / inject_Z n)%Q
  | VBool b => Ok (Qmake (if b then 1 else 0) 1 / inject_Z n)%Q
  | _ => Raise (type_error
                  ("unsupported operand type(s) for /: '" ++ type_name v
                   ++ "' and 'int'"))
  end.

End PyMore.

(* ================================================================== *)
(** ** shared/utils/config.py                                          *)
(* ================================================================== *)

Module Config.

(** [os.environ]. *)
Definition environ : Type := string -> option string.

(** [os.environ.get(name, default)]. *)
Definition environ_get (env : environ) (name default : string) : string :=
  match env name with
  | Some v => v
  | None => default
  end.

(** The class [Config], by the four attributes its methods read; each
    is a string, the empty one when the variable is not set. *)
Record Config : Type := mk_config {
  AZURE_AI_SERVICE_ENDPOINT : string;
  AZURE_OPENAI_ENDPOINT : string;
  AZURE_SEARCH_ENDPOINT : string;
  AZURE_STORAGE_CONNECTION_STRING : string
}.

Definition load (env : environ) : Config :=
  mk_config (environ_get env "AZURE_AI_SERVICE_ENDPOINT" "")
            (environ_get env "AZURE_OPENAI_ENDPOINT" "")
            (environ_get env "AZURE_SEARCH_ENDPOINT" "")
            (environ_get env "AzureWebJobsStorage" "").

Definition SUPPORTED_VIDEO_FORMATS : list string :=
  [ "video/mp4"; "video/avi"; "video/mov"; "video/wmv";
    "video/flv"; "video/webm"; "video/quicktime"; "video/x-msvideo" ].

Definition SUPPORTED_VIDEO_EXTENSIONS : list string :=
  [ ".mp4"; ".avi"; ".mov"; ".wmv"; ".flv"; ".webm"; ".mkv" ].

(** A string in a condition, and [bool(s)]. *)
Definition nonempty (s : string) : bool := negb (String.eqb s "").

Definition development_storage : string := "UseDevelopmentStorage=true".

(** The dict that [validate_configuration] returns. *)
Record validation : Type := mk_validation {
  valid : bool;
  errors : list string;
  warnings : list string;
  services : list (string * bool)
}.

Definition warn (r : validation) (msg : string) : validation :=
  mk_validation (valid r) (errors r) (warnings r ++ [msg]) (services r).

Definition set_service (r : validation) (name : string) (b : bool)
  : validation :=
  mk_validation (valid r) (errors r) (warnings r)
    (setitem (services r) name b).

(** [Config.validate_configuration()]. *)
Definition validate_configuration (cls : Config) : validation :=
  let results := mk_validation true [] [] [] in
  let results :=
    if nonempty (AZURE_AI_SERVICE_ENDPOINT cls) then results
    else warn results
           "Azure AI Service endpoint not configured - will use simulation mode" in
  let results :=
    set_service results "azure_ai" (nonempty (AZURE_AI_SERVICE_ENDPOINT cls)) in
  let results :=
    if nonempty (AZURE_OPENAI_ENDPOINT cls) then results
    else warn results
           "Azure OpenAI endpoint not configured - will use simulation mode" in
  let results :=
    set_service results "azure_openai" (nonempty (AZURE_OPENAI_ENDPOINT cls)) in
  let results :=
    if nonempty (AZURE_SEARCH_ENDPOINT cls) then results
    else warn results
           "Azure Search endpoint not configured - will use simulation mode" in
  let results :=
    set_service results "azure_search" (nonempty (AZURE_SEARCH_ENDPOINT cls)) in
  let results :=
    if orb (negb (nonempty (AZURE_STORAGE_CONNECTION_STRING cls)))
           (String.eqb (AZURE_STORAGE_CONNECTION_STRING cls)
              development_storage)
    then warn results
           "Using development storage - not suitable for production"
    else results in
  set_service results "azure_storage"
    (nonempty (AZURE_STORAGE_CONNECTION_STRING cls)).

(** [Config.get_service_status()]. *)
Definition get_service_status (cls : Config) : list (string * string) :=
  [ ("azure_ai",
     if nonempty (AZURE_AI_SERVICE_ENDPOINT cls)
     then "configured" else "simulation");
    ("azure_openai",
     if nonempty (AZURE_OPENAI_ENDPOINT cls)
     then "configured" else "simulation");
    ("azure_search",
     if nonempty (AZURE_SEARCH_ENDPOINT cls)
     then "configured" else "simulation");
    ("azure_storage",
     if andb (nonempty (AZURE_STORAGE_CONNECTION_STRING cls))
             (negb (String.eqb (AZURE_STORAGE_CONNECTION_STRING cls)
                      development_storage))
     then "configured" else "development") ].

(** [is_video_file(content_type=None, filename=None)] of the shared
    utilities. *)
Definition is_video_file (content_type filename : value) : result bool :=
  hit <- (if truthy content_type
          then lc <- lower content_type ;;
               Ok (existsb (String.eqb lc) SUPPORTED_VIDEO_FORMATS)
          else Ok false) ;;
  if (hit : bool) then Ok true
  else if truthy filename
       then lf <- lower filename ;;
            Ok (existsb (fun ext => str_endswith lf ext)
                  SUPPORTED_VIDEO_EXTENSIONS)
       else Ok false.

(** [get_file_size_category(size_mb)], on a size given as the rational
    the float stands for. *)
Definition get_file_size_category (size_mb : Q) : string :=
  if Qlt_le_dec size_mb 10 then "small"
  else if Qlt_le_dec size_mb 100 then "medium"
  else if Qlt_le_dec size_mb 500 then "large"
  else "extra_large".

(** The order of the four categories. *)
Definition category_rank (category : string) : nat :=
  if String.eqb category "small" then 0
  else if String.eqb category "medium" then 1
  else if String.eqb category "large" then 2
  else 3.

End Config.

(* ================================================================== *)
(** ** shared/clients/openai_client.py: embeddings                     *)
(* ================================================================== *)

Module OpenAIClient.

(** [range(0, stop, step)] for a positive [step]. *)
Definition range_step (stop step : nat) : list nat :=
  map (fun k => k * step)%nat (seq 0 ((stop + step - 1) / step)).

(** [l[i:j]] for [0 <= i <= j]. *)
Definition slice {A : Type} (l : list A) (i j : nat) : list A :=
  firstn (j - i) (skipn i l).

(** [a or b] on two optional strings, and the test [if not x]. *)
Definition or_else (a b : option string) : option string :=
  match a with
  | Some s => if String.eqb s "" then b else a
  | None => b
  end.

Definition is_set (a : option string) : bool :=
  match a with
  | Some s => negb (String.eqb s "")
  | None => false
  end.

Definition batch_size : nat := 16.

Section Embeddings.

(** The embeddings endpoint of the OpenAI library, with the list
    [[item.embedding for item in response.data]] read off its
    response: it answers a batch of texts with vectors, or raises, and
    moves the world on.  A vector is a list of floats. *)
Variable Float : Type.
Variable World : Type.
Variable embeddings_create :
  string -> list string -> World -> result (list (list Float)) * World.

(** What one call of [generate_embeddings] did: the batches it sent,
    in order, how it ended, and the world it left. *)
Record embedding_run : Type := mk_embedding_run {
  requests : list (list string);
  outcome : result (list (list Float));
  after : World
}.

(** The loop [for i in range(0, len(texts), batch_size)], from the
    starts that are left, with the embeddings gathered so far. *)
Fixpoint embed_batches (deployment : string) (texts : list string)
    (starts : list nat) (embeddings : list (list Float)) (w : World)
  : embedding_run :=
  match starts with
  | [] => mk_embedding_run [] (Ok embeddings) w
  | i :: rest =>
      let batch := slice texts i (i + batch_size) in
      match embeddings_create deployment batch w with
      | (Raise e, w') => mk_embedding_run [batch] (Raise e) w'
      | (Ok batch_embeddings, w') =>
          let r := embed_batches deployment texts rest
                     (embeddings ++ batch_embeddings) w' in
          mk_embedding_run (batch :: requests r) (outcome r) (after r)
      end
  end.

(** The service asked for [batches] one after the other, from the
    world [w]: its answers in order, and the world it leaves. *)
Fixpoint ask_each (deployment : string) (batches : list (list string))
    (w : World) : list (result (list (list Float))) * World :=
  match batches with
  | [] => ([], w)
  | batch :: rest =>
      let '(answer, w') := embeddings_create deployment batch w in
      let '(answers, w_end) := ask_each deployment rest w' in
      (answer :: answers, w_end)
  end.

(** [AzureOpenAIClient.generate_embeddings(texts, deployment_name)] on
    a client whose [embedding_deployment] is given.  The handler
    [except Exception as e: ...; raise] re-raises. *)
Definition generate_embeddings (embedding_deployment : option string)
    (texts : list string) (deployment_name : option string) (w : World)
  : embedding_run :=
  let deployment := or_else deployment_name embedding_deployment in
  if is_set deployment
  then embed_batches
         match deployment with Some s => s | None => "" end
         texts (range_step (List.length texts) batch_size) [] w
  else mk_embedding_run []
         (Raise (mk_exn ValueError "Embedding deployment name not configured"))
         w.

(** [generate_single_embedding(text, deployment_name)]:
    [embeddings[0] if embeddings else []]. *)
Definition generate_single_embedding (embedding_deployment : option string)
    (text : string) (deployment_name : option string) (w : World)
  : result (list Float) * World :=
  let r := generate_embeddings embedding_deployment [text] deployment_name w in
  (embeddings <- outcome r ;;
   Ok match embeddings with
      | first :: _ => first
      | [] => []
      end,
   after r).

End Embeddings.

Arguments requests {Float World} _.
Arguments outcome {Float World} _.
Arguments after {Float World} _.

End OpenAIClient.

(* ================================================================== *)
(** ** shared/clients/search_client.py                                 *)
(* ================================================================== *)

Module SearchClient.

(** An [IndexingResult] of the Azure SDK, by the attributes the code
    reads. *)
Record IndexingResult : Type := mk_indexing_result {
  key : value;
  succeeded : bool;
  error_message : value
}.

Definition failed (r : IndexingResult) : bool := negb (succeeded r).

Section Sdk.

(** [SearchClient.upload_documents] of the SDK: the results, one per
    document, or an exception. *)
Variable sdk_upload_documents : list value -> result (list IndexingResult).

(** [AzureSearchClient.upload_documents(documents)].  The handler
    re-raises. *)
Definition upload_documents (documents : list value) : result value :=
  results <- sdk_upload_documents documents ;;
  let successful_count := List.length (filter succeeded results) in
  let failed_docs :=
    map (fun r => VDict [ ("key", key r); ("error", error_message r) ])
        (filter failed results) in
  Ok (VDict [ ("successful_count", VInt (Z.of_nat successful_count));
              ("failed_count", VInt (Z.of_nat (List.length failed_docs)));
              ("failed_documents", VList failed_docs);
              ("status", VStr "completed") ]).

(** [AzureSearchClient.upload_document(document)]. *)
Definition upload_document (document : value) : result value :=
  upload_documents [document].

End Sdk.

End SearchClient.

(* ================================================================== *)
(** ** shared/clients/azure_ai_client.py: the segments                 *)
(* ================================================================== *)

Module AzureAIClient.

Section Segments.

(** [json.dumps] and [str] on a value, and the text of
    [datetime.now(timezone.utc).isoformat()]. *)
Variable json_dumps : value -> string.
Variable py_str : value -> string.
Variable now_isoformat : string.

Definition is_dict (v : value) : bool :=
  match v with
  | VDict _ => true
  | _ => false
  end.

(** The loop over [enumerate(contents)], from index [i]. *)
Fixpoint process_segments (i : nat) (contents : list value) : list value :=
  match contents with
  | [] => []
  | segment :: rest =>
      VDict [ ("segment_id", VInt (Z.of_nat (i + 1)));
              ("content", segment);
              ("text_content",
               VStr (if is_dict segment then json_dumps segment
                     else py_str segment)) ]
      :: process_segments (S i) rest
  end.

(** [ContentUnderstandingClient.extract_video_segments(analysis_result)].
    The handler re-raises. *)
Definition extract_video_segments (analysis_result : value) : result value :=
  missing <- (if truthy analysis_result
              then present <- PyMore.contains "result" analysis_result ;;
                   Ok (negb present)
              else Ok true) ;;
  if (missing : bool)
  then Raise (mk_exn ValueError "Invalid analysis result format")
  else
    inner <- PyMore.subscript analysis_result "result" ;;
    contents <- get inner "contents" (VList []) ;;
    items <- PyMore.iterate contents ;;
    let segments := process_segments 0 items in
    Ok (VDict
          [ ("total_segments", VInt (Z.of_nat (List.length segments)));
            ("segments", VList segments);
            ("analysis_metadata",
             VDict [ ("processed_at", VStr now_isoformat);
                     ("original_result_keys",
                      match analysis_result with
                      | VDict d => VList (map (fun kv => VStr (fst kv)) d)
                      | _ => VList []
                      end) ]) ]).

End Segments.

End AzureAIClient.

(* ================================================================== *)
(** ** StoreInAzureSearch                                              *)
(* ================================================================== *)

Module StoreInAzureSearch.

Import Orchestrator SearchClient.

(** [obj.get(k1, {}).get(k2, default)]. *)
Definition get_in (obj : value) (k1 k2 : string) (default : value)
  : result value :=
  inner <- get obj k1 (VDict []) ;;
  get inner k2 default.

(** [[x.get(key, default) for x in v]]. *)
Definition pluck (v : value) (key : string) (default : value)
  : result (list value) :=
  items <- PyMore.iterate v ;;
  PyMore.map_result (fun x => get x key default) items.

(** A value inside an f-string: a string as it is, anything else by
    its [str()]. *)
Definition format_value (py_str : value -> string) (v : value) : string :=
  match v with
  | VStr s => s
  | _ => py_str v
  end.

(** [int(d.timestamp())] of a datetime kept in microseconds. *)
Definition int_timestamp (d : datetime) : Z := Z.quot d 1000000.

(** [os.environ.get(name)] in a condition. *)
Definition env_set (environ : string -> option string) (name : string)
  : bool :=
  match environ name with
  | Some s => negb (String.eqb s "")
  | None => false
  end.

Section Activity.

(** The process around the activity: [os.environ]; the SDK clients
    that [_setup_clients] builds from the endpoint, the index name and
    the admin key, or the exception of their constructors; the upload
    call of the SDK; [str()]; the readings of [datetime.now], numbered
    from 0 within one call of a function; [isoformat()]. *)
Variable environ : string -> option string.
Variable Sdk : Type.
Variable make_sdk : string -> string -> option string -> result Sdk.
Variable sdk_upload_documents : Sdk -> list value -> result (list IndexingResult).
Variable py_str : value -> string.
Variable now : nat -> datetime.
Variable isoformat : datetime -> string.

(** An [AzureSearchClient]. *)
Record AzureSearchClient : Type := mk_client {
  endpoint : option string;
  index_name : string;
  admin_key : option string;
  sdk : Sdk
}.

(** [AzureSearchClient()]: [__init__] and [_setup_clients]. *)
Definition new_client : result AzureSearchClient :=
  let endpoint := environ "AZURE_SEARCH_ENDPOINT" in
  let index_name := match environ "AZURE_SEARCH_INDEX_NAME" with
                    | Some s => s
                    | None => "videos"
                    end in
  let admin_key := environ "AZURE_SEARCH_ADMIN_KEY" in
  match endpoint with
  | Some (String c rest) =>
      clients <- make_sdk (String c rest) index_name
                   match admin_key with
                   | Some (String k key) => Some (String k key)
                   | _ => None
                   end ;;
      Ok (mk_client endpoint index_name admin_key clients)
  | _ => Raise (mk_exn ValueError "AZURE_SEARCH_ENDPOINT not configured")
  end.

(** [get_search_client()], on the global [_search_client_instance]:
    the client and the new value of the global. *)
Definition get_search_client (instance : option AzureSearchClient)
  : result AzureSearchClient * option AzureSearchClient :=
  match instance with
  | Some client => (Ok client, instance)
  | None =>
      match new_client with
      | Ok client => (Ok client, Some client)
      | Raise e => (Raise e, None)
      end
  end.

(** The entries of the search document after ["id"], in the order of
    the dict display. *)
Definition document_fields (video_info metadata analysis embeddings : value)
    (file_info insights transcript : value) : result (list (string * value)) :=
  video_name <- get video_info "blob_name" (VStr "") ;;
  container_name <- get video_info "container_name" (VStr "") ;;
  blob_url <- get video_info "blob_url" (VStr "") ;;
  file_size_mb <- get file_info "size_mb" (VInt 0) ;;
  content_type <- get file_info "content_type" (VStr "") ;;
  upload_time <- get file_info "creation_time" (VStr (isoformat (now 1))) ;;
  last_modified <- get file_info "last_modified" (VStr (isoformat (now 2))) ;;
  duration_seconds <-
    get_in metadata "video_properties" "duration_seconds" (VInt 0) ;;
  resolution <- get_in metadata "video_properties" "resolution" (VStr "") ;;
  frame_rate <- get_in metadata "video_properties" "frame_rate" (VInt 0) ;;
  text <- get transcript "text" (VStr "") ;;
  language <- get transcript "language" (VStr "") ;;
  transcript_confidence <- get transcript "confidence" (VInt 0) ;;
  topics_v <- get insights "topics" (VList []) ;;
  topics <- pluck topics_v "name" (VStr "") ;;
  labels_v <- get insights "labels" (VList []) ;;
  labels <- pluck labels_v "name" (VStr "") ;;
  scenes_v <- get insights "scenes" (VList []) ;;
  scene_items <- PyMore.iterate scenes_v ;;
  scenes <- PyMore.map_result
              (fun scene =>
                 description <- get scene "description" (VStr "") ;;
                 start_time <- get scene "start" (VInt 0) ;;
                 end_time <- get scene "end" (VInt 0) ;;
                 Ok (VDict [ ("description", description);
                             ("start_time", start_time);
                             ("end_time", end_time) ]))
              scene_items ;;
  keyframes_v <- get insights "keyframes" (VList []) ;;
  keyframe_items <- PyMore.iterate keyframes_v ;;
  keyframes <- PyMore.map_result
                 (fun kf =>
                    time <- get kf "time" (VInt 0) ;;
                    description <- get kf "description" (VStr "") ;;
                    confidence <- get kf "confidence" (VInt 0) ;;
                    Ok (VDict [ ("time", time);
                                ("description", description);
                                ("confidence", confidence) ]))
                 keyframe_items ;;
  faces_v <- get insights "faces" (VList []) ;;
  faces_detected <- PyMore.len faces_v ;;
  faces_v' <- get insights "faces" (VList []) ;;
  face_names <- pluck faces_v' "name" (VStr "") ;;
  let processed_at := isoformat (now 3) in
  analysis_id <- get analysis "analysis_id" (VStr "") ;;
  vectors <- get embeddings "embeddings" (VDict []) ;;
  transcript_vector <- get_in vectors "combined_content" "vector" (VList []) ;;
  vectors' <- get embeddings "embeddings" (VDict []) ;;
  topics_vector <- get_in vectors' "topics" "vector" (VList []) ;;
  vectors'' <- get embeddings "embeddings" (VDict []) ;;
  scenes_vector <- get_in vectors'' "scenes" "vector" (VList []) ;;
  text' <- get transcript "text" (VStr "") ;;
  topics_v' <- get insights "topics" (VList []) ;;
  topics' <- pluck topics_v' "name" (VStr "") ;;
  topics_text <- PyMore.join " " topics' ;;
  labels_v' <- get insights "labels" (VList []) ;;
  labels' <- pluck labels_v' "name" (VStr "") ;;
  labels_text <- PyMore.join " " labels' ;;
  let searchable_content :=
    PyMore.strip (format_value py_str text' ++ " " ++ topics_text ++ " "
                  ++ labels_text) in
  Ok [ ("video_name", video_name);
       ("container_name", container_name);
       ("blob_url", blob_url);
       ("file_size_mb", file_size_mb);
       ("content_type", content_type);
       ("upload_time", upload_time);
       ("last_modified", last_modified);
       ("duration_seconds", duration_seconds);
       ("resolution", resolution);
       ("frame_rate", frame_rate);
       ("transcript", text);
       ("language", language);
       ("transcript_confidence", transcript_confidence);
       ("topics", VList topics);
       ("labels", VList labels);
       ("scenes", VList scenes);
       ("keyframes", VList keyframes);
       ("faces_detected", VInt (Z.of_nat faces_detected));
       ("face_names", VList face_names);
       ("processed_at", VStr processed_at);
       ("analysis_id", analysis_id);
       ("processing_version", VStr "1.0");
       ("transcript_vector", transcript_vector);
       ("topics_vector", topics_vector);
       ("scenes_vector", scenes_vector);
       ("searchable_content", VStr searchable_content) ].

(** The document identifier of [prepare_search_document]. *)
Definition new_document_id (video_info : value) : result string :=
  blob_name <- get video_info "blob_name" (VStr "") ;;
  dotless <- PyMore.replace blob_name "."%char "_"%char ;;
  Ok ("video_" ++ PyMore.replace_char " "%char "_"%char dotless ++ "_"
      ++ PyMore.str_of_Z (int_timestamp (now 0)))%string.

(** [prepare_search_document(video_info, metadata, analysis, embeddings)]. *)
Definition prepare_search_document
    (video_info metadata analysis embeddings : value) : result value :=
  document_id <- new_document_id video_info ;;
  file_info <- get metadata "file_info" (VDict []) ;;
  insights <- get analysis "insights" (VDict []) ;;
  transcript <- get insights "transcript" (VDict []) ;;
  fields <- document_fields video_info metadata analysis embeddings
              file_info insights transcript ;;
  Ok (VDict (("id", VStr document_id) :: fields)).

(** [simulate_search_storage(video_info, metadata, analysis, embeddings)]. *)
Definition simulate_search_storage
    (video_info metadata analysis embeddings : value) : result value :=
  blob_name <- get video_info "blob_name" (VStr "sample") ;;
  dotless <- PyMore.replace blob_name "."%char "_"%char ;;
  let document_id :=
    ("video_" ++ dotless ++ "_"
     ++ PyMore.str_of_Z (int_timestamp (now 0)))%string in
  Ok (VDict
        [ ("document_id", VStr document_id);
          ("index_name", VStr "videos");
          ("operation", VStr "upload");
          ("status", VStr "succeeded");
          ("timestamp", VStr (isoformat (now 1)));
          ("document_size_kb", VFloat (256 # 10));
          ("indexing_duration_ms", VInt 450);
          ("search_url",
           VStr ("https://example-search.search.windows.net/indexes/videos/docs/"
                 ++ document_id)) ]).

(** The [try] block of [main]. *)
Definition store (instance : option AzureSearchClient)
    (video_info metadata analysis embeddings : value)
  : result value * option AzureSearchClient :=
  match get_search_client instance with
  | (Raise e, instance') => (Raise e, instance')
  | (Ok search_client, instance') =>
      (if env_set environ "AZURE_SEARCH_ENDPOINT"
       then
         search_document <-
           prepare_search_document video_info metadata analysis embeddings ;;
         storage_result <-
           upload_document (sdk_upload_documents (sdk search_client))
             search_document ;;
         document_id <- get search_document "id" VNone ;;
         Ok (VDict [ ("document_id", document_id);
                     ("status", VStr "success");
                     ("upload_result", storage_result) ])
       else simulate_search_storage video_info metadata analysis embeddings,
       instance')
  end.

(** [main(input_data)], with the global client instance before and
    after.  The four entries of the input and the blob name of the log
    line are read before the [try]; the handler wraps whatever the
    [try] block raises. *)
Definition main (instance : option AzureSearchClient) (input_data : value)
  : result value * option AzureSearchClient :=
  match (video_info <- get input_data "video_info" (VDict []) ;;
         metadata <- get input_data "metadata" (VDict []) ;;
         analysis <- get input_data "analysis" (VDict []) ;;
         embeddings <- get input_data "embeddings" (VDict []) ;;
         _ <- log_blob_name video_info ;;
         Ok (video_info, metadata, analysis, embeddings)) with
  | Raise e => (Raise e, instance)
  | Ok (video_info, metadata, analysis, embeddings) =>
      match store instance video_info metadata analysis embeddings with
      | (Ok r, instance') => (Ok r, instance')
      | (Raise e, instance') =>
          (Raise (mk_exn Exception ("Search storage failed: " ++ exn_msg e)),
           instance')
      end
  end.

End Activity.

End StoreInAzureSearch.

(* ================================================================== *)
(** ** ExtractVideoMetadata                                            *)
(* ================================================================== *)

Module ExtractVideoMetadata.

Import Orchestrator.

(** The [BlobProperties] of the storage SDK, by the attributes the
    code reads. *)
Record BlobProperties : Type := mk_properties {
  size : Z;
  content_type : value;
  creation_time : option datetime;
  last_modified : option datetime;
  etag : value
}.

Section Activity.

(** [os.environ]; the storage SDK: the service client of a connection
    string, and the properties of a blob of a container, each of which
    may raise; [round(x, ndigits)] on a float, by the rationals they
    stand for; the readings of [datetime.now], numbered from 0 within
    one call of a function; [isoformat()]. *)
Variable environ : string -> option string.
Variable BlobServiceClient : Type.
Variable from_connection_string : string -> result BlobServiceClient.
Variable get_blob_properties :
  BlobServiceClient -> value -> value -> result BlobProperties.
Variable round_to : nat -> Q -> Q.
Variable now : nat -> datetime.
Variable isoformat : datetime -> string.

Definition iso_or_none (t : option datetime) : value :=
  match t with
  | Some d => VStr (isoformat d)
  | None => VNone
  end.

(** [simulate_metadata_extraction(video_info)]. *)
Definition simulate_metadata_extraction (video_info : value) : result value :=
  blob_name <- get video_info "blob_name" (VStr "sample_video.mp4") ;;
  container_name <- get video_info "container_name" (VStr "videos") ;;
  blob_url <- get video_info "blob_url"
                (VStr "https://example.com/sample_video.mp4") ;;
  size_bytes <- get video_info "content_length" (VInt 10485760) ;;
  content_length <- get video_info "content_length" (VInt 10485760) ;;
  megabytes <- PyMore.true_div content_length (1024 * 1024) ;;
  content_type <- get video_info "content_type" (VStr "video/mp4") ;;
  Ok (VDict
        [ ("file_info",
           VDict [ ("blob_name", blob_name);
                   ("container_name", container_name);
                   ("blob_url", blob_url);
                   ("size_bytes", size_bytes);
                   ("size_mb", VFloat (round_to 2 megabytes));
                   ("content_type", content_type);
                   ("creation_time", VStr (isoformat (now 0)));
                   ("last_modified", VStr (isoformat (now 1)));
                   ("etag", VStr "mock-etag-12345") ]);
          ("processing_info",
           VDict [ ("extracted_at", VStr (isoformat (now 2)));
                   ("extraction_status", VStr "completed") ]);
          ("video_properties",
           VDict [ ("duration_seconds", VInt 120);
                   ("resolution", VStr "1920x1080");
                   ("frame_rate", VInt 30);
                   ("codec", VStr "h264");
                   ("bitrate", VInt 2000) ]) ]).

(** The [try] block of [main]. *)
Definition extract (video_info : value) : result value :=
  match environ "AzureWebJobsStorage" with
  | Some (String c rest) =>
      let storage_connection_string := String c rest in
      if String.eqb storage_connection_string "UseDevelopmentStorage=true"
      then simulate_metadata_extraction video_info
      else
        blob_service_client <-
          from_connection_string storage_connection_string ;;
        container_name <- get video_info "container_name" (VStr "videos") ;;
        blob_name <- get video_info "blob_name" VNone ;;
        blob_properties <-
          get_blob_properties blob_service_client container_name blob_name ;;
        blob_url <- get video_info "blob_url" VNone ;;
        Ok (VDict
              [ ("file_info",
                 VDict
                   [ ("blob_name", blob_name);
                     ("container_name", container_name);
                     ("blob_url", blob_url);
                     ("size_bytes", VInt (size blob_properties));
                     ("size_mb",
                      VFloat (round_to 2
                                (Qmake (size blob_properties) 1
                                 / inject_Z (1024 * 1024))%Q));
                     ("content_type", content_type blob_properties);
                     ("creation_time",
                      iso_or_none (creation_time blob_properties));
                     ("last_modified",
                      iso_or_none (last_modified blob_properties));
                     ("etag", etag blob_properties) ]);
                ("processing_info",
                 VDict [ ("extracted_at", VStr (isoformat (now 0)));
                         ("extraction_status", VStr "completed") ]);
                ("video_properties",
                 VDict [ ("duration_seconds", VNone);
                         ("resolution", VNone);
                         ("frame_rate", VNone);
                         ("codec", VNone);
                         ("bitrate", VNone) ]) ])
  | _ => simulate_metadata_extraction video_info
  end.

(** [main(video_info)].  The blob name of the log line is read before
    the [try]; the handler wraps whatever the [try] block raises. *)
Definition main (video_info : value) : result value :=
  _ <- log_blob_name video_info ;;
  match extract video_info with
  | Ok metadata => Ok metadata
  | Raise e =>
      Raise (mk_exn Exception ("Metadata extraction failed: " ++ exn_msg e))
  end.

End Activity.

End ExtractVideoMetadata.

(* ================================================================== *)
(** ** GenerateVideoInsights and GenerateEmbeddings: the contexts      *)
(* ================================================================== *)

Module Contexts.

Import StoreInAzureSearch.

Section InsightsContext.

(** [round(x, ndigits)] on a float, by the rationals they stand for. *)
Variable round_to : nat -> Q -> Q.

(** [[x.get('name', '') for x in v[:n]]]. *)
Definition first_names (v : value) (n : nat) : result (list value) :=
  head <- PyMore.slice_to v n ;;
  pluck head "name" (VStr "").

(** [prepare_insights_context(video_info, metadata, analysis)] of
    GenerateVideoInsights. *)
Definition prepare_insights_context (video_info metadata analysis : value)
  : result value :=
  insights <- get analysis "insights" (VDict []) ;;
  video_name <- get video_info "blob_name" (VStr "") ;;
  duration_seconds <-
    get_in metadata "video_properties" "duration_seconds" (VInt 0) ;;
  minutes <- PyMore.true_div duration_seconds 60 ;;
  file_size_mb <- get_in metadata "file_info" "size_mb" (VInt 0) ;;
  transcript <- get_in insights "transcript" "text" (VStr "") ;;
  topics_v <- get insights "topics" (VList []) ;;
  topics <- first_names topics_v 10 ;;
  labels_v <- get insights "labels" (VList []) ;;
  labels <- first_names labels_v 15 ;;
  scenes_v <- get insights "scenes" (VList []) ;;
  scenes_count <- PyMore.len scenes_v ;;
  faces_v <- get insights "faces" (VList []) ;;
  faces_detected <- PyMore.len faces_v ;;
  keyframes_v <- get insights "keyframes" (VList []) ;;
  keyframes_count <- PyMore.len keyframes_v ;;
  language <- get_in insights "transcript" "language" (VStr "Unknown") ;;
  Ok (VDict [ ("video_name", video_name);
              ("duration_minutes", VFloat (round_to 1 minutes));
              ("file_size_mb", file_size_mb);
              ("transcript", transcript);
              ("topics", VList topics);
              ("labels", VList labels);
              ("scenes_count", VInt (Z.of_nat scenes_count));
              ("faces_detected", VInt (Z.of_nat faces_detected));
              ("keyframes_count", VInt (Z.of_nat keyframes_count));
              ("language", language) ]).

End InsightsContext.

Section EmbeddingText.

(** [str()] of a value that is not a string, inside an f-string. *)
Variable py_str : value -> string.

(** [' '.join([x.get(key, '') for x in v])]. *)
Definition joined (v : value) (key : string) : result string :=
  names <- pluck v key (VStr "") ;;
  PyMore.join " " names.

(** [prepare_text_for_embedding(analysis)] of GenerateEmbeddings. *)
Definition prepare_text_for_embedding (analysis : value) : result value :=
  insights <- get analysis "insights" (VDict []) ;;
  transcript <- get insights "transcript" (VDict []) ;;
  full_transcript <- get transcript "text" (VStr "") ;;
  topics <- get insights "topics" (VList []) ;;
  topics_text <- joined topics "name" ;;
  labels <- get insights "labels" (VList []) ;;
  labels_text <- joined labels "name" ;;
  scenes <- get insights "scenes" (VList []) ;;
  scenes_text <- joined scenes "description" ;;
  keyframes <- get insights "keyframes" (VList []) ;;
  keyframes_text <- joined keyframes "description" ;;
  Ok (VDict
        [ ("full_transcript", full_transcript);
          ("topics", VStr topics_text);
          ("labels", VStr labels_text);
          ("scenes", VStr scenes_text);
          ("keyframes", VStr keyframes_text);
          ("combined_content",
           VStr (PyMore.strip
                   (format_value py_str full_transcript ++ " " ++ topics_text
                    ++ " " ++ labels_text ++ " " ++ scenes_text ++ " "
                    ++ keyframes_text))) ]).

End EmbeddingText.

End Contexts.

(* ================================================================== *)
(** ** VideoProcessingStatus: the status descriptions                  *)
(* ================================================================== *)

Module StatusText.

Fixpoint assoc {V : Type} (key : string) (d : list (string * V)) : option V :=
  match d with
  | [] => None
  | (k, v) :: rest => if String.eqb k key then Some v else assoc key rest
  end.

(** The dict [status_descriptions] of [format_runtime_status]. *)
Definition status_descriptions : list (string * list (string * string)) :=
  [ ("Running",
     [ ("description", "Video processing is currently in progress");
       ("expected_actions", "Please wait for completion") ]);
    ("Completed",
     [ ("description", "Video processing completed successfully");
       ("expected_actions", "Results are available in the output") ]);
    ("Failed",
     [ ("description", "Video processing failed");
       ("expected_actions", "Check error details and retry if needed") ]);
    ("Canceled",
     [ ("description", "Video processing was canceled");
       ("expected_actions", "Restart processing if needed") ]);
    ("Terminated",
     [ ("description", "Video processing was terminated");
       ("expected_actions", "Check logs and restart if needed") ]);
    ("Pending",
     [ ("description", "Video processing is queued and will start soon");
       ("expected_actions", "Please wait for processing to begin") ]) ].

(** [format_runtime_status(status)]. *)
Definition format_runtime_status (status : string) : list (string * string) :=
  match assoc status status_descriptions with
  | Some d => d
  | None =>
      [ ("description", ("Unknown status: " ++ status)%string);
        ("expected_actions", "Contact support if this persists") ]
  end.

End StatusText.

(* ================================================================== *)
(** ** Further fixtures                                                *)
(* ================================================================== *)

Module MoreFixtures.

Import Orchestrator.

(** A stub invoker whose search stage answers [None] instead of a
    mapping; the other stages answer as [Fixtures.stub_invoker]. *)
Definition null_search_invoker (name : string) (input : value)
    (w : Fixtures.World) : result value * Fixtures.World :=
  (if String.eqb name "StoreInAzureSearch" then Ok VNone
   else Ok (Fixtures.stub_result name),
   S w).

Definition null_search_run : execution Fixtures.World :=
  orchestrate Fixtures.World null_search_invoker Fixtures.stub_clock
    Fixtures.demo_video 0%nat.

(** A store whose lookups fail, and one whose single status keeps an
    input that is no JSON text and a history of one event. *)
Definition failing_get_status (c : unit) (instance_id : string)
    (show_history show_history_output : bool)
  : result (option Status.DurableOrchestrationStatus) :=
  Raise (mk_exn Exception "store unavailable").

Definition history_status : Status.DurableOrchestrationStatus :=
  Status.mk_status (VStr "not json") VNone (Some 1000000%Z)
    (Some 13500000%Z) (Some "Completed") VNone
    (Some [ Status.mk_event (Some "ExtractVideoMetadata") "event"
              (Some 1000000%Z) (Some "TaskCompleted") ]).

Definition history_get_status (c : unit) (instance_id : string)
    (show_history show_history_output : bool)
  : result (option Status.DurableOrchestrationStatus) :=
  Ok (Some history_status).

Definition by_name_request : Status.HttpRequest :=
  Status.mk_request [] [("video_name", "demo.mp4")].

(** An embeddings service that answers every text with the same
    two-dimensional vector and counts its calls; and seventeen texts,
    one more than a batch holds. *)
Definition stub_embeddings_create (model : string) (batch : list string)
    (w : nat) : result (list (list Z)) * nat :=
  (Ok (map (fun _ => [0%Z; 1%Z]) batch), S w).

Definition seventeen_texts : list string := repeat "text" 17.

Definition stub_embedding_run : OpenAIClient.embedding_run Z nat :=
  OpenAIClient.generate_embeddings Z nat stub_embeddings_create
    (Some "text-embedding-ada-002") seventeen_texts None 0%nat.

(** An embeddings service that is out of order from its second call
    on, and forty texts, which make three batches. *)
Definition tired_embeddings_create (model : string) (batch : list string)
    (w : nat) : result (list (list Z)) * nat :=
  (match w with
   | O => Ok (map (fun _ => [0%Z; 1%Z]) batch)
   | S _ => Raise (mk_exn Exception "Service unavailable")
   end,
   S w).

Definition forty_texts : list string := repeat "text" 40.

Definition tired_embedding_run : OpenAIClient.embedding_run Z nat :=
  OpenAIClient.generate_embeddings Z nat tired_embeddings_create
    (Some "text-embedding-ada-002") forty_texts None 0%nat.

(** A search SDK that refuses every document; two environments; a
    built search client; the readings of a clock; the input of the
    search stage for the demo video. *)
Definition refusing_upload (documents : list value)
  : result (list SearchClient.IndexingResult) :=
  Ok (map (fun _ => SearchClient.mk_indexing_result
                      (VStr "video_demo") false (VStr "refused"))
          documents).

Definition no_environ (name : string) : option string := None.

Definition search_environ (name : string) : option string :=
  if String.eqb name "AZURE_SEARCH_ENDPOINT"
  then Some "https://search.example.net" else None.

Definition stub_make_sdk (endpoint index_name : string)
    (admin_key : option string) : result unit := Ok tt.

Definition stub_sdk_upload (sdk : unit) (documents : list value)
  : result (list SearchClient.IndexingResult) :=
  refusing_upload documents.

Definition stub_search_client : StoreInAzureSearch.AzureSearchClient unit :=
  StoreInAzureSearch.mk_client unit (Some "https://search.example.net")
    "videos" None tt.

Definition stub_now (reading : nat) : datetime :=
  (1700000000000000 + Z.of_nat reading)%Z.

Definition store_input : value :=
  VDict [ ("video_info", Fixtures.demo_video);
          ("metadata", VDict []);
          ("analysis", VDict []);
          ("embeddings", VDict []) ].

Definition nameless_input : value :=
  VDict [ ("video_info", VDict [("blob_name", VNone)]) ].

(** A storage account with one blob, and stand-ins for [round] and
    [json.dumps]. *)
Definition storage_environ (name : string) : option string :=
  if String.eqb name "AzureWebJobsStorage"
  then Some "DefaultEndpointsProtocol=https;AccountName=demo" else None.

Definition stub_blob_properties : ExtractVideoMetadata.BlobProperties :=
  ExtractVideoMetadata.mk_properties 12582912%Z (VStr "video/mp4")
    (Some 1000000%Z) None (VStr "0x8D").

Definition stub_storage (connection : string) : result unit := Ok tt.

Definition stub_get_blob_properties (service : unit)
    (container blob : value)
  : result ExtractVideoMetadata.BlobProperties :=
  Ok stub_blob_properties.

Definition stub_round (digits : nat) (q : Q) : Q := q.

Definition stub_json_dumps (v : value) : string := "{...}".

Definition demo_analysis : value :=
  VDict [ ("insights",
           VDict [ ("transcript", VDict [("text", VStr " hello ")]);
                   ("topics", VList [ VDict [("name", VStr "azure")];
                                      VDict [("name", VStr "cloud ")] ]) ]) ].

Definition demo_segments : value :=
  VDict [ ("result",
           VDict [ ("contents", VList [VStr "intro"; VDict []]) ]) ].

End MoreFixtures.

(* ================================================================== *)
(** ** Properties of the starter                                       *)
(* ================================================================== *)

Module StarterProps.

Import Starter.

Example split_demo :
  str_split "/"%char "/a//b" = [""; "a"; ""; "b"].
Proof. reflexivity. Qed.

Example lower_demo : str_lower "Clip.MKV" = "clip.mkv".
Proof. reflexivity. Qed.

Lemma str_split_nonempty (sep : ascii) (s : string) : str_split sep s <> [].
Proof.
  destruct s as [|c rest]; simpl; [discriminate|].
  destruct (Ascii.eqb c sep); [discriminate|].
  destruct (str_split sep rest); discriminate.
Qed.

(** [index] finds the first occurrence. *)
Lemma list_index_first (x : string) (pre post : list string) :
  ~ In x pre -> list_index x (pre ++ x :: post) = Ok (List.length pre).
Proof.
  induction pre as [|y pre IH]; simpl; intros Hnot.
  - now rewrite String.eqb_refl.
  - destruct (String.eqb_spec y x) as [->|_].
    + exfalso. apply Hnot. now left.
    + rewrite IH; [reflexivity|]. intros Hin. apply Hnot. now right.
Qed.

(** [index] raises [ValueError] when there is no occurrence. *)
Lemma list_index_absent (x : string) (l : list string) :
  ~ In x l -> exists msg, list_index x l = Raise (mk_exn ValueError msg).
Proof.
  induction l as [|y l IH]; simpl; intros Hnot.
  - eexists. reflexivity.
  - destruct (String.eqb_spec y x) as [->|_].
    + exfalso. apply Hnot. now left.
    + destruct IH as [msg ->]; [intros Hin; apply Hnot; now right|].
      eexists. reflexivity.
Qed.

Lemma nth_error_after (pre : list string) (x y : string) (post : list string) :
  nth_error (pre ++ x :: y :: post) (List.length pre + 1) = Some y.
Proof.
  induction pre as [|z pre IH]; simpl; [reflexivity|exact IH].
Qed.

(** The three ways a list of segments can stand to ["containers"]. *)
Lemma containers_cases (x : string) (l : list string) :
  ~ In x l
  \/ (exists pre, l = pre ++ [x] /\ ~ In x pre)
  \/ (exists pre nxt post, l = pre ++ x :: nxt :: post /\ ~ In x pre).
Proof.
  induction l as [|y l IH].
  - left. intros [].
  - destruct (String.eqb_spec y x) as [->|Hne].
    + right. destruct l as [|nxt post].
      * left. exists []. split; [reflexivity|intros []].
      * right. exists [], nxt, post. split; [reflexivity|intros []].
    + destruct IH as [Hnot | [[pre [-> Hpre]] | [pre [nxt [post [-> Hpre]]]]]].
      * left. intros [Heq|Hin]; [now apply Hne|now apply Hnot].
      * right. left. exists (y :: pre). split; [reflexivity|].
        intros [Heq|Hin]; [now apply Hne|now apply Hpre].
      * right. right. exists (y :: pre), nxt, post. split; [reflexivity|].
        intros [Heq|Hin]; [now apply Hne|now apply Hpre].
Qed.

Lemma extract_following (s : string) (pre : list string) (nxt : string)
    (post : list string) :
  str_split "/"%char s = pre ++ "containers" :: nxt :: post ->
  ~ In "containers" pre ->
  extract_container_name (VStr s) = Ok (VStr nxt).
Proof.
  intros Hsplit Hpre. unfold extract_container_name, split_slash.
  cbn [bind]. rewrite Hsplit, (list_index_first _ _ _ Hpre). cbn [bind].
  replace (List.length pre + 1 <? List.length (pre ++ "containers" :: nxt :: post))%nat
    with true.
  - unfold getitem. rewrite nth_error_after. reflexivity.
  - symmetry. apply Nat.ltb_lt. rewrite length_app. simpl. lia.
Qed.

Lemma extract_absent (s : string) :
  ~ In "containers" (str_split "/"%char s) ->
  extract_container_name (VStr s) = Ok (VStr "").
Proof.
  intros Hnot. unfold extract_container_name, split_slash. cbn [bind].
  destruct (list_index_absent _ _ Hnot) as [msg ->]. reflexivity.
Qed.

Lemma extract_final (s : string) (pre : list string) :
  str_split "/"%char s = pre ++ ["containers"] ->
  ~ In "containers" pre ->
  extract_container_name (VStr s) = Ok (VStr "").
Proof.
  intros Hsplit Hpre. unfold extract_container_name, split_slash.
  cbn [bind]. rewrite Hsplit, (list_index_first _ _ _ Hpre). cbn [bind].
  replace (List.length pre + 1 <? List.length (pre ++ ["containers"]))%nat
    with false; [reflexivity|].
  symmetry. apply Nat.ltb_ge. rewrite length_app. simpl. lia.
Qed.

Lemma not_containers_demo :
  ~ In "containers" [""; "blobServices"; "default"].
Proof. simpl. intros [H|[H|[H|[]]]]; discriminate. Qed.

(** C10: on every string [subject], [extract_container_name] returns a
    string and does not raise.  With [parts] the segments of [subject]
    between the slashes: when a ["containers"] segment is followed by a
    further segment, the result is the segment that follows the first
    one; when there is no ["containers"] segment, or the only one is the
    final segment, the result is the empty string. *)
Theorem extract_container_name_total (subject : string) :
  let parts := str_split "/"%char subject in
  (exists r : string, extract_container_name (VStr subject) = Ok (VStr r)) /\
  (forall pre nxt post,
      parts = pre ++ "containers" :: nxt :: post ->
      ~ In "containers" pre ->
      extract_container_name (VStr subject) = Ok (VStr nxt)) /\
  (~ In "containers" parts ->
   extract_container_name (VStr subject) = Ok (VStr "")) /\
  (forall pre,
      parts = pre ++ ["containers"] ->
      ~ In "containers" pre ->
      extract_container_name (VStr subject) = Ok (VStr "")).
Proof.
  intros parts. subst parts. repeat split.
  - destruct (containers_cases "containers" (str_split "/"%char subject))
      as [Hnot | [[pre [Hs Hpre]] | [pre [nxt [post [Hs Hpre]]]]]].
    + exists "". now apply extract_absent.
    + exists "". now apply (extract_final subject pre).
    + exists nxt. now apply (extract_following subject pre nxt post).
  - intros pre nxt post. apply extract_following.
  - apply extract_absent.
  - intros pre. apply extract_final.
Qed.

Lemma extract_container_name_total_witness :
  extract_container_name (VStr Fixtures.demo_subject) = Ok (VStr "videos").
Proof.
  apply (proj1 (proj2 (extract_container_name_total Fixtures.demo_subject))
           [""; "blobServices"; "default"] "videos" ["blobs"; "demo.mp4"]).
  - reflexivity.
  - exact not_containers_demo.
Defined.

(** C6: [is_video_file] answers by the content-type allow-list first
    and by the extension allow-list otherwise: on a content type and a
    name it is the disjunction of the two tests, in that order; without
    a name only the content type counts, without a content type only
    the extension.  The three cases of the spec come out as stated. *)
Theorem is_video_file_allow_lists :
  (forall ct name : string,
      is_video_file (VStr ct) (VStr name)
      = Ok (str_in (str_lower ct) video_content_types
            || existsb (str_endswith (str_lower name)) video_extensions)) /\
  (forall ct : string,
      is_video_file (VStr ct) VNone
      = Ok (str_in (str_lower ct) video_content_types)) /\
  (forall name : string,
      is_video_file VNone (VStr name)
      = Ok (existsb (str_endswith (str_lower name)) video_extensions)) /\
  is_video_file (VStr "video/mp4") (VStr "x") = Ok true /\
  is_video_file (VStr "") (VStr "clip.mkv") = Ok true /\
  is_video_file (VStr "image/png") (VStr "pic.png") = Ok false.
Proof.
  repeat split.
  - intros ct name. unfold is_video_file.
    destruct ct as [|c r].
    + destruct name; reflexivity.
    + change (truthy (VStr (String c r))) with true. cbn [lower bind].
      destruct (str_in (str_lower (String c r)) video_content_types);
        [reflexivity|].
      destruct name; reflexivity.
  - intros ct. unfold is_video_file.
    destruct ct as [|c r].
    + reflexivity.
    + change (truthy (VStr (String c r))) with true. cbn [lower bind].
      destruct (str_in (str_lower (String c r)) video_content_types);
        reflexivity.
  - intros name. unfold is_video_file. destruct name; reflexivity.
Qed.

Section MainProps.

Variable Client : Type.
Variable DurableOrchestrationClient : string -> result Client.
Variable start_new : Client -> string -> value -> result string.


(** C7: when the object of the event is classified as not a video,
    [main] sends no [start_new] request and returns normally; and
    whenever [main] sends a request, the classification was positive
    and the request is the single start of the orchestrator on the
    [video_info] that was classified. *)
Theorem non_video_is_skipped (event_data : value) (starter : string) :
  (forall vi,
      build_video_info event_data = Ok vi ->
      classify vi = Ok false ->
      main Client DurableOrchestrationClient start_new event_data starter
      = mk_run [] (Ok tt)) /\
  (start_requests
     (main Client DurableOrchestrationClient start_new event_data starter)
   <> [] ->
   exists vi,
     build_video_info event_data = Ok vi /\
     classify vi = Ok true /\
     start_requests
       (main Client DurableOrchestrationClient start_new event_data starter)
     = [(orchestration_function_name, vi)]).
Proof.
  unfold Starter.main. split.
  - intros vi Hb Hc. rewrite Hb. cbn [bind]. rewrite Hc. reflexivity.
  - destruct (build_video_info event_data) as [vi|e]; cbn [bind].
    + destruct (classify vi) as [[|]|e] eqn:Hc; cbn [bind start_requests].
      * destruct (DurableOrchestrationClient starter) as [c|e];
          cbn [start_requests]; intros H.
        -- exists vi. split; [reflexivity | split; [exact Hc | reflexivity]].
        -- now contradiction H.
      * intros H. now contradiction H.
      * intros H. now contradiction H.
    + cbn [start_requests]. intros H. now contradiction H.
Qed.

End MainProps.

Lemma non_video_is_skipped_witness :
  Starter.main unit Fixtures.stub_client Fixtures.stub_start_new
    Fixtures.image_event "starter"
  = mk_run [] (Ok tt).
Proof.
  eapply (proj1 (non_video_is_skipped unit Fixtures.stub_client
                   Fixtures.stub_start_new Fixtures.image_event "starter")).
  - vm_compute. reflexivity.
  - vm_compute. reflexivity.
Defined.

End StarterProps.

(* ================================================================== *)
(** ** Properties of the orchestrator                                  *)
(* ================================================================== *)

Module OrchestratorProps.

Import Orchestrator Contract.

(** Case analysis on the outcome of the next activity call of a run. *)
Ltac next_call :=
  match goal with
  | |- context [ match ?call ?name ?input ?w with pair _ _ => _ end ] =>
      let o := fresh "o" in
      let w' := fresh "w" in
      let v := fresh "v" in
      let e := fresh "e" in
      destruct (call name input w) as [o w'] eqn:?;
      destruct o as [v|e];
      cbn -[Z.sub total_seconds]
  end.

Ltac unfold_run :=
  unfold orchestrate, reexecute, execute, run_from, start, lifetime;
  cbn -[Z.sub total_seconds].

(** A failing branch of a run: the failing exchange is the last one. *)
Ltac clear_failure n :=
  let H := fresh "H" in
  let Hx := fresh "Hx" in
  intros H Hx;
  do 6 (try (destruct n as [|n]));
  cbn in H; try discriminate H;
  injection H as <-; cbn in Hx; try discriminate Hx;
  injection Hx as <-;
  eexists; repeat split; repeat constructor.

Ltac not_completed :=
  let H := fresh "H" in
  let Hs := fresh "Hs" in
  intros H Hs; injection H as <-; cbn in Hs; discriminate Hs.

Ltac terminal_status :=
  eexists; eexists; repeat split; (lia || (left; reflexivity) || (right; reflexivity)).

(** Case analysis on the search result, on which [get] is stuck. *)
Ltac search_result_cases :=
  match goal with
  | |- context [ get ?v "document_id" VNone ] =>
      is_var v; destruct v; cbn -[Z.sub total_seconds]
  | |- context [ match ?v with VDict _ => _ | _ => _ end ] =>
      is_var v; destruct v; cbn -[Z.sub total_seconds]
  end.

(** An activity call whose outcome is already among the hypotheses. *)
Ltac known_call :=
  match goal with
  | H : ?call ?n ?i ?w = _ |- context [ ?call ?n ?i ?w ] =>
      rewrite H; cbn -[Z.sub total_seconds]
  end.

(** The next activity call of a run, or the reading of the
    [document_id] of the search result, which fails unless the result
    is a mapping. *)
Ltac next_step :=
  first
    [ next_call
    | match goal with
      | |- context [ get ?v "document_id" VNone ] =>
          let e := fresh "e" in
          let document_id := fresh "document_id" in
          destruct (get v "document_id" VNone) as [document_id|e] eqn:?;
          cbn -[Z.sub total_seconds]
      end ].

(** A run all of whose calls have outcomes among the hypotheses. *)
Ltac known_run :=
  unfold execute, reexecute, run_from, orchestrate, start;
  cbn -[Z.sub total_seconds];
  repeat known_call.

Ltac settle_execution t :=
  let H := fresh "H" in
  eassert (H : t = _) by (known_run; reflexivity);
  rewrite H; clear H; cbn [fst snd world].

(** Replace an execution, the innermost first, by what it comes to. *)
Ltac known_execution :=
  match goal with
  | |- context [ execute ?W ?c ?t ?k new_instance ?i ?w ] =>
      settle_execution (execute W c t k new_instance i w)
  | |- context [ execute ?W ?c ?t ?k ?inst ?i ?w ] =>
      settle_execution (execute W c t k inst i w)
  end.

(** The end of a run whose calls have been told apart: what is left
    are bounds, impossible cases, and the answers of the invoker to
    calls whose outcomes are known. *)
Ltac answered_calls :=
  repeat split; try lia; try discriminate; try assumption;
  try (repeat known_call; reflexivity).

Section RunProps.

Variable World : Type.
Variable call_activity : string -> value -> World -> result value * World.
Variable current_utc_datetime : World -> datetime.

Local Notation "'run_of'" :=
  (orchestrate World call_activity current_utc_datetime).

(** The generator returns within its five resumptions and lets no
    exception escape, whatever the activities answer. *)
Lemma orchestrate_returns (d : list (string * value)) (w : World) :
  exists r, final (run_of (VDict d) w) = Some (Ok r).
Proof.
  unfold_run.
  next_call; [|eexists; reflexivity].
  next_call; [|eexists; reflexivity].
  next_call; [|eexists; reflexivity].
  next_call; [|eexists; reflexivity].
  destruct v2; cbn -[Z.sub total_seconds]; try (eexists; reflexivity).
  next_call; eexists; reflexivity.
Qed.

(** The first statement of the function reads [video_info.get], outside
    the [try]: an input that is not a mapping ends the run at once,
    with the [AttributeError] and without any invocation. *)
Lemma orchestrate_needs_mapping (input : value) (w : World) :
  (forall d, input <> VDict d) ->
  run_of input w
  = mk_execution World [] [] (Some (Raise (no_attribute input "get"))) w.
Proof.
  intros Hnot. unfold_run.
  destruct input; try reflexivity. now contradiction (Hnot d).
Qed.

(** C1: in every run on an input that is a mapping, as the starter
    builds it, the activities are invoked one after the other in
    the fixed order of the five stages, each with the input of section
    4.1 built from the input of the instance and the outputs of the
    stages before it (the insights stage gets the [document_id] of the
    search result).  These outputs are what the Activity Invoker
    answered: asked for the same calls one after the other from the
    world the run started in, it gives the outcomes of the run, in
    order, and leaves the world the run leaves.  Every invocation but
    the last one of the run has succeeded, so none is skipped or
    reordered; and when all of them succeed, with a search result that
    is a mapping, all five stages are invoked. *)
Theorem stages_invoked_in_order (d : list (string * value)) (w : World) :
  let run := run_of (VDict d) w in
  let xs := exchanges run in
  map call_of xs
  = firstn (List.length xs)
      (contract_calls (VDict d) (map snd (recorded xs))) /\
  invoke_each World call_activity (map call_of xs) w
  = (map ex_outcome xs, world run) /\
  (1 <= List.length xs <= 5)%nat /\
  forallb succeeded (removelast xs) = true /\
  (forallb succeeded xs = true ->
   (forall x, nth_error xs 3 = Some x -> is_dict_result (ex_outcome x) = true) ->
   map ex_name xs = stage_names).
Proof.
  unfold_run.
  next_call; [|answered_calls].
  next_call; [|answered_calls].
  next_call; [|answered_calls].
  next_call; [|answered_calls].
  destruct v2; cbn -[Z.sub total_seconds];
    try (answered_calls; intros _ H; specialize (H _ eq_refl); discriminate).
  next_call; answered_calls.
Qed.

(** C3 (as the code has it): when an invocation of a run fails, it is
    the last invocation of the run, the function returns a result whose
    [errors] hold exactly one record, with the message of the failure
    and with [step] equal to the constant ["orchestration"], whose
    status is ["failed"] and whose [end_time] is set; [steps] holds the
    completed records of exactly the stages before the failing one, in
    order.  When the third stage fails these are the two records of
    [metadata] and [analysis]. *)
Theorem failure_short_circuit (d : list (string * value)) (w : World)
    (n : nat) (x : exchange) (e : exn) :
  let run := run_of (VDict d) w in
  nth_error (exchanges run) n = Some x ->
  ex_outcome x = Raise e ->
  exists r,
    final run = Some (Ok r) /\
    errors r = [ mk_error (exn_msg e) (current_utc_datetime (world run))
                   "orchestration" ] /\
    status r = "failed" /\
    end_time r = Some (current_utc_datetime (world run)) /\
    List.length (exchanges run) = S n /\
    map fst (steps r) = firstn n step_keys /\
    map (fun kv => step_result (snd kv)) (steps r)
    = map snd (recorded (exchanges run)) /\
    Forall (fun kv => step_status (snd kv) = "completed") (steps r).
Proof.
  unfold_run.
  next_call; [|clear_failure n].
  next_call; [|clear_failure n].
  next_call; [|clear_failure n].
  next_call; [|clear_failure n].
  destruct v2; cbn -[Z.sub total_seconds]; try (clear_failure n).
  next_call; clear_failure n.
Qed.

(** C4: a run that ends with the status ["completed"] has invoked the
    five stages in order and holds exactly five step records, filed in
    the fixed order under [metadata], [analysis], [embeddings],
    [search_storage] and [insights], each with the status ["completed"]
    and the result of its stage; it has no error record, its
    [end_time] is set and its [processing_duration_seconds] is the
    difference of [end_time] and [start_time]. *)
Theorem completed_has_all_steps (d : list (string * value)) (w : World)
    (r : orchestration_result) :
  let run := run_of (VDict d) w in
  final run = Some (Ok r) ->
  status r = "completed" ->
  map ex_name (exchanges run) = stage_names /\
  map fst (steps r) = step_keys /\
  Forall (fun kv => step_status (snd kv) = "completed") (steps r) /\
  map (fun kv => step_result (snd kv)) (steps r)
  = map snd (recorded (exchanges run)) /\
  errors r = [] /\
  start_time r = current_utc_datetime w /\
  end_time r = Some (current_utc_datetime (world run)) /\
  processing_duration_seconds r
  = Some (total_seconds (current_utc_datetime (world run) - start_time r)).
Proof.
  unfold_run.
  next_call; [|not_completed].
  next_call; [|not_completed].
  next_call; [|not_completed].
  next_call; [|not_completed].
  destruct v2; cbn -[Z.sub total_seconds]; try not_completed.
  next_call; [|not_completed].
  intros H _. injection H as <-. cbn -[Z.sub total_seconds].
  repeat split. repeat constructor.
Qed.

(** C5 (as the code has it): along every run the [status] entry reads
    ["processing"] at the start and after each resumption that leads to
    a further stage, at least once and at most five times, and then
    once ["completed"] or ["failed"], which is the status of the result
    the function returns; nothing follows the terminal status. *)
Theorem status_lifecycle (d : list (string * value)) (w : World) :
  exists (n : nat) (terminal : string) (r : orchestration_result),
    lifetime World call_activity current_utc_datetime (VDict d) w
    = repeat "processing" (S n) ++ [terminal] /\
    (n <= 4)%nat /\
    (terminal = "completed" \/ terminal = "failed") /\
    final (run_of (VDict d) w) = Some (Ok r) /\
    status r = terminal.
Proof.
  unfold_run.
  next_call; [|exists 0%nat; terminal_status].
  next_call; [|exists 1%nat; terminal_status].
  next_call; [|exists 2%nat; terminal_status].
  next_call; [|exists 3%nat; terminal_status].
  destruct v2; cbn -[Z.sub total_seconds];
    try (exists 3%nat; terminal_status).
  next_call; exists 4%nat; terminal_status.
Qed.

(** C2: replay.  Re-executing an instance from scratch against a
    history that records the first three stages as completed invokes
    the activities of the fourth and the fifth stage only, with the
    inputs built from the recorded results, and these invocations are
    answered by the Activity Invoker: the fourth, and the fifth when
    the fourth has succeeded with a mapping.  And for every instance,
    with or without a failing stage: when its run is stopped after at
    most [k] stages and the instance is re-executed from scratch
    against the history that the stopped run has left, the stopped run
    is the run of the code up to there; the invocations before the
    stop followed by those of the re-execution are the invocations of
    the uninterrupted run, with the same answers; none of the recorded
    stages is invoked again; the re-execution leaves the same world
    and the same history and returns the same result as the
    uninterrupted run; and an instance that had ended, completed or
    failed, is re-executed without any invocation, to the result it
    had. *)
Theorem replay_invokes_only_missing (d : list (string * value)) (w : World) :
  (forall (m a e : value) (t1 t2 t3 : datetime) (created : option datetime),
      let inst := mk_instance created
                    [ mk_stage_record "ExtractVideoMetadata" (Ok m) t1;
                      mk_stage_record "AnalyzeVideoContent" (Ok a) t2;
                      mk_stage_record "GenerateEmbeddings" (Ok e) t3 ] in
      let again := fst (reexecute World call_activity current_utc_datetime
                          inst (VDict d) w) in
      let xs := exchanges again in
      map call_of xs
      = firstn (List.length xs)
          (skipn 3 (contract_calls (VDict d)
                      ([m; a; e] ++ map snd (recorded xs)))) /\
      invoke_each World call_activity (map call_of xs) w
      = (map ex_outcome xs, world again) /\
      (1 <= List.length xs <= 2)%nat /\
      forallb succeeded (removelast xs) = true /\
      (forallb succeeded xs = true ->
       (forall x, nth_error xs 0 = Some x ->
                  is_dict_result (ex_outcome x) = true) ->
       map ex_name xs = skipn 3 stage_names)) /\
  (forall k : nat,
      let single := execute World call_activity current_utc_datetime
                      5 new_instance (VDict d) w in
      let stopped := execute World call_activity current_utc_datetime
                       k new_instance (VDict d) w in
      let again := reexecute World call_activity current_utc_datetime
                     (snd stopped) (VDict d) (world (fst stopped)) in
      fst single = run_of (VDict d) w /\
      fst stopped
      = run_from World call_activity current_utc_datetime k (VDict d) w /\
      exchanges (run_of (VDict d) w)
      = exchanges (fst stopped) ++ exchanges (fst again) /\
      invoked_again (inst_history (snd stopped)) (exchanges (fst again))
      = false /\
      world (fst again) = world (run_of (VDict d) w) /\
      final (fst again) = final (run_of (VDict d) w) /\
      snd again = snd single /\
      (forall o, final (fst stopped) = Some o ->
                 exchanges (fst again) = [] /\
                 final (fst again) = Some o)).
Proof.
  split.
  - intros m a e t1 t2 t3 created. unfold_run.
    repeat first [ known_call | next_call | search_result_cases ];
      answered_calls;
      intros _ H; specialize (H _ eq_refl); discriminate.
  - intros k. cbv zeta. unfold reexecute.
    remember (execute World call_activity current_utc_datetime)
      as exec eqn:Hexec.
    remember (run_from World call_activity current_utc_datetime k)
      as partial eqn:Hpartial.
    (* the calls of the uninterrupted run first, then the other runs,
       one at a time, on calls whose outcomes are known *)
    unfold_run.
    repeat next_step;
      subst exec partial;
      do 6 (try (destruct k as [|k]));
      repeat known_execution;
      known_run;
      answered_calls.
Qed.

End RunProps.

Lemma stages_invoked_in_order_witness :
  map ex_name (exchanges (Fixtures.stub_run 0)) = stage_names /\
  invoke_each Fixtures.World (Fixtures.stub_invoker 0)
    (map call_of (exchanges (Fixtures.stub_run 0))) 0%nat
  = (map ex_outcome (exchanges (Fixtures.stub_run 0)),
     world (Fixtures.stub_run 0)).
Proof.
  destruct (stages_invoked_in_order Fixtures.World (Fixtures.stub_invoker 0)
              Fixtures.stub_clock Fixtures.demo_fields 0%nat)
    as (_ & Hanswers & _ & _ & Hnames).
  split; [|exact Hanswers].
  apply Hnames.
  - vm_compute. reflexivity.
  - intros x Hx. vm_compute in Hx. injection Hx as <-. reflexivity.
Defined.

Lemma failure_short_circuit_witness :
  exists r,
    final (Fixtures.stub_run 3) = Some (Ok r) /\
    List.length (errors r) = 1%nat /\
    map step (errors r) = ["orchestration"] /\
    status r = "failed" /\
    map fst (steps r) = ["metadata"; "analysis"] /\
    List.length (exchanges (Fixtures.stub_run 3)) = 3%nat.
Proof.
  edestruct (failure_short_circuit Fixtures.World (Fixtures.stub_invoker 3)
               Fixtures.stub_clock Fixtures.demo_fields 0%nat 2%nat)
    as (r & Hfinal & Herrors & Hstatus & _ & Hlength & Hkeys & _).
  - vm_compute. reflexivity.
  - reflexivity.
  - exists r. rewrite Herrors, Hkeys.
    split; [exact Hfinal|].
    split; [reflexivity|].
    split; [reflexivity|].
    split; [exact Hstatus|].
    split; [reflexivity|exact Hlength].
Defined.

(** C3, as the spec words it, fails: in the stub run whose third stage
    fails, the single error record does not name that stage in [step],
    neither by the name of its activity nor by the key of its step
    record; [step] is ["orchestration"]. *)
Lemma error_step_is_not_the_stage :
  exists r x err,
    final (Fixtures.stub_run 3) = Some (Ok r) /\
    nth_error (exchanges (Fixtures.stub_run 3)) 2 = Some x /\
    succeeded x = false /\
    ex_name x = "GenerateEmbeddings" /\
    errors r = [err] /\
    step err = "orchestration" /\
    step err <> ex_name x /\
    ~ In (step err) (stage_names ++ step_keys).
Proof.
  do 3 eexists.
  split; [vm_compute; reflexivity|].
  split; [vm_compute; reflexivity|].
  split; [reflexivity|].
  split; [reflexivity|].
  split; [reflexivity|].
  split; [reflexivity|].
  split; [discriminate|].
  cbn. intros H.
  repeat (destruct H as [H|H]; [discriminate H|]). exact H.
Qed.

Lemma completed_has_all_steps_witness :
  map fst (steps Fixtures.stub_completed) = step_keys /\
  List.length (steps Fixtures.stub_completed) = 5%nat /\
  errors Fixtures.stub_completed = [] /\
  processing_duration_seconds Fixtures.stub_completed
  = Some (total_seconds 5000000).
Proof.
  destruct (completed_has_all_steps Fixtures.World (Fixtures.stub_invoker 0)
              Fixtures.stub_clock Fixtures.demo_fields 0%nat
              Fixtures.stub_completed)
    as (_ & Hkeys & _ & _ & Herrors & _ & _ & Hduration).
  - vm_compute. reflexivity.
  - reflexivity.
  - split; [exact Hkeys|].
    split; [reflexivity|].
    split; [exact Herrors|exact Hduration].
Defined.

(** C5, as the spec words it, fails: the status a run starts with is
    ["processing"], which is none of [pending], [running], [completed]
    and [failed]. *)
Lemma initial_status_outside_spec :
  hd_error (lifetime Fixtures.World (Fixtures.stub_invoker 0)
              Fixtures.stub_clock Fixtures.demo_video 0%nat)
  = Some "processing" /\
  ~ In "processing" spec_statuses.
Proof.
  split; [vm_compute; reflexivity|].
  cbn. intros H.
  repeat (destruct H as [H|H]; [discriminate H|]). exact H.
Qed.

Lemma replay_invokes_only_missing_witness :
  exchanges (Fixtures.stub_run 3)
  = exchanges (fst (Fixtures.stub_stopped 3 5))
    ++ exchanges (fst (Fixtures.stub_again 3 5)) /\
  exchanges (fst (Fixtures.stub_again 3 5)) = [] /\
  final (fst (Fixtures.stub_again 3 5)) = final (Fixtures.stub_run 3) /\
  exchanges (Fixtures.stub_run 0)
  = exchanges (fst (Fixtures.stub_stopped 0 3))
    ++ exchanges (fst (Fixtures.stub_again 0 3)) /\
  map ex_name (exchanges (fst (Fixtures.stub_again 0 3)))
  = [ "StoreInAzureSearch"; "GenerateVideoInsights" ].
Proof.
  destruct (proj2 (replay_invokes_only_missing Fixtures.World
                     (Fixtures.stub_invoker 3) Fixtures.stub_clock
                     Fixtures.demo_fields 0%nat) 5%nat)
    as (_ & _ & Hfailed & _ & _ & Hfinal & _ & Hended).
  destruct (proj2 (replay_invokes_only_missing Fixtures.World
                     (Fixtures.stub_invoker 0) Fixtures.stub_clock
                     Fixtures.demo_fields 0%nat) 3%nat)
    as (_ & _ & Hstopped & _).
  split; [exact Hfailed|].
  split; [|split; [exact Hfinal|split; [exact Hstopped|]]].
  - eapply Hended. vm_compute. reflexivity.
  - refine (proj2 (proj2 (proj2 (proj2
              (proj1 (replay_invokes_only_missing Fixtures.World
                        (Fixtures.stub_invoker 0) Fixtures.stub_clock
                        Fixtures.demo_fields 3%nat)
                 (Fixtures.stub_result "ExtractVideoMetadata")
                 (Fixtures.stub_result "AnalyzeVideoContent")
                 (Fixtures.stub_result "GenerateEmbeddings")
                 1000000%Z 2000000%Z 3000000%Z (Some 0%Z))))) _ _).
    + vm_compute. reflexivity.
    + intros x Hx. vm_compute in Hx. injection Hx as <-. reflexivity.
Defined.

End OrchestratorProps.

(* ================================================================== *)
(** ** Properties of the status service                                *)
(* ================================================================== *)

Module StatusProps.

Import Orchestrator Status.

Section ServiceProps.

Variable Client : Type.
Variable DurableOrchestrationClient : string -> result Client.
Variable get_status :
  Client -> string -> bool -> bool -> result (option DurableOrchestrationStatus).
Variable json_loads : string -> option value.
Variable py_str : value -> string.
Variable isoformat : datetime -> string.
Variable format_1f : Z -> string.

(** The two parsing blocks catch what they can raise. *)
Lemma extract_video_info_returns (st : DurableOrchestrationStatus) :
  exists v, extract_video_info json_loads st = Ok v.
Proof.
  unfold extract_video_info, loads_if_str, loads.
  destruct (truthy (input_ st)); [|eexists; reflexivity].
  destruct (input_ st) as [| | | |s| |]; cbn; try (eexists; reflexivity).
  destruct (json_loads s) as [[]|]; cbn; eexists; reflexivity.
Qed.

Lemma parse_output_returns (st : DurableOrchestrationStatus) :
  exists v, parse_output json_loads py_str st = Ok v.
Proof.
  unfold parse_output, loads_if_str, loads.
  destruct (truthy (output st)); [|eexists; reflexivity].
  destruct (output st) as [| | | |s| |]; cbn; try (eexists; reflexivity).
  destruct (json_loads s) as [v|]; cbn; eexists; reflexivity.
Qed.

(** C8: for an instance that exists, the status query returns a
    mapping whose [processing_duration] is the difference of
    [last_updated_time] and [created_time], rendered with one decimal
    and followed by [" seconds"], when both times are set, and [None]
    when one of them is missing. *)
Theorem processing_duration_reported (client : Client)
    (instance_id : string) (include_history : bool)
    (st : DurableOrchestrationStatus) :
  get_status client instance_id include_history include_history
  = Ok (Some st) ->
  exists fields,
    get_orchestration_status Client get_status json_loads py_str isoformat
      format_1f client instance_id include_history
    = Ok (VDict fields) /\
    lookup "processing_duration" fields
    = Some match created_time st, last_updated_time st with
           | Some created, Some last_updated =>
               VStr (format_1f (last_updated - created) ++ " seconds")
           | _, _ => VNone
           end.
Proof.
  intros Hst. unfold get_orchestration_status. rewrite Hst. cbn [bind].
  destruct (extract_video_info_returns st) as [vi ->].
  destruct (parse_output_returns st) as [out ->]. cbn [bind].
  eexists. split; [reflexivity|].
  unfold processing_duration.
  destruct (history_events st) as [[|ev evs]|], include_history; reflexivity.
Qed.

(** C9: a status query that names an instance the store does not have
    is answered, not raised: [main] returns a response whose message
    says that the instance was not found.  The response is the one of
    the [ValueError] handler, with status code 400. *)
Theorem unknown_instance_not_found (req : HttpRequest) (starter : string)
    (client : Client) (instance_id : string) :
  DurableOrchestrationClient starter = Ok client ->
  str_get "instanceId" (route_params req) = Some instance_id ->
  instance_id <> "" ->
  (forall h h', get_status client instance_id h h' = Ok None) ->
  main Client DurableOrchestrationClient get_status json_loads py_str
    isoformat format_1f req starter
  = mk_response
      (VDict [ ("error", VStr "Bad Request");
               ("message",
                VStr ("Orchestration instance '" ++ instance_id
                      ++ "' not found")) ])
      400 json_headers.
Proof.
  intros Hclient Hid Hne Hnone.
  unfold main, handle. rewrite Hclient, Hid. cbn [bind nonempty].
  destruct (String.eqb_spec instance_id "") as [->|_]; [now contradiction Hne|].
  cbn [negb]. unfold get_orchestration_status. rewrite Hnone. reflexivity.
Qed.

End ServiceProps.

Lemma processing_duration_reported_witness :
  exists fields,
    get_orchestration_status unit Fixtures.stub_get_status
      Fixtures.stub_json_loads Fixtures.stub_str Fixtures.stub_isoformat
      Fixtures.stub_format_1f tt "instance-1" false
    = Ok (VDict fields) /\
    lookup "processing_duration" fields = Some (VStr "12.5 seconds").
Proof.
  apply (processing_duration_reported unit Fixtures.stub_get_status
           Fixtures.stub_json_loads Fixtures.stub_str Fixtures.stub_isoformat
           Fixtures.stub_format_1f tt "instance-1" false Fixtures.stub_status).
  reflexivity.
Defined.

Lemma unknown_instance_not_found_witness :
  main unit Fixtures.stub_client Fixtures.stub_get_status
    Fixtures.stub_json_loads Fixtures.stub_str Fixtures.stub_isoformat
    Fixtures.stub_format_1f Fixtures.unknown_request "starter"
  = mk_response
      (VDict [ ("error", VStr "Bad Request");
               ("message",
                VStr "Orchestration instance 'no-such-instance' not found") ])
      400 json_headers.
Proof.
  apply (unknown_instance_not_found unit Fixtures.stub_client
           Fixtures.stub_get_status Fixtures.stub_json_loads Fixtures.stub_str
           Fixtures.stub_isoformat Fixtures.stub_format_1f
           Fixtures.unknown_request "starter" tt "no-such-instance").
  - reflexivity.
  - reflexivity.
  - discriminate.
  - intros h h'. reflexivity.
Defined.

End StatusProps.

(* ================================================================== *)
(** ** Further properties of the starter                               *)
(* ================================================================== *)

Module StarterMore.

Import Starter.

(** Splitting distributes over a separator between two parts. *)
Lemma str_split_app (sep : ascii) (a b : string) :
  str_split sep (a ++ String sep b) = str_split sep a ++ str_split sep b.
Proof.
  induction a as [|c a IH]; simpl.
  - now rewrite Ascii.eqb_refl.
  - destruct (Ascii.eqb c sep); [now rewrite IH|].
    rewrite IH. destruct (str_split sep a) as [|hd tl] eqn:Hs; [|reflexivity].
    now destruct (StarterProps.str_split_nonempty sep a).
Qed.

(** A string without the separator is its own single segment. *)
Lemma str_split_whole (sep : ascii) (s : string) :
  ~ In sep (list_ascii_of_string s) -> str_split sep s = [s].
Proof.
  induction s as [|c s IH]; simpl; intros Hnot; [reflexivity|].
  destruct (Ascii.eqb_spec c sep) as [->|_].
  - exfalso. apply Hnot. now left.
  - rewrite IH; [reflexivity|]. intros Hin. apply Hnot. now right.
Qed.

Lemma last_app_cons (l : list string) (x d : string) :
  last (l ++ [x]) d = x.
Proof.
  induction l as [|y l IH]; [reflexivity|].
  simpl. destruct (l ++ [x]) eqn:Hl; [now destruct l|exact IH].
Qed.

(** X1: a subject of the documented shape
    [<prefix>/containers/<container>/blobs/<blob>], where the prefix has
    no [containers] segment and neither name contains a slash, is taken
    apart as written: [video_info] gets the container name and the blob
    name. *)
Theorem subject_parsed (ev : list (string * value))
    (pre container blob : string) :
  lookup "subject" ev
  = Some (VStr (pre ++ "/containers/" ++ container ++ "/blobs/" ++ blob)) ->
  ~ In "containers" (str_split "/"%char pre) ->
  ~ In "/"%char (list_ascii_of_string container) ->
  ~ In "/"%char (list_ascii_of_string blob) ->
  (forall v, lookup "data" ev = Some v -> exists dd, v = VDict dd) ->
  exists fields,
    build_video_info (VDict ev) = Ok (VDict fields) /\
    lookup "container_name" fields = Some (VStr container) /\
    lookup "blob_name" fields = Some (VStr blob).
Proof.
  intros Hsubject Hpre Hc Hb Hdata.
  set (subject :=
         (pre ++ "/containers/" ++ container ++ "/blobs/" ++ blob)%string)
    in *.
  assert (Hsplit : str_split "/"%char subject
                   = str_split "/"%char pre
                     ++ ["containers"; container; "blobs"; blob]).
  { subst subject.
    change (pre ++ "/containers/" ++ container ++ "/blobs/" ++ blob)%string
      with (pre ++ String "/"%char
              ("containers" ++ String "/"%char
                 (container ++ String "/"%char
                    ("blobs" ++ String "/"%char blob))))%string.
    rewrite !str_split_app.
    rewrite (str_split_whole _ container Hc), (str_split_whole _ blob Hb).
    reflexivity. }
  assert (Htruthy : truthy (VStr subject) = true).
  { subst subject. destruct pre; reflexivity. }
  assert (Hname : extract_container_name (VStr subject) = Ok (VStr container)).
  { apply (StarterProps.extract_following subject (str_split "/"%char pre)
             container ["blobs"; blob]); [exact Hsplit|exact Hpre]. }
  unfold build_video_info, get. rewrite Hsubject. cbn [bind].
  rewrite Htruthy. cbn [bind split_slash]. rewrite Hsplit, Hname.
  assert (Hlast : last_item (str_split "/"%char pre
                             ++ ["containers"; container; "blobs"; blob])
                  = Ok blob).
  { unfold last_item.
    destruct (str_split "/"%char pre) as [|p ps] eqn:Hp;
      [now destruct (StarterProps.str_split_nonempty "/"%char pre)|].
    cbn [app]. f_equal.
    change (ps ++ ["containers"; container; "blobs"; blob])
      with (ps ++ ["containers"; container; "blobs"] ++ [blob]).
    rewrite app_assoc. apply last_app_cons. }
  rewrite Hlast. cbn [bind].
  destruct (lookup "data" ev) as [v|] eqn:Hd.
  - destruct (Hdata v eq_refl) as [dd ->]. cbn [bind].
    eexists. split; [reflexivity|]. split; reflexivity.
  - cbn [bind lookup]. eexists. split; [reflexivity|]. split; reflexivity.
Qed.

Ltac not_in_literal :=
  let H := fresh "H" in
  cbn; intros H; repeat (destruct H as [H|H]; [discriminate H|]); exact H.

Lemma subject_parsed_witness :
  exists fields,
    build_video_info Fixtures.video_event = Ok (VDict fields) /\
    lookup "container_name" fields = Some (VStr "videos") /\
    lookup "blob_name" fields = Some (VStr "demo.mp4").
Proof.
  apply (subject_parsed _ "/blobServices/default" "videos" "demo.mp4").
  - reflexivity.
  - not_in_literal.
  - not_in_literal.
  - not_in_literal.
  - intros v Hv. vm_compute in Hv. injection Hv as <-. eexists. reflexivity.
Defined.

Lemma lower_ascii_idempotent (c : ascii) :
  lower_ascii (lower_ascii c) = lower_ascii c.
Proof.
  destruct c as [[] [] [] [] [] [] [] []]; reflexivity.
Qed.

Lemma str_lower_idempotent (s : string) :
  str_lower (str_lower s) = str_lower s.
Proof.
  induction s as [|c s IH]; simpl; [reflexivity|].
  now rewrite lower_ascii_idempotent, IH.
Qed.

(** On two strings the answer is the disjunction of the two tests. *)
Lemma is_video_file_on_strings (ct name : string) :
  is_video_file (VStr ct) (VStr name)
  = Ok (str_in (str_lower ct) video_content_types
        || existsb (str_endswith (str_lower name)) video_extensions).
Proof.
  unfold is_video_file. destruct ct as [|c r].
  - destruct name; reflexivity.
  - change (truthy (VStr (String c r))) with true. cbn [lower bind].
    destruct (str_in (str_lower (String c r)) video_content_types);
      [reflexivity|].
    destruct name; reflexivity.
Qed.

(** Lower-casing keeps ASCII text ASCII. *)
Lemma lower_ascii_below (c : ascii) :
  (nat_of_ascii c <? 128)%nat = true ->
  (nat_of_ascii (lower_ascii c) <? 128)%nat = true.
Proof.
  destruct c as [[] [] [] [] [] [] [] []]; vm_compute; congruence.
Qed.

Lemma str_lower_isascii (s : string) :
  PyMore.isascii s = true -> PyMore.isascii (str_lower s) = true.
Proof.
  unfold PyMore.isascii.
  induction s as [|c s IH]; [reflexivity|].
  cbn [list_ascii_of_string str_lower forallb].
  intros H. apply andb_true_iff in H. destruct H as [Hc Hs].
  apply andb_true_iff. split; [now apply lower_ascii_below|now apply IH].
Qed.

(** X2: on ASCII text, where [str_lower] is [str.lower()], the
    classification does not depend on the case of the letters: two
    content types and two names that differ in the case of letters
    only are classified alike, and a content type and a name are
    classified as their lower-cased forms, which are ASCII text
    again. *)
Theorem is_video_file_ignores_case (ct ct' name name' : string) :
  PyMore.isascii ct = true ->
  PyMore.isascii ct' = true ->
  PyMore.isascii name = true ->
  PyMore.isascii name' = true ->
  str_lower ct = str_lower ct' ->
  str_lower name = str_lower name' ->
  is_video_file (VStr ct) (VStr name)
  = is_video_file (VStr ct') (VStr name') /\
  is_video_file (VStr ct) (VStr name)
  = is_video_file (VStr (str_lower ct)) (VStr (str_lower name)) /\
  PyMore.isascii (str_lower ct) = true /\
  PyMore.isascii (str_lower name) = true.
Proof.
  intros Hct _ Hname _ Hc Hn.
  rewrite !is_video_file_on_strings, !str_lower_idempotent, Hc, Hn.
  split; [reflexivity|]. split; [reflexivity|].
  split; [rewrite <- Hc|rewrite <- Hn]; now apply str_lower_isascii.
Qed.

Lemma is_video_file_ignores_case_witness :
  is_video_file (VStr "Video/MP4") (VStr "Clip.MKV")
  = is_video_file (VStr "video/mp4") (VStr "CLIP.mkv") /\
  is_video_file (VStr "Video/MP4") (VStr "Clip.MKV")
  = is_video_file (VStr "video/mp4") (VStr "clip.mkv").
Proof.
  destruct (is_video_file_ignores_case "Video/MP4" "video/mp4"
              "Clip.MKV" "CLIP.mkv")
    as (Halike & Hlower & _); try reflexivity.
  split; [exact Halike|exact Hlower].
Defined.

(** X3: the arguments are used as strings without a check.  A content
    type that is true in a condition and is not a string makes the call
    raise the [AttributeError] of [.lower]; so does such a name when the
    content type did not decide; and two false arguments, whatever
    their type, give [False]. *)
Theorem is_video_file_untyped (content_type blob_name : value) :
  (truthy content_type = true ->
   (forall s, content_type <> VStr s) ->
   is_video_file content_type blob_name
   = Raise (no_attribute content_type "lower")) /\
  (truthy content_type = false ->
   truthy blob_name = true ->
   (forall s, blob_name <> VStr s) ->
   is_video_file content_type blob_name
   = Raise (no_attribute blob_name "lower")) /\
  (truthy content_type = false ->
   truthy blob_name = false ->
   is_video_file content_type blob_name = Ok false).
Proof.
  unfold is_video_file. repeat split.
  - intros Ht Hns. rewrite Ht.
    destruct content_type; try reflexivity. now contradiction (Hns s).
  - intros Hc Ht Hns. rewrite Hc. cbn [bind]. rewrite Ht.
    destruct blob_name; try reflexivity. now contradiction (Hns s).
  - intros Hc Hb. rewrite Hc. cbn [bind]. rewrite Hb. reflexivity.
Qed.

Lemma is_video_file_untyped_witness :
  is_video_file (VInt 1) VNone = Raise (no_attribute (VInt 1) "lower") /\
  is_video_file VNone (VList [VStr "clip.mp4"])
  = Raise (no_attribute (VList [VStr "clip.mp4"]) "lower") /\
  is_video_file (VInt 0) (VStr "") = Ok false.
Proof.
  split; [|split].
  - apply (proj1 (is_video_file_untyped (VInt 1) VNone));
      [reflexivity|discriminate].
  - apply (proj1 (proj2 (is_video_file_untyped VNone
                           (VList [VStr "clip.mp4"]))));
      [reflexivity|reflexivity|discriminate].
  - apply (proj2 (proj2 (is_video_file_untyped (VInt 0) (VStr ""))));
      reflexivity.
Defined.

Section MainMore.

Variable Client : Type.
Variable DurableOrchestrationClient : string -> result Client.
Variable start_new : Client -> string -> value -> result string.

(** X4: a subject that is present in the event and is not a string,
    [null] included, makes [main] raise the [AttributeError] of
    [.split], which [extract_container_name] does not catch; no
    instance is started. *)
Theorem non_string_subject_raises (ev : list (string * value))
    (subject : value) (starter : string) :
  lookup "subject" ev = Some subject ->
  (forall s, subject <> VStr s) ->
  main Client DurableOrchestrationClient start_new (VDict ev) starter
  = mk_run [] (Raise (no_attribute subject "split")).
Proof.
  intros Hsubject Hns.
  unfold main, build_video_info, get. rewrite Hsubject. cbn [bind].
  destruct subject; try now contradiction (Hns s).
  all: cbn [truthy]; repeat match goal with
                            | |- context [ if ?b then _ else _ ] => destruct b
                            end; reflexivity.
Qed.

(** X5: an event without a subject is not an error: the blob name is
    [None], the container name is empty, and the content type alone
    decides the classification. *)
Theorem missing_subject_uses_content_type (ev dd : list (string * value))
    (ct : string) :
  lookup "subject" ev = None ->
  lookup "data" ev = Some (VDict dd) ->
  lookup "contentType" dd = Some (VStr ct) ->
  exists fields,
    build_video_info (VDict ev) = Ok (VDict fields) /\
    lookup "blob_name" fields = Some VNone /\
    lookup "container_name" fields = Some (VStr "") /\
    classify (VDict fields)
    = Ok (str_in (str_lower ct) video_content_types).
Proof.
  intros Hsubject Hdata Hct.
  unfold build_video_info, get. rewrite Hsubject, Hdata. cbn [bind truthy].
  rewrite Hct.
  change (extract_container_name (VStr "")) with (Ok (VStr "")).
  cbn [bind]. eexists. split; [reflexivity|].
  split; [reflexivity|]. split; [reflexivity|].
  unfold classify, item. cbn [lookup String.eqb Ascii.eqb Bool.eqb bind].
  unfold is_video_file. destruct ct as [|c r]; [reflexivity|].
  change (truthy (VStr (String c r))) with true. cbn [lower bind].
  destruct (str_in (str_lower (String c r)) video_content_types); reflexivity.
Qed.

End MainMore.

Lemma non_string_subject_raises_witness :
  main unit Fixtures.stub_client Fixtures.stub_start_new
    (VDict [("url", VStr "https://x/videos/a.mp4"); ("subject", VNone)])
    "starter"
  = mk_run [] (Raise (no_attribute VNone "split")).
Proof.
  apply (non_string_subject_raises unit Fixtures.stub_client
           Fixtures.stub_start_new); [reflexivity|discriminate].
Defined.

Lemma missing_subject_uses_content_type_witness :
  exists fields,
    build_video_info
      (VDict [("data", VDict [("contentType", VStr "Video/MP4")])])
    = Ok (VDict fields) /\
    lookup "blob_name" fields = Some VNone /\
    lookup "container_name" fields = Some (VStr "") /\
    classify (VDict fields) = Ok true.
Proof.
  apply (missing_subject_uses_content_type
           [("data", VDict [("contentType", VStr "Video/MP4")])]
           [("contentType", VStr "Video/MP4")] "Video/MP4");
    reflexivity.
Defined.

(** X30: what the starter hands to the orchestrator is always a
    mapping with the seven entries of [video_info], in the order of the
    source; the orchestrator therefore starts on it without raising,
    and its first invocation is the metadata stage on that very
    [video_info]. *)
Theorem starter_feeds_orchestrator (event_data vi : value)
    (now : Orchestrator.datetime) :
  build_video_info event_data = Ok vi ->
  exists fields,
    vi = VDict fields /\
    map fst fields
    = [ "blob_url"; "blob_name"; "container_name"; "event_type";
        "event_time"; "content_type"; "content_length" ] /\
    exists st,
      Orchestrator.start vi now
      = Ok (Orchestrator.Yield "ExtractVideoMetadata" vi st).
Proof.
  unfold build_video_info.
  repeat match goal with
         | |- bind ?m _ = _ -> _ =>
             destruct m; cbn [bind]; [|discriminate]
         end.
  intros H. injection H as <-.
  eexists. split; [reflexivity|]. split; [reflexivity|].
  eexists. reflexivity.
Qed.

Lemma starter_feeds_orchestrator_witness :
  exists vi st,
    build_video_info Fixtures.video_event = Ok vi /\
    Orchestrator.start vi 0%Z
    = Ok (Orchestrator.Yield "ExtractVideoMetadata" vi st).
Proof.
  eexists.
  assert (Hvi : build_video_info Fixtures.video_event = Ok _)
    by (vm_compute; reflexivity).
  destruct (starter_feeds_orchestrator _ _ 0%Z Hvi)
    as [fields [_ [_ [st Hstart]]]].
  exists st. split; [exact Hvi|exact Hstart].
Defined.

End StarterMore.

(* ================================================================== *)
(** ** Further properties of the orchestrator                          *)
(* ================================================================== *)

Module OrchestratorMore.

Import Orchestrator Contract.

Ltac next_call := OrchestratorProps.next_call.
Ltac unfold_run := OrchestratorProps.unfold_run.

(** Finish a branch of a run whose result is known. *)
Ltac settle := eexists; repeat split; repeat constructor.

(** Distinctness of literal keys. *)
Ltac not_in_keys :=
  let H := fresh "H" in
  cbn; intros H; repeat (destruct H as [H|H]; [discriminate H|]); exact H.

(** A call of a run under a clock that does not run backwards. *)
Ltac clocked_call Hclock :=
  match goal with
  | |- context [ match ?call ?name ?input ?w with pair _ _ => _ end ] =>
      let Hle := fresh "Hle" in
      let Heq := fresh "Heq" in
      let o := fresh "o" in
      let w' := fresh "w" in
      pose proof (Hclock name input w) as Hle;
      destruct (call name input w) as [o w'] eqn:Heq;
      cbn [snd] in Hle;
      destruct o;
      cbn -[Z.sub total_seconds]
  end.

Ltac in_order :=
  cbn -[Z.sub total_seconds];
  repeat (constructor; [|repeat (constructor; try lia)]);
  repeat constructor.

Ltac duration_sign :=
  let q := fresh "q" in
  let H := fresh "H" in
  intros q H; cbn -[Z.sub total_seconds] in H;
  try discriminate H; injection H as <-;
  unfold total_seconds, Qle; cbn -[Z.sub]; lia.

Section RunMore.

Variable World : Type.
Variable call_activity : string -> value -> World -> result value * World.
Variable current_utc_datetime : World -> datetime.

Local Notation "'run_of'" :=
  (orchestrate World call_activity current_utc_datetime).

(** X6: whatever the activities answer, the step records of the
    returned result are those of the stages whose invocation succeeded:
    as many, filed in the fixed order of the keys, each one completed
    and holding the answer of its stage.  A stage is never recorded
    twice and never without the stages before it. *)
Theorem steps_are_a_prefix (d : list (string * value)) (w : World) :
  exists r,
    final (run_of (VDict d) w) = Some (Ok r) /\
    map fst (steps r) = firstn (List.length (steps r)) step_keys /\
    map (fun kv => step_result (snd kv)) (steps r)
    = map snd (recorded (exchanges (run_of (VDict d) w))) /\
    Forall (fun kv => step_status (snd kv) = "completed") (steps r) /\
    NoDup (map fst (steps r)).
Proof.
  unfold_run.
  next_call; [|settle; not_in_keys].
  next_call; [|settle; not_in_keys].
  next_call; [|settle; not_in_keys].
  next_call; [|settle; not_in_keys].
  destruct v2; cbn -[Z.sub total_seconds]; try (settle; not_in_keys).
  next_call; settle; not_in_keys.
Qed.

(** X7: a search stage that succeeds with an answer that is not a
    mapping ends the run as a failure, although no invocation failed:
    [.get] raises on the answer, the insights stage is never invoked,
    the result is failed with the four step records, the one of the
    search stage included, and with the [AttributeError] message as its
    single error. *)
Theorem search_answer_must_be_mapping (d : list (string * value)) (w : World)
    (x : exchange) (v : value) :
  nth_error (exchanges (run_of (VDict d) w)) 3 = Some x ->
  ex_outcome x = Ok v ->
  (forall s, v <> VDict s) ->
  exists r,
    final (run_of (VDict d) w) = Some (Ok r) /\
    status r = "failed" /\
    map error (errors r) = [exn_msg (no_attribute v "get")] /\
    map fst (steps r)
    = ["metadata"; "analysis"; "embeddings"; "search_storage"] /\
    map ex_name (exchanges (run_of (VDict d) w))
    = firstn 4 stage_names.
Proof.
  unfold_run.
  next_call; [|discriminate].
  next_call; [|discriminate].
  next_call; [|discriminate].
  next_call; [|intros H Hx; injection H as <-; discriminate Hx].
  destruct v3; cbn -[Z.sub total_seconds];
    intros H Hx Hnd; injection H as <-; injection Hx as <-;
    try match goal with
        | Hd : forall s, VDict ?dd <> VDict s |- _ =>
            now contradiction (Hd dd)
        end;
    eexists; repeat split.
Qed.

(** X8: the result the function returns always echoes the input, has
    the clock reading of the start as [start_time] and the one of the
    end as [end_time]; it is either completed, without errors and with
    the duration, or failed, with exactly one error and without the
    duration. *)
Theorem result_bookkeeping (d : list (string * value)) (w : World) :
  exists r,
    final (run_of (VDict d) w) = Some (Ok r) /\
    video_info r = VDict d /\
    start_time r = current_utc_datetime w /\
    end_time r = Some (current_utc_datetime (world (run_of (VDict d) w))) /\
    ((status r = "completed" /\ errors r = [] /\
      processing_duration_seconds r
      = Some (total_seconds
                (current_utc_datetime (world (run_of (VDict d) w))
                 - current_utc_datetime w)) /\
      List.length (steps r) = 5%nat)
     \/
     (status r = "failed" /\ List.length (errors r) = 1%nat /\
      processing_duration_seconds r = None /\
      (List.length (steps r) < 5)%nat)).
Proof.
  unfold_run.
  next_call; [|eexists; repeat split; right; repeat split; cbn; lia].
  next_call; [|eexists; repeat split; right; repeat split; cbn; lia].
  next_call; [|eexists; repeat split; right; repeat split; cbn; lia].
  next_call; [|eexists; repeat split; right; repeat split; cbn; lia].
  destruct v2; cbn -[Z.sub total_seconds];
    try (eexists; repeat split; right; repeat split; cbn; lia).
  next_call; [|eexists; repeat split; right; repeat split; cbn; lia].
  eexists; repeat split; left; repeat split.
Qed.

(** X9: when the clock of the context never runs backwards across an
    activity call, the timestamps of the result are in order: the
    start, the step records one after the other, the end; and the
    duration of a completed run is not negative. *)
Theorem timestamps_in_order (d : list (string * value)) (w : World) :
  (forall name input w0,
      (current_utc_datetime w0
       <= current_utc_datetime (snd (call_activity name input w0)))%Z) ->
  exists r t,
    final (run_of (VDict d) w) = Some (Ok r) /\
    end_time r = Some t /\
    StronglySorted Z.le
      (start_time r
       :: map (fun kv => step_timestamp (snd kv)) (steps r) ++ [t]) /\
    (forall q, processing_duration_seconds r = Some q -> (0 <= q)%Q).
Proof.
  intros Hclock. unfold_run.
  repeat first [ clocked_call Hclock | OrchestratorProps.search_result_cases ];
    eexists; eexists; (split; [reflexivity|]); (split; [reflexivity|]);
    (split; [in_order | duration_sign]).
Qed.

End RunMore.

Lemma search_answer_must_be_mapping_witness :
  exists r,
    final MoreFixtures.null_search_run = Some (Ok r) /\
    status r = "failed" /\
    map error (errors r) = ["'NoneType' object has no attribute 'get'"] /\
    map fst (steps r)
    = ["metadata"; "analysis"; "embeddings"; "search_storage"] /\
    map ex_name (exchanges MoreFixtures.null_search_run)
    = firstn 4 stage_names.
Proof.
  eapply (search_answer_must_be_mapping Fixtures.World
            MoreFixtures.null_search_invoker Fixtures.stub_clock
            Fixtures.demo_fields 0%nat _ VNone).
  - vm_compute. reflexivity.
  - reflexivity.
  - discriminate.
Defined.

Lemma timestamps_in_order_witness :
  exists r t,
    final (Fixtures.stub_run 0) = Some (Ok r) /\
    end_time r = Some t /\
    StronglySorted Z.le
      (start_time r
       :: map (fun kv => step_timestamp (snd kv)) (steps r) ++ [t]) /\
    (forall q, processing_duration_seconds r = Some q -> (0 <= q)%Q).
Proof.
  apply (timestamps_in_order Fixtures.World (Fixtures.stub_invoker 0)
           Fixtures.stub_clock Fixtures.demo_fields 0%nat).
  intros name input w0. unfold Fixtures.stub_invoker, Fixtures.stub_clock.
  cbn [snd]. lia.
Defined.

End OrchestratorMore.

(* ================================================================== *)
(** ** Further properties of the status service                        *)
(* ================================================================== *)

Module StatusMore.

Import Orchestrator Status StatusText.

(** X10: [format_runtime_status] always answers with a description and
    the expected actions, in that order and nothing else; a status that
    is not one of the six names, case included, is described as
    unknown, with the status quoted. *)
Theorem format_runtime_status_shape (status : string) :
  map fst (format_runtime_status status)
  = ["description"; "expected_actions"] /\
  (~ In status (map fst status_descriptions) ->
   assoc "description" (format_runtime_status status)
   = Some ("Unknown status: " ++ status)%string).
Proof.
  unfold format_runtime_status. split.
  - cbn [assoc status_descriptions].
    repeat match goal with
           | |- context [ String.eqb ?a status ] =>
               destruct (String.eqb a status); [reflexivity|]
           end.
    reflexivity.
  - intros Hnot.
    assert (Hnone : assoc status status_descriptions = None).
    { cbn [assoc status_descriptions].
      repeat match goal with
             | |- context [ String.eqb ?a status ] =>
                 destruct (String.eqb_spec a status) as [Heq|_];
                 [exfalso; apply Hnot; rewrite <- Heq; cbn; tauto|]
             end.
      reflexivity. }
    rewrite Hnone. reflexivity.
Qed.

Lemma format_runtime_status_shape_witness :
  assoc "description" (format_runtime_status "running")
  = Some "Unknown status: running".
Proof.
  apply (proj2 (format_runtime_status_shape "running")).
  cbn. intros H.
  repeat (destruct H as [H|H]; [discriminate H|]). exact H.
Defined.

Section ServiceMore.

Variable Client : Type.
Variable DurableOrchestrationClient : string -> result Client.
Variable get_status :
  Client -> string -> bool -> bool -> result (option DurableOrchestrationStatus).
Variable json_loads : string -> option value.
Variable py_str : value -> string.
Variable isoformat : datetime -> string.
Variable format_1f : Z -> string.

(** X11: the answer for an existing instance holds an
    [execution_history] exactly when the history was asked for and the
    status object has events; it then lists one entry per event, in
    order.  A request for a history that is not there is answered
    without the key, not with an error. *)
Theorem execution_history_on_request (client : Client)
    (instance_id : string) (include_history : bool)
    (st : DurableOrchestrationStatus) :
  get_status client instance_id include_history include_history
  = Ok (Some st) ->
  exists fields,
    get_orchestration_status Client get_status json_loads py_str isoformat
      format_1f client instance_id include_history
    = Ok (VDict fields) /\
    lookup "execution_history" fields
    = match history_events st with
      | Some (ev :: evs) =>
          if include_history
          then Some (VList (map (render_event isoformat) (ev :: evs)))
          else None
      | _ => None
      end.
Proof.
  intros Hst. unfold get_orchestration_status. rewrite Hst. cbn [bind].
  destruct (StatusProps.extract_video_info_returns json_loads st) as [vi ->].
  destruct (StatusProps.parse_output_returns json_loads py_str st)
    as [out ->].
  cbn [bind]. eexists. split; [reflexivity|].
  destruct (history_events st) as [[|ev evs]|], include_history; reflexivity.
Qed.

(** X12: an exception of [get_status] does not escape [main]: a
    [ValueError] is answered with status code 400, any other exception
    with 500, both with the message of the exception. *)
Theorem store_failure_is_answered (req : HttpRequest) (starter : string)
    (client : Client) (instance_id : string) (e : exn) :
  DurableOrchestrationClient starter = Ok client ->
  str_get "instanceId" (route_params req) = Some instance_id ->
  instance_id <> "" ->
  (forall h h', get_status client instance_id h h' = Raise e) ->
  let response :=
    main Client DurableOrchestrationClient get_status json_loads py_str
      isoformat format_1f req starter in
  status_code response = (if isinstance e ValueError then 400 else 500)%Z /\
  get (body response) "message" VNone = Ok (VStr (exn_msg e)).
Proof.
  intros Hclient Hid Hne Hraise.
  unfold main, handle. rewrite Hclient, Hid. cbn [bind nonempty].
  destruct (String.eqb_spec instance_id "") as [->|_]; [now contradiction Hne|].
  cbn [negb]. unfold get_orchestration_status. rewrite Hraise. cbn [bind].
  destruct (isinstance e ValueError); split; reflexivity.
Qed.

(** X14: the stored input of an instance is shown as far as it can be
    read.  An input that is not a mapping, or a string that does not
    hold one, is answered with ["Unable to parse"]; a mapping is
    answered by its three fields, with defaults for the missing ones. *)
Theorem stored_input_is_shown (st : DurableOrchestrationStatus) :
  truthy (input_ st) = true ->
  ((forall d, loads_if_str json_loads (input_ st) <> Ok (VDict d)) ->
   extract_video_info json_loads st
   = Ok (VDict [("video_name", VStr "Unable to parse")])) /\
  (forall d,
      loads_if_str json_loads (input_ st) = Ok (VDict d) ->
      extract_video_info json_loads st
      = Ok (VDict
              [ ("video_name",
                 match lookup "blob_name" d with
                 | Some v => v
                 | None => VStr "Unknown"
                 end);
                ("container_name",
                 match lookup "container_name" d with
                 | Some v => v
                 | None => VStr "Unknown"
                 end);
                ("blob_url",
                 match lookup "blob_url" d with
                 | Some v => v
                 | None => VStr ""
                 end) ])).
Proof.
  intros Ht. unfold extract_video_info. rewrite Ht. split.
  - intros Hnot.
    destruct (loads_if_str json_loads (input_ st)) as [v|e] eqn:Hl.
    + destruct v; try reflexivity. now contradiction (Hnot d).
    + cbn [bind try_except].
      assert (He : exn_cls e = JSONDecodeError).
      { unfold loads_if_str, loads in Hl.
        destruct (input_ st); try discriminate Hl.
        destruct (json_loads s); [discriminate Hl|].
        injection Hl as <-. reflexivity. }
      destruct e as [cls msg]. cbn in He. subst cls. reflexivity.
  - intros d Hd. rewrite Hd. reflexivity.
Qed.

End ServiceMore.

(** X13: without an instance identifier [main] answers with status
    code 200 and an explicit message, whether a video name is given or
    not, and never consults the store: the answer is the same over any
    two stores. *)
Theorem lookup_without_identifier (Client : Type)
    (DurableOrchestrationClient : string -> result Client)
    (get_status get_status' :
       Client -> string -> bool -> bool
       -> result (option DurableOrchestrationStatus))
    (json_loads : string -> option value) (py_str : value -> string)
    (isoformat : datetime -> string) (format_1f : Z -> string)
    (req : HttpRequest) (starter : string) (client : Client) :
  DurableOrchestrationClient starter = Ok client ->
  nonempty (str_get "instanceId" (route_params req)) = false ->
  let response :=
    main Client DurableOrchestrationClient get_status json_loads py_str
      isoformat format_1f req starter in
  response
  = main Client DurableOrchestrationClient get_status' json_loads py_str
      isoformat format_1f req starter /\
  status_code response = 200%Z /\
  exists msg, get (body response) "message" VNone = Ok (VStr msg).
Proof.
  intros Hclient Hid. unfold main, handle. rewrite Hclient, Hid.
  cbn [bind].
  destruct (nonempty (str_get "video_name" (params req)));
    (split; [reflexivity|]); (split; [reflexivity|]);
    eexists; reflexivity.
Qed.

Lemma execution_history_on_request_witness :
  exists fields,
    get_orchestration_status unit MoreFixtures.history_get_status
      Fixtures.stub_json_loads Fixtures.stub_str Fixtures.stub_isoformat
      Fixtures.stub_format_1f tt "instance-1" true
    = Ok (VDict fields) /\
    lookup "execution_history" fields
    = Some (VList
              [ VDict [ ("name", VStr "ExtractVideoMetadata");
                        ("timestamp", VStr "1970-01-01T00:00:01+00:00");
                        ("event_type", VStr "TaskCompleted") ] ]).
Proof.
  apply (execution_history_on_request unit MoreFixtures.history_get_status
           Fixtures.stub_json_loads Fixtures.stub_str Fixtures.stub_isoformat
           Fixtures.stub_format_1f tt "instance-1" true
           MoreFixtures.history_status).
  reflexivity.
Defined.

Lemma store_failure_is_answered_witness :
  status_code
    (main unit Fixtures.stub_client MoreFixtures.failing_get_status
       Fixtures.stub_json_loads Fixtures.stub_str Fixtures.stub_isoformat
       Fixtures.stub_format_1f Fixtures.unknown_request "starter")
  = 500%Z.
Proof.
  apply (store_failure_is_answered unit Fixtures.stub_client
           MoreFixtures.failing_get_status Fixtures.stub_json_loads
           Fixtures.stub_str Fixtures.stub_isoformat Fixtures.stub_format_1f
           Fixtures.unknown_request "starter" tt "no-such-instance"
           (mk_exn Exception "store unavailable")).
  - reflexivity.
  - reflexivity.
  - discriminate.
  - intros h h'. reflexivity.
Defined.

Lemma stored_input_is_shown_witness :
  extract_video_info Fixtures.stub_json_loads MoreFixtures.history_status
  = Ok (VDict [("video_name", VStr "Unable to parse")]).
Proof.
  apply (proj1 (stored_input_is_shown Fixtures.stub_json_loads
                  MoreFixtures.history_status eq_refl)).
  intros d. discriminate.
Defined.

Lemma lookup_without_identifier_witness :
  status_code
    (main unit Fixtures.stub_client Fixtures.stub_get_status
       Fixtures.stub_json_loads Fixtures.stub_str Fixtures.stub_isoformat
       Fixtures.stub_format_1f MoreFixtures.by_name_request "starter")
  = 200%Z.
Proof.
  apply (lookup_without_identifier unit Fixtures.stub_client
           Fixtures.stub_get_status MoreFixtures.failing_get_status
           Fixtures.stub_json_loads Fixtures.stub_str Fixtures.stub_isoformat
           Fixtures.stub_format_1f MoreFixtures.by_name_request "starter" tt);
    reflexivity.
Defined.

End StatusMore.

(* ================================================================== *)
(** ** Properties of the shared configuration utilities                *)
(* ================================================================== *)

Module ConfigProps.

Import Config.

(** X15: the shared [is_video_file] and the one of the starter are the
    same function: they agree on every pair of arguments, raising
    included, and their two allow-lists coincide. *)
Theorem is_video_file_copies_agree (content_type filename : value) :
  Config.is_video_file content_type filename
  = Starter.is_video_file content_type filename /\
  SUPPORTED_VIDEO_FORMATS = Starter.video_content_types /\
  SUPPORTED_VIDEO_EXTENSIONS = Starter.video_extensions.
Proof.
  repeat split.
Qed.

(** X16: the size categories are cut at 10, 100 and 500 MB, each bound
    belonging to the larger category, and a larger file never gets a
    smaller category. *)
Theorem size_category_monotone (a b : Q) :
  (a <= b)%Q ->
  (category_rank (get_file_size_category a)
   <= category_rank (get_file_size_category b))%nat /\
  (get_file_size_category a = "small" <-> (a < 10)%Q) /\
  (get_file_size_category a = "extra_large" <-> (500 <= a)%Q).
Proof.
  intros Hab. unfold get_file_size_category.
  repeat match goal with
         | |- context [ Qlt_le_dec ?x ?y ] => destruct (Qlt_le_dec x y)
         end;
    cbn; repeat split; intros; try lia; try discriminate; try reflexivity;
    lra.
Qed.

Lemma size_category_monotone_witness :
  (category_rank (get_file_size_category 5)
   <= category_rank (get_file_size_category 50))%nat.
Proof.
  apply (size_category_monotone 5 50). discriminate.
Defined.

(** X17: [validate_configuration] never declares a configuration
    invalid and never reports an error: missing services only add
    warnings.  It files the four services in a fixed order, gives one
    warning for each service that [get_service_status] does not report
    as ["configured"], and for the three endpoints its flag is set
    exactly when the status is ["configured"]. *)
Theorem validation_only_warns (cls : Config) :
  let r := validate_configuration cls in
  valid r = true /\
  errors r = [] /\
  map fst (services r)
  = ["azure_ai"; "azure_openai"; "azure_search"; "azure_storage"] /\
  List.length (warnings r)
  = List.length
      (filter (fun kv => negb (String.eqb (snd kv) "configured"))
         (get_service_status cls)) /\
  (forall name,
      In name ["azure_ai"; "azure_openai"; "azure_search"] ->
      (StatusText.assoc name (services r) = Some true
       <-> StatusText.assoc name (get_service_status cls)
           = Some "configured")).
Proof.
  destruct cls as [ai openai search storage].
  destruct (String.eqb storage development_storage) eqn:Hdev;
    unfold validate_configuration, get_service_status, nonempty;
    cbn [AZURE_AI_SERVICE_ENDPOINT AZURE_OPENAI_ENDPOINT
         AZURE_SEARCH_ENDPOINT AZURE_STORAGE_CONNECTION_STRING];
    rewrite !Hdev;
    destruct ai, openai, search, storage;
    (split; [reflexivity|]); (split; [reflexivity|]);
    (split; [reflexivity|]); (split; [reflexivity|]);
    intros name [<-|[<-|[<-|[]]]]; vm_compute; split; intros H;
    (reflexivity || discriminate H).
Qed.

End ConfigProps.

(* ================================================================== *)
(** ** Properties of the embeddings client                             *)
(* ================================================================== *)

Module OpenAIClientProps.

Import OpenAIClient.

Lemma firstn_plus {A : Type} (a b : nat) (l : list A) :
  firstn (a + b) l = firstn a l ++ firstn b (skipn a l).
Proof.
  revert l. induction a as [|a IH]; intros l; [reflexivity|].
  destruct l as [|x l]; cbn [Nat.add firstn skipn app].
  - now rewrite firstn_nil.
  - now rewrite IH.
Qed.

(** The first [m] batches of a list are its first [16 m] elements. *)
Lemma concat_first_batches {A : Type} (l : list A) (m : nat) :
  List.concat (map (fun i => slice l i (i + batch_size))
            (map (fun k => k * batch_size)%nat (seq 0 m)))
  = firstn (m * batch_size) l.
Proof.
  induction m as [|m IH]; [reflexivity|].
  rewrite seq_S, !map_app, concat_app, IH. cbn [map List.concat Nat.add].
  rewrite app_nil_r. unfold slice.
  replace (m * batch_size + batch_size - m * batch_size)%nat
    with batch_size by lia.
  replace (S m * batch_size)%nat with (m * batch_size + batch_size)%nat
    by lia.
  now rewrite firstn_plus.
Qed.

Lemma batches_cover (n : nat) :
  (n <= (n + batch_size - 1) / batch_size * batch_size)%nat.
Proof.
  unfold batch_size.
  pose proof (Nat.div_mod_eq (n + 16 - 1) 16) as Hdiv.
  pose proof (Nat.mod_upper_bound (n + 16 - 1) 16 ltac:(lia)) as Hmod.
  lia.
Qed.

Lemma batches_concat {A : Type} (l : list A) :
  List.concat (map (fun i => slice l i (i + batch_size))
                 (range_step (List.length l) batch_size))
  = l.
Proof.
  unfold range_step. rewrite concat_first_batches.
  apply firstn_all2. apply batches_cover.
Qed.

(** X18: the batches that [generate_embeddings] cuts a list of texts
    into are, put end to end, the list itself: no text is lost, sent
    twice or moved.  There are [ceil(n / 16)] of them, none empty and
    none longer than 16. *)
Theorem batches_partition (texts : list string) :
  let batches :=
    map (fun i => slice texts i (i + batch_size))
      (range_step (List.length texts) batch_size) in
  List.concat batches = texts /\
  List.length batches = ((List.length texts + 15) / 16)%nat /\
  Forall (fun b => (1 <= List.length b <= 16)%nat) batches.
Proof.
  cbv zeta. split; [apply batches_concat|]. unfold range_step. split.
  - rewrite !length_map, length_seq. unfold batch_size. f_equal. lia.
  - apply Forall_forall. intros b Hb.
    apply in_map_iff in Hb. destruct Hb as [i [<- Hi]].
    apply in_map_iff in Hi. destruct Hi as [k [<- Hk]].
    apply in_seq in Hk. unfold slice.
    rewrite length_firstn, length_skipn.
    replace (k * batch_size + batch_size - k * batch_size)%nat
      with batch_size by lia.
    unfold batch_size in *.
    pose proof (Nat.div_mod_eq (List.length texts + 16 - 1) 16) as Hdiv.
    pose proof (Nat.mod_upper_bound (List.length texts + 16 - 1) 16
                  ltac:(lia)) as Hmod.
    lia.
Qed.

Section EmbeddingsProps.

Variable Float : Type.
Variable World : Type.
Variable embeddings_create :
  string -> list string -> World -> result (list (list Float)) * World.

Lemma embed_batches_requests (deployment : string) (texts : list string)
    (starts : list nat) (acc : list (list Float)) (w : World) :
  let r := embed_batches Float World embeddings_create deployment texts
             starts acc w in
  (exists k, requests r
             = firstn k (map (fun i => slice texts i (i + batch_size)) starts))
  /\
  (forall embeddings,
      outcome r = Ok embeddings ->
      requests r = map (fun i => slice texts i (i + batch_size)) starts).
Proof.
  cbv zeta. revert acc w.
  induction starts as [|i rest IH]; intros acc w; cbn [embed_batches map].
  - split; [exists 0%nat; reflexivity|reflexivity].
  - destruct (embeddings_create deployment
                (slice texts i (i + batch_size)) w) as [[vs|e] w'].
    + cbn [requests outcome].
      destruct (IH (acc ++ vs) w') as [[k Hk] Hall]. split.
      * exists (S k). cbn [firstn]. now rewrite Hk.
      * intros es Hes. now rewrite (Hall es Hes).
    + cbn [requests outcome]. split.
      * exists 1%nat. reflexivity.
      * discriminate.
Qed.

Lemma embed_batches_length (deployment : string) (texts : list string) :
  (forall model batch w0 vs w1,
      embeddings_create model batch w0 = (Ok vs, w1) ->
      List.length vs = List.length batch) ->
  forall (starts : list nat) (acc : list (list Float)) (w : World)
         (embeddings : list (list Float)),
    outcome (embed_batches Float World embeddings_create deployment texts
               starts acc w)
    = Ok embeddings ->
    List.length embeddings
    = (List.length acc
       + List.length
           (List.concat (map (fun i => slice texts i (i + batch_size)) starts)))%nat.
Proof.
  intros Hapi. induction starts as [|i rest IH]; intros acc w es;
    cbn [embed_batches map List.concat].
  - cbn [outcome]. intros H. injection H as <-. cbn. lia.
  - destruct (embeddings_create deployment
                (slice texts i (i + batch_size)) w) as [[vs|e] w'] eqn:Hcall;
      cbn [outcome]; [|discriminate].
    intros Hes. rewrite (IH _ _ _ Hes), !length_app, (Hapi _ _ _ _ _ Hcall).
    lia.
Qed.

(** The loop asks the service for the batches it sends and for no
    other: every answer but the last is a success, the last one is the
    failure when the loop raises, and the successes, put end to end
    after what was gathered before, are what the loop returns. *)
Lemma embed_batches_answers (deployment : string) (texts : list string)
    (starts : list nat) (acc : list (list Float)) (w : World) :
  let r := embed_batches Float World embeddings_create deployment texts
             starts acc w in
  let asked := ask_each Float World embeddings_create deployment
                 (requests r) w in
  after r = snd asked /\
  match outcome r with
  | Ok embeddings =>
      exists answers,
        fst asked = map Ok answers /\
        embeddings = acc ++ List.concat answers
  | Raise e =>
      exists answers, fst asked = map Ok answers ++ [Raise e]
  end.
Proof.
  cbv zeta. revert acc w.
  induction starts as [|i rest IH]; intros acc w; cbn [embed_batches].
  - cbn. split; [reflexivity|]. exists []. split; [reflexivity|].
    now rewrite app_nil_r.
  - destruct (embeddings_create deployment
                (slice texts i (i + batch_size)) w) as [[vs|e] w'] eqn:Hcall.
    + cbn [requests outcome after ask_each]. rewrite Hcall.
      destruct (IH (acc ++ vs) w') as [Hafter Hout].
      destruct (ask_each Float World embeddings_create deployment
                  (requests (embed_batches Float World embeddings_create
                               deployment texts rest (acc ++ vs) w')) w')
        as [answers w_end].
      cbn [fst snd] in *. split; [exact Hafter|].
      destruct (outcome (embed_batches Float World embeddings_create
                           deployment texts rest (acc ++ vs) w')) as [es|e].
      * destruct Hout as [more [-> ->]]. exists (vs :: more).
        split; [reflexivity|]. cbn [List.concat]. now rewrite app_assoc.
      * destruct Hout as [more ->]. exists (vs :: more). reflexivity.
    + cbn [requests outcome after ask_each]. rewrite Hcall.
      cbn [fst snd]. split; [reflexivity|]. exists []. reflexivity.
Qed.

(** X19: [generate_embeddings] sends the batches in order, one call
    after the other, and stops at the first call that fails: when it
    raises with a deployment name set, every call before the last one
    was answered and the last one raised that exception.  When it
    returns, every batch was sent exactly once and what it returns are
    the answers put end to end; if the service answers each batch with
    one vector per text, there is one vector per text.  Without a
    deployment name it raises [ValueError] before any call. *)
Theorem embeddings_sent_in_order (embedding_deployment : option string)
    (texts : list string) (deployment_name : option string) (w : World) :
  let r := generate_embeddings Float World embeddings_create
             embedding_deployment texts deployment_name w in
  let batches :=
    map (fun i => slice texts i (i + batch_size))
      (range_step (List.length texts) batch_size) in
  let deployment :=
    match or_else deployment_name embedding_deployment with
    | Some s => s
    | None => ""
    end in
  let asked := ask_each Float World embeddings_create deployment
                 (requests r) w in
  (exists k, requests r = firstn k batches) /\
  after r = snd asked /\
  (forall e,
      outcome r = Raise e ->
      is_set (or_else deployment_name embedding_deployment) = true ->
      exists answers, fst asked = map Ok answers ++ [Raise e]) /\
  (forall embeddings,
      outcome r = Ok embeddings ->
      requests r = batches /\
      (exists answers,
          fst asked = map Ok answers /\
          embeddings = List.concat answers) /\
      ((forall model batch w0 vs w1,
           embeddings_create model batch w0 = (Ok vs, w1) ->
           List.length vs = List.length batch) ->
       List.length embeddings = List.length texts)) /\
  (is_set (or_else deployment_name embedding_deployment) = false ->
   requests r = [] /\ after r = w /\
   outcome r
   = Raise (mk_exn ValueError "Embedding deployment name not configured")).
Proof.
  cbv zeta. unfold generate_embeddings.
  destruct (is_set (or_else deployment_name embedding_deployment)).
  - set (deployment := match or_else deployment_name embedding_deployment with
                       | Some s => s
                       | None => ""
                       end).
    destruct (embed_batches_requests deployment texts
                (range_step (List.length texts) batch_size) [] w)
      as [Hprefix Hall].
    destruct (embed_batches_answers deployment texts
                (range_step (List.length texts) batch_size) [] w)
      as [Hafter Hout].
    split; [exact Hprefix|]. split; [exact Hafter|].
    split; [|split; [|discriminate]].
    + intros e He _. rewrite He in Hout. exact Hout.
    + intros es Hes. split; [exact (Hall es Hes)|].
      rewrite Hes in Hout. split; [exact Hout|].
      intros Hapi.
      rewrite (embed_batches_length deployment texts Hapi _ _ _ _ Hes).
      cbn [List.length Nat.add].
      now rewrite batches_concat.
  - split; [exists 0%nat; reflexivity|]. split; [reflexivity|].
    split; [discriminate|]. split; [discriminate|].
    intros _. repeat split.
Qed.

(** X20: [generate_single_embedding] sends the text as one batch of
    one; it returns the first vector of the answer, the empty vector
    when the answer holds none, and the exception when the call
    fails. *)
Theorem single_embedding (embedding_deployment : option string)
    (text : string) (deployment_name : option string) (w : World) :
  is_set (or_else deployment_name embedding_deployment) = true ->
  exists deployment,
    or_else deployment_name embedding_deployment = Some deployment /\
    generate_single_embedding Float World embeddings_create
      embedding_deployment text deployment_name w
    = match embeddings_create deployment [text] w with
      | (Ok (first :: _), w') => (Ok first, w')
      | (Ok [], w') => (Ok [], w')
      | (Raise e, w') => (Raise e, w')
      end.
Proof.
  intros Hset. unfold generate_single_embedding, generate_embeddings.
  rewrite Hset.
  destruct (or_else deployment_name embedding_deployment) as [dep|];
    [|discriminate Hset].
  exists dep. split; [reflexivity|].
  change (range_step (List.length [text]) batch_size) with [0%nat].
  cbn [embed_batches].
  change (slice [text] 0 (0 + batch_size)) with [text].
  destruct (embeddings_create dep [text] w) as [[[|v vs]|e] w'];
    reflexivity.
Qed.

End EmbeddingsProps.

Lemma embeddings_sent_in_order_witness :
  (exists embeddings,
      outcome MoreFixtures.stub_embedding_run = Ok embeddings /\
      List.length embeddings = 17%nat /\
      map (@List.length string) (requests MoreFixtures.stub_embedding_run)
      = [16; 1]%nat) /\
  (exists e answers,
      outcome MoreFixtures.tired_embedding_run = Raise e /\
      fst (ask_each Z nat MoreFixtures.tired_embeddings_create
             "text-embedding-ada-002"
             (requests MoreFixtures.tired_embedding_run) 0%nat)
      = map Ok answers ++ [Raise e] /\
      map (@List.length string) (requests MoreFixtures.tired_embedding_run)
      = [16; 16]%nat).
Proof.
  split.
  - destruct (outcome MoreFixtures.stub_embedding_run) as [es|e] eqn:Hes;
      [|vm_compute in Hes; discriminate Hes].
    exists es. split; [reflexivity|].
    destruct (proj1 (proj2 (proj2 (proj2
                (embeddings_sent_in_order Z nat
                   MoreFixtures.stub_embeddings_create
                   (Some "text-embedding-ada-002")
                   MoreFixtures.seventeen_texts None 0%nat))))
                es Hes) as (Hrequests & _ & Hlength).
    split.
    + apply Hlength. intros model batch w0 vs w1 Hcall.
      injection Hcall as <- _. apply length_map.
    + unfold MoreFixtures.stub_embedding_run. rewrite Hrequests.
      vm_compute. reflexivity.
  - destruct (outcome MoreFixtures.tired_embedding_run) as [es|e] eqn:He;
      [vm_compute in He; discriminate He|].
    destruct (proj1 (proj2 (proj2
                (embeddings_sent_in_order Z nat
                   MoreFixtures.tired_embeddings_create
                   (Some "text-embedding-ada-002")
                   MoreFixtures.forty_texts None 0%nat)))
                e He eq_refl) as [answers Hasked].
    exists e, answers. split; [reflexivity|]. split; [exact Hasked|].
    vm_compute. reflexivity.
Defined.

Lemma single_embedding_witness :
  generate_single_embedding Z nat MoreFixtures.stub_embeddings_create
    (Some "text-embedding-ada-002") "text" (Some "") 0%nat
  = (Ok [0%Z; 1%Z], 1%nat).
Proof.
  destruct (single_embedding Z nat MoreFixtures.stub_embeddings_create
              (Some "text-embedding-ada-002") "text" (Some "") 0%nat
              eq_refl) as [deployment [Hdep Hrun]].
  rewrite Hrun. injection Hdep as <-. reflexivity.
Defined.

End OpenAIClientProps.

(* ================================================================== *)
(** ** Properties of the search client and of the segment extraction   *)
(* ================================================================== *)

Module ClientProps.

Import SearchClient AzureAIClient.

Lemma filter_split_length {A : Type} (p : A -> bool) (l : list A) :
  (List.length (filter p l) + List.length (filter (fun x => negb (p x)) l)
   = List.length l)%nat.
Proof.
  induction l as [|x l IH]; [reflexivity|].
  cbn [filter]. destruct (p x); cbn [negb List.length]; lia.
Qed.

Section UploadProps.

Variable sdk_upload_documents : list value -> result (list IndexingResult).

(** X21: when the SDK answers, [upload_documents] always reports the
    status ["completed"], also when documents were refused, even all
    of them; the two counts add up to the number of results, and the
    refused documents are listed by key, in the order of the
    results. *)
Theorem upload_counts (documents : list value)
    (results : list IndexingResult) :
  sdk_upload_documents documents = Ok results ->
  exists fields failed_docs,
    upload_documents sdk_upload_documents documents = Ok (VDict fields) /\
    lookup "status" fields = Some (VStr "completed") /\
    lookup "successful_count" fields
    = Some (VInt (Z.of_nat (List.length (filter succeeded results)))) /\
    lookup "failed_count" fields
    = Some (VInt (Z.of_nat (List.length results
                            - List.length (filter succeeded results)))) /\
    lookup "failed_documents" fields = Some (VList failed_docs) /\
    map (fun doc => get doc "key" VNone) failed_docs
    = map (fun r => Ok (key r)) (filter failed results).
Proof.
  intros Hsdk. unfold upload_documents. rewrite Hsdk. cbn [bind].
  eexists. eexists. split; [reflexivity|].
  split; [reflexivity|]. split; [reflexivity|]. split; [|split].
  - cbn [lookup String.eqb Ascii.eqb Bool.eqb]. rewrite length_map.
    pose proof (filter_split_length succeeded results) as Hlen.
    unfold failed. do 3 f_equal. lia.
  - reflexivity.
  - rewrite map_map. reflexivity.
Qed.

End UploadProps.

Section SegmentProps.

Variable json_dumps : value -> string.
Variable py_str : value -> string.
Variable now_isoformat : string.

Lemma process_segments_length (i : nat) (contents : list value) :
  List.length (process_segments json_dumps py_str i contents)
  = List.length contents.
Proof.
  revert i. induction contents as [|x l IH]; intros i; [reflexivity|].
  cbn [process_segments List.length]. now rewrite IH.
Qed.

Lemma process_segments_ids (i : nat) (contents : list value) :
  map (fun seg => get seg "segment_id" VNone)
    (process_segments json_dumps py_str i contents)
  = map (fun k => Ok (VInt (Z.of_nat (k + 1))))
      (seq i (List.length contents)).
Proof.
  revert i. induction contents as [|x l IH]; intros i; [reflexivity|].
  cbn [process_segments List.length seq map]. now rewrite IH.
Qed.

Lemma process_segments_contents (i : nat) (contents : list value) :
  map (fun seg => get seg "content" VNone)
    (process_segments json_dumps py_str i contents)
  = map (fun x => Ok x) contents.
Proof.
  revert i. induction contents as [|x l IH]; intros i; [reflexivity|].
  cbn [process_segments map]. now rewrite IH.
Qed.

(** X22: [extract_video_segments] refuses an analysis result that is
    empty or has no ["result"] with a [ValueError].  On a result whose
    ["result"] holds a list of contents it returns one segment per
    content: [total_segments] is their number, the segments keep the
    contents in order and are numbered from 1. *)
Theorem segments_numbered (d rd : list (string * value))
    (contents : list value) :
  (forall v, truthy v = false ->
             extract_video_segments json_dumps py_str now_isoformat v
             = Raise (mk_exn ValueError "Invalid analysis result format")) /\
  (lookup "result" d = None ->
   extract_video_segments json_dumps py_str now_isoformat (VDict d)
   = Raise (mk_exn ValueError "Invalid analysis result format")) /\
  (lookup "result" d = Some (VDict rd) ->
   lookup "contents" rd = Some (VList contents) ->
   exists fields segments,
     extract_video_segments json_dumps py_str now_isoformat (VDict d)
     = Ok (VDict fields) /\
     lookup "total_segments" fields
     = Some (VInt (Z.of_nat (List.length contents))) /\
     lookup "segments" fields = Some (VList segments) /\
     map (fun seg => get seg "segment_id" VNone) segments
     = map (fun k => Ok (VInt (Z.of_nat k)))
         (seq 1 (List.length contents)) /\
     map (fun seg => get seg "content" VNone) segments
     = map (fun x => Ok x) contents).
Proof.
  unfold extract_video_segments. split; [|split].
  - intros v Hv. rewrite Hv. reflexivity.
  - intros Hd. destruct d as [|kv d']; [reflexivity|].
    change (truthy (VDict (kv :: d'))) with true.
    cbn [PyMore.contains bind]. rewrite Hd. reflexivity.
  - intros Hd Hc. destruct d as [|kv d']; [discriminate Hd|].
    change (truthy (VDict (kv :: d'))) with true.
    cbn [PyMore.contains PyMore.subscript bind]. rewrite Hd.
    cbn [negb bind get]. rewrite Hc. cbn [PyMore.iterate bind].
    eexists. eexists. split; [reflexivity|].
    split; [|split; [reflexivity|split]].
    + cbn [lookup String.eqb Ascii.eqb Bool.eqb].
      now rewrite process_segments_length.
    + rewrite process_segments_ids.
      rewrite <- seq_shift, map_map. apply map_ext. intros k.
      now rewrite Nat.add_1_r.
    + apply process_segments_contents.
Qed.

End SegmentProps.

Lemma upload_counts_witness :
  exists fields failed_docs,
    upload_documents MoreFixtures.refusing_upload [VDict []; VDict []]
    = Ok (VDict fields) /\
    lookup "status" fields = Some (VStr "completed") /\
    lookup "successful_count" fields = Some (VInt 0) /\
    lookup "failed_count" fields = Some (VInt 2) /\
    lookup "failed_documents" fields = Some (VList failed_docs) /\
    map (fun doc => get doc "key" VNone) failed_docs
    = [Ok (VStr "video_demo"); Ok (VStr "video_demo")].
Proof.
  apply (upload_counts MoreFixtures.refusing_upload [VDict []; VDict []]
           [ mk_indexing_result (VStr "video_demo") false (VStr "refused");
             mk_indexing_result (VStr "video_demo") false (VStr "refused") ]).
  reflexivity.
Defined.

Lemma segments_numbered_witness :
  exists fields segments,
    extract_video_segments MoreFixtures.stub_json_dumps Fixtures.stub_str
      "2024-01-01T00:00:00+00:00" MoreFixtures.demo_segments
    = Ok (VDict fields) /\
    lookup "total_segments" fields = Some (VInt 2) /\
    lookup "segments" fields = Some (VList segments) /\
    map (fun seg => get seg "segment_id" VNone) segments
    = [Ok (VInt 1); Ok (VInt 2)] /\
    map (fun seg => get seg "content" VNone) segments
    = [Ok (VStr "intro"); Ok (VDict [])].
Proof.
  apply (proj2 (proj2 (segments_numbered MoreFixtures.stub_json_dumps
                         Fixtures.stub_str "2024-01-01T00:00:00+00:00"
                         [ ("result",
                            VDict [ ("contents",
                                     VList [VStr "intro"; VDict []]) ]) ]
                         [ ("contents", VList [VStr "intro"; VDict []]) ]
                         [VStr "intro"; VDict []])));
    reflexivity.
Defined.

End ClientProps.

(* ================================================================== *)
(** ** Properties of the StoreInAzureSearch activity                   *)
(* ================================================================== *)

Module StoreProps.

Import Orchestrator SearchClient StoreInAzureSearch.

(** Case analysis on the next computation a chain of binds waits for. *)
Ltac next_bind :=
  match goal with
  | |- context [ bind ?m _ ] =>
      let x := fresh "x" in
      let e := fresh "e" in
      destruct m as [x|e] eqn:?; cbn [bind]
  end.

Section StoreActivityProps.

Variable environ : string -> option string.
Variable Sdk : Type.
Variable make_sdk : string -> string -> option string -> result Sdk.
Variable sdk_upload_documents : Sdk -> list value -> result (list IndexingResult).
Variable py_str : value -> string.
Variable now : nat -> datetime.
Variable isoformat : datetime -> string.

Local Notation "'main_of'" :=
  (main environ Sdk make_sdk sdk_upload_documents py_str now isoformat).

(** X23: in a process that has no search client yet, a missing or
    empty [AZURE_SEARCH_ENDPOINT] does not lead to the simulated
    result: the client is built before the endpoint is looked at, its
    constructor raises, and the activity fails with the wrapped
    message.  The global stays empty. *)
Theorem unconfigured_search_fails (d vd : list (string * value)) :
  env_set environ "AZURE_SEARCH_ENDPOINT" = false ->
  lookup "video_info" d = Some (VDict vd) ->
  main_of None (VDict d)
  = (Raise (mk_exn Exception
              "Search storage failed: AZURE_SEARCH_ENDPOINT not configured"),
     None).
Proof.
  intros Henv Hvi. unfold main, get. rewrite Hvi. cbn [bind log_blob_name get].
  unfold store, get_search_client, new_client.
  unfold env_set in Henv.
  destruct (environ "AZURE_SEARCH_ENDPOINT") as [[|c rest]|];
    try discriminate Henv; reflexivity.
Qed.

Lemma new_document_id_prefix (video_info : value) (id : string) :
  new_document_id now video_info = Ok id ->
  PyMore.starts_with "video_" id = true.
Proof.
  unfold new_document_id.
  destruct (get video_info "blob_name" (VStr "")) as [b|e]; cbn [bind];
    [|discriminate].
  destruct (PyMore.replace b "."%char "_"%char) as [s|e]; cbn [bind];
    [|discriminate].
  intros H. injection H as <-. reflexivity.
Qed.

Lemma prepared_document_id
    (video_info metadata analysis embeddings document : value) :
  prepare_search_document py_str now isoformat
    video_info metadata analysis embeddings = Ok document ->
  exists id,
    get document "id" VNone = Ok (VStr id) /\
    PyMore.starts_with "video_" id = true.
Proof.
  unfold prepare_search_document. intros Hdoc.
  destruct (new_document_id now video_info) as [id|e] eqn:Hid;
    cbn [bind] in Hdoc; [|discriminate Hdoc].
  repeat match type of Hdoc with
         | bind ?m _ = _ =>
             destruct m; cbn [bind] in Hdoc; [|discriminate Hdoc]
         end.
  injection Hdoc as <-. exists id.
  split; [reflexivity|exact (new_document_id_prefix _ _ Hid)].
Qed.

(** X24: whatever path it takes, when the activity returns, its result
    is a mapping that exposes the identifier of the document as a
    string starting with [video_]: the expression
    [search_result.get("document_id")] of the orchestrator succeeds on
    it. *)
Theorem search_result_exposes_document_id
    (instance : option (AzureSearchClient Sdk)) (input_data result : value) :
  fst (main_of instance input_data) = Ok result ->
  exists id,
    get result "document_id" VNone = Ok (VStr id) /\
    PyMore.starts_with "video_" id = true.
Proof.
  unfold main.
  destruct (video_info <- get input_data "video_info" (VDict []) ;;
            metadata <- get input_data "metadata" (VDict []) ;;
            analysis <- get input_data "analysis" (VDict []) ;;
            embeddings <- get input_data "embeddings" (VDict []) ;;
            _ <- log_blob_name video_info ;;
            Ok (video_info, metadata, analysis, embeddings))
    as [[[[video_info metadata] analysis] embeddings]|e];
    [|discriminate].
  unfold store.
  destruct (get_search_client environ Sdk make_sdk instance)
    as [[client|e] instance']; [|discriminate].
  destruct (env_set environ "AZURE_SEARCH_ENDPOINT").
  - destruct (prepare_search_document py_str now isoformat video_info
                metadata analysis embeddings) as [document|e] eqn:Hdoc;
      cbn [bind]; [|discriminate].
    destruct (prepared_document_id _ _ _ _ _ Hdoc) as [id [Hid Hprefix]].
    rewrite Hid.
    destruct (upload_document (sdk_upload_documents (sdk Sdk client))
                document); cbn [bind fst]; [|discriminate].
    intros H. injection H as <-. exists id. split; [reflexivity|assumption].
  - unfold simulate_search_storage.
    repeat (next_bind; [|discriminate]).
    cbn [fst]. intros H. injection H as <-.
    eexists. split; reflexivity.
Qed.

(** X25: the activity reports ["success"] whenever the SDK call
    returns, also when the SDK refused the document: the refusal only
    shows in the counts of the upload result. *)
Theorem refusal_reported_as_success (client : AzureSearchClient Sdk)
    (d : list (string * value))
    (video_info metadata analysis embeddings document : value)
    (results : list IndexingResult) :
  env_set environ "AZURE_SEARCH_ENDPOINT" = true ->
  get (VDict d) "video_info" (VDict []) = Ok video_info ->
  get (VDict d) "metadata" (VDict []) = Ok metadata ->
  get (VDict d) "analysis" (VDict []) = Ok analysis ->
  get (VDict d) "embeddings" (VDict []) = Ok embeddings ->
  prepare_search_document py_str now isoformat
    video_info metadata analysis embeddings = Ok document ->
  sdk_upload_documents (sdk Sdk client) [document] = Ok results ->
  exists fields upload,
    main_of (Some client) (VDict d) = (Ok (VDict fields), Some client) /\
    lookup "status" fields = Some (VStr "success") /\
    lookup "upload_result" fields = Some upload /\
    get upload "successful_count" VNone
    = Ok (VInt (Z.of_nat (List.length (filter succeeded results)))) /\
    get upload "failed_count" VNone
    = Ok (VInt (Z.of_nat (List.length (filter failed results)))).
Proof.
  intros Henv Hvi Hmd Han Hem Hdoc Hsdk.
  assert (Hlog : log_blob_name video_info = Ok tt).
  { unfold prepare_search_document, new_document_id in Hdoc.
    unfold log_blob_name.
    destruct video_info; try discriminate Hdoc. reflexivity. }
  destruct (prepared_document_id _ _ _ _ _ Hdoc) as [id [Hid _]].
  unfold main. rewrite Hvi, Hmd, Han, Hem. cbn [bind]. rewrite Hlog.
  cbn [bind]. unfold store, get_search_client. rewrite Henv, Hdoc.
  cbn [bind]. unfold upload_document, upload_documents. rewrite Hsdk.
  cbn [bind]. rewrite Hid. cbn [bind].
  eexists. eexists. split; [reflexivity|].
  split; [reflexivity|]. split; [reflexivity|].
  split; [reflexivity|].
  cbn [get lookup String.eqb Ascii.eqb Bool.eqb]. now rewrite length_map.
Qed.

(** X26: a [video_info] whose [blob_name] is [None], as the starter
    builds it for an event without a subject, makes the activity fail
    on [.replace], in the simulated mode as well as with an
    endpoint. *)
Theorem null_blob_name_fails (client : AzureSearchClient Sdk)
    (d vd : list (string * value)) :
  lookup "video_info" d = Some (VDict vd) ->
  lookup "blob_name" vd = Some VNone ->
  main_of (Some client) (VDict d)
  = (Raise (mk_exn Exception
              "Search storage failed: 'NoneType' object has no attribute 'replace'"),
     Some client).
Proof.
  intros Hvi Hname. unfold main, get. rewrite Hvi.
  cbn [bind log_blob_name get].
  unfold store, get_search_client.
  destruct (env_set environ "AZURE_SEARCH_ENDPOINT").
  - unfold prepare_search_document, new_document_id, get. rewrite Hname.
    reflexivity.
  - unfold simulate_search_storage, get. rewrite Hname. reflexivity.
Qed.

End StoreActivityProps.

Lemma unconfigured_search_fails_witness :
  main MoreFixtures.no_environ unit MoreFixtures.stub_make_sdk
    MoreFixtures.stub_sdk_upload Fixtures.stub_str MoreFixtures.stub_now
    Fixtures.stub_isoformat None MoreFixtures.store_input
  = (Raise (mk_exn Exception
              "Search storage failed: AZURE_SEARCH_ENDPOINT not configured"),
     None).
Proof.
  apply (unconfigured_search_fails MoreFixtures.no_environ unit
           MoreFixtures.stub_make_sdk MoreFixtures.stub_sdk_upload
           Fixtures.stub_str MoreFixtures.stub_now Fixtures.stub_isoformat
           _ Fixtures.demo_fields);
    reflexivity.
Defined.

Lemma search_result_exposes_document_id_witness :
  exists id,
    get (VDict [ ("document_id", VStr "video_demo_mp4_1700000000");
                 ("status", VStr "success");
                 ("upload_result",
                  VDict [ ("successful_count", VInt 0);
                          ("failed_count", VInt 1);
                          ("failed_documents",
                           VList [ VDict [ ("key", VStr "video_demo");
                                           ("error", VStr "refused") ] ]);
                          ("status", VStr "completed") ]) ])
      "document_id" VNone
    = Ok (VStr id) /\
    PyMore.starts_with "video_" id = true.
Proof.
  apply (search_result_exposes_document_id MoreFixtures.search_environ unit
           MoreFixtures.stub_make_sdk MoreFixtures.stub_sdk_upload
           Fixtures.stub_str MoreFixtures.stub_now Fixtures.stub_isoformat
           None MoreFixtures.store_input).
  vm_compute. reflexivity.
Defined.

Lemma refusal_reported_as_success_witness :
  exists fields upload,
    main MoreFixtures.search_environ unit MoreFixtures.stub_make_sdk
      MoreFixtures.stub_sdk_upload Fixtures.stub_str MoreFixtures.stub_now
      Fixtures.stub_isoformat (Some MoreFixtures.stub_search_client)
      MoreFixtures.store_input
    = (Ok (VDict fields), Some MoreFixtures.stub_search_client) /\
    lookup "status" fields = Some (VStr "success") /\
    lookup "upload_result" fields = Some upload /\
    get upload "successful_count" VNone = Ok (VInt 0) /\
    get upload "failed_count" VNone = Ok (VInt 1).
Proof.
  eapply (refusal_reported_as_success MoreFixtures.search_environ unit
            MoreFixtures.stub_make_sdk MoreFixtures.stub_sdk_upload
            Fixtures.stub_str MoreFixtures.stub_now Fixtures.stub_isoformat
            MoreFixtures.stub_search_client _ _ _ _ _ _
            [ mk_indexing_result (VStr "video_demo") false
                (VStr "refused") ]).
  - reflexivity.
  - reflexivity.
  - reflexivity.
  - reflexivity.
  - reflexivity.
  - vm_compute. reflexivity.
  - reflexivity.
Defined.

Lemma null_blob_name_fails_witness :
  main MoreFixtures.search_environ unit MoreFixtures.stub_make_sdk
    MoreFixtures.stub_sdk_upload Fixtures.stub_str MoreFixtures.stub_now
    Fixtures.stub_isoformat (Some MoreFixtures.stub_search_client)
    MoreFixtures.nameless_input
  = (Raise (mk_exn Exception
              "Search storage failed: 'NoneType' object has no attribute 'replace'"),
     Some MoreFixtures.stub_search_client).
Proof.
  apply (null_blob_name_fails MoreFixtures.search_environ unit
           MoreFixtures.stub_make_sdk MoreFixtures.stub_sdk_upload
           Fixtures.stub_str MoreFixtures.stub_now Fixtures.stub_isoformat
           MoreFixtures.stub_search_client _ [("blob_name", VNone)]);
    reflexivity.
Defined.

End StoreProps.

(* ================================================================== *)
(** ** Properties of the metadata activity and of the contexts         *)
(* ================================================================== *)

Module ActivityProps.

Import Orchestrator StoreInAzureSearch ExtractVideoMetadata Contexts.

Section MetadataProps.

Variable environ : string -> option string.
Variable BlobServiceClient : Type.
Variable from_connection_string : string -> result BlobServiceClient.
Variable get_blob_properties :
  BlobServiceClient -> value -> value -> result BlobProperties.
Variable round_to : nat -> Q -> Q.
Variable now : nat -> datetime.
Variable isoformat : datetime -> string.

Local Notation "'metadata_of'" :=
  (ExtractVideoMetadata.main environ BlobServiceClient from_connection_string
     get_blob_properties round_to now isoformat).

(** X27: the metadata that the activity reads from blob storage carry
    [duration_seconds: None], and [prepare_insights_context] divides
    that entry by 60: on the metadata of a configured storage account
    it raises a [TypeError], whatever the video and the analysis.  With
    the simulated metadata the duration is 120 and the division goes
    through. *)
Theorem stored_metadata_break_the_context (connection : string)
    (video_info metadata : value) (vd ad : list (string * value)) :
  environ "AzureWebJobsStorage" = Some connection ->
  connection <> "" ->
  connection <> "UseDevelopmentStorage=true" ->
  metadata_of video_info = Ok metadata ->
  get_in metadata "video_properties" "duration_seconds" (VInt 0) = Ok VNone /\
  prepare_insights_context round_to (VDict vd) metadata (VDict ad)
  = Raise (PyMore.type_error
             "unsupported operand type(s) for /: 'NoneType' and 'int'").
Proof.
  intros Henv Hne Hdev. unfold ExtractVideoMetadata.main, extract.
  rewrite Henv.
  destruct connection as [|c rest]; [now contradiction Hne|].
  destruct (String.eqb_spec (String c rest) "UseDevelopmentStorage=true")
    as [Heq|_]; [now contradiction Hdev|].
  destruct (log_blob_name video_info); cbn [bind]; [|discriminate].
  destruct (from_connection_string (String c rest)); cbn [bind];
    [|discriminate].
  destruct (get video_info "container_name" (VStr "videos")); cbn [bind];
    [|discriminate].
  destruct (get video_info "blob_name" VNone); cbn [bind]; [|discriminate].
  destruct (get_blob_properties _ _ _); cbn [bind]; [|discriminate].
  destruct (get video_info "blob_url" VNone); cbn [bind]; [|discriminate].
  intros H. injection H as <-. split; reflexivity.
Qed.

(** The simulated metadata carry a duration that can be divided. *)
Lemma simulated_duration (video_info metadata : value) :
  simulate_metadata_extraction round_to now isoformat video_info
  = Ok metadata ->
  get_in metadata "video_properties" "duration_seconds" (VInt 0)
  = Ok (VInt 120).
Proof.
  unfold simulate_metadata_extraction.
  repeat match goal with
         | |- bind ?m _ = _ -> _ =>
             destruct m; cbn [bind]; [|discriminate]
         end.
  intros H. injection H as <-. reflexivity.
Qed.

End MetadataProps.

Lemma map_result_length {A B : Type} (f : A -> result B) (l : list A)
    (l' : list B) :
  PyMore.map_result f l = Ok l' -> List.length l' = List.length l.
Proof.
  revert l'. induction l as [|x l IH]; intros l'; cbn [PyMore.map_result].
  - intros H. injection H as <-. reflexivity.
  - destruct (f x); cbn [bind]; [|discriminate].
    destruct (PyMore.map_result f l) as [ys|]; cbn [bind]; [|discriminate].
    intros H. injection H as <-. cbn [List.length]. now rewrite (IH ys).
Qed.

Lemma substring_length_le (s : string) (n : nat) :
  (String.length (substring 0 n s) <= n)%nat.
Proof.
  revert s. induction n as [|n IH]; intros s.
  - destruct s; cbn; lia.
  - destruct s as [|c s]; cbn [substring String.length]; [lia|].
    specialize (IH s). lia.
Qed.

Lemma chars_length (s : string) :
  List.length (list_ascii_of_string s) = String.length s.
Proof.
  induction s as [|c s IH]; [reflexivity|]. cbn. now rewrite IH.
Qed.

Lemma first_names_capped (v : value) (n : nat) (names : list value) :
  first_names v n = Ok names -> (List.length names <= n)%nat.
Proof.
  unfold first_names, pluck.
  destruct v; cbn [PyMore.slice_to bind PyMore.iterate]; try discriminate.
  - intros H. apply map_result_length in H. rewrite H, length_map.
    rewrite chars_length. apply substring_length_le.
  - intros H. apply map_result_length in H. rewrite H.
    apply firstn_le_length.
Qed.

Section ContextProps.

Variable round_to : nat -> Q -> Q.

(** X28: a context that [prepare_insights_context] returns holds at
    most ten topics and at most fifteen labels. *)
Theorem context_lists_are_capped (video_info metadata analysis ctx : value) :
  prepare_insights_context round_to video_info metadata analysis = Ok ctx ->
  exists topics labels,
    get ctx "topics" VNone = Ok (VList topics) /\
    get ctx "labels" VNone = Ok (VList labels) /\
    (List.length topics <= 10)%nat /\
    (List.length labels <= 15)%nat.
Proof.
  unfold prepare_insights_context.
  repeat match goal with
         | |- bind (first_names ?v ?n) _ = _ -> _ =>
             let names := fresh "names" in
             let Hn := fresh "Hn" in
             destruct (first_names v n) as [names|] eqn:Hn; cbn [bind];
             [apply first_names_capped in Hn|discriminate]
         | |- bind ?m _ = _ -> _ =>
             destruct m; cbn [bind]; [|discriminate]
         end.
  intros H. injection H as <-.
  eexists. eexists. split; [reflexivity|]. split; [reflexivity|].
  split; assumption.
Qed.

End ContextProps.

(** What [rstrip] keeps starts as the string did. *)
Lemma rstrip_head (c : ascii) (s : string) :
  PyMore.is_space c = false ->
  exists kept, PyMore.rstrip (String c s) = String c kept.
Proof.
  intros Hc. cbn [PyMore.rstrip].
  destruct (PyMore.rstrip s); [rewrite Hc|]; eexists; reflexivity.
Qed.

Lemma lstrip_head (s : string) :
  PyMore.lstrip s = ""
  \/ exists c rest, PyMore.lstrip s = String c rest
                    /\ PyMore.is_space c = false.
Proof.
  induction s as [|c s IH]; [now left|].
  cbn [PyMore.lstrip]. destruct (PyMore.is_space c) eqn:Hc; [exact IH|].
  right. exists c, s. now split.
Qed.

Lemma rstrip_cons (c : ascii) (s : string) :
  PyMore.rstrip (String c s)
  = match PyMore.rstrip s with
    | EmptyString => if PyMore.is_space c then EmptyString
                     else String c EmptyString
    | kept => String c kept
    end.
Proof. reflexivity. Qed.

Lemma rstrip_idempotent (s : string) :
  PyMore.rstrip (PyMore.rstrip s) = PyMore.rstrip s.
Proof.
  induction s as [|c s IH]; [reflexivity|].
  rewrite rstrip_cons.
  destruct (PyMore.rstrip s) as [|k kept] eqn:Hr.
  - destruct (PyMore.is_space c) eqn:Hc; [reflexivity|].
    rewrite rstrip_cons. cbn [PyMore.rstrip]. now rewrite Hc.
  - rewrite rstrip_cons, IH. reflexivity.
Qed.

(** A stripped string has no space at either end: stripping it again,
    on the left or on the right, changes nothing. *)
Lemma strip_is_stripped (s : string) :
  PyMore.lstrip (PyMore.strip s) = PyMore.strip s /\
  PyMore.rstrip (PyMore.strip s) = PyMore.strip s.
Proof.
  unfold PyMore.strip. split; [|apply rstrip_idempotent].
  destruct (lstrip_head s) as [->|[c [rest [-> Hc]]]]; [reflexivity|].
  destruct (rstrip_head c rest Hc) as [kept ->].
  cbn [PyMore.lstrip]. now rewrite Hc.
Qed.

(** What stripping leaves of ASCII text is ASCII text. *)
Lemma lstrip_isascii (s : string) :
  PyMore.isascii s = true -> PyMore.isascii (PyMore.lstrip s) = true.
Proof.
  unfold PyMore.isascii.
  induction s as [|c s IH]; [reflexivity|].
  cbn [PyMore.lstrip]. destruct (PyMore.is_space c); [|tauto].
  cbn [list_ascii_of_string forallb]. intros H.
  apply andb_true_iff in H. now apply IH.
Qed.

Lemma rstrip_isascii (s : string) :
  PyMore.isascii s = true -> PyMore.isascii (PyMore.rstrip s) = true.
Proof.
  unfold PyMore.isascii.
  induction s as [|c s IH]; [reflexivity|].
  rewrite rstrip_cons. cbn [list_ascii_of_string forallb]. intros H.
  apply andb_true_iff in H. destruct H as [Hc Hs]. specialize (IH Hs).
  destruct (PyMore.rstrip s) as [|k kept].
  - destruct (PyMore.is_space c); [reflexivity|].
    cbn [list_ascii_of_string forallb]. now rewrite Hc.
  - cbn [list_ascii_of_string forallb] in *. now rewrite Hc.
Qed.

Section EmbeddingTextProps.

Variable py_str : value -> string.

(** X29: the texts that [prepare_text_for_embedding] returns are the
    transcript, the four joined lists and the combined text, which is
    the five put together with single spaces and stripped.  When the
    text put together is ASCII, where [strip] is [str.strip()], the
    combined text is ASCII and has no white space at either end,
    although parts may be empty; and an analysis without insights
    gives six empty texts, not an error. *)
Theorem embedding_text_is_stripped (d : list (string * value))
    (analysis texts : value) :
  (prepare_text_for_embedding py_str analysis = Ok texts ->
   exists full_transcript topics labels scenes keyframes combined,
     texts = VDict [ ("full_transcript", full_transcript);
                     ("topics", VStr topics);
                     ("labels", VStr labels);
                     ("scenes", VStr scenes);
                     ("keyframes", VStr keyframes);
                     ("combined_content", VStr combined) ] /\
     let unstripped :=
       (format_value py_str full_transcript ++ " " ++ topics ++ " "
        ++ labels ++ " " ++ scenes ++ " " ++ keyframes)%string in
     combined = PyMore.strip unstripped /\
     (PyMore.isascii unstripped = true ->
      PyMore.isascii combined = true /\
      PyMore.lstrip combined = combined /\
      PyMore.rstrip combined = combined)) /\
  (lookup "insights" d = None ->
   prepare_text_for_embedding py_str (VDict d)
   = Ok (VDict [ ("full_transcript", VStr "");
                 ("topics", VStr "");
                 ("labels", VStr "");
                 ("scenes", VStr "");
                 ("keyframes", VStr "");
                 ("combined_content", VStr "") ])).
Proof.
  split.
  - unfold prepare_text_for_embedding.
    repeat match goal with
           | |- bind ?m _ = _ -> _ =>
               destruct m; cbn [bind]; [|discriminate]
           end.
    intros H. injection H as <-. do 6 eexists.
    split; [reflexivity|]. cbv zeta. split; [reflexivity|].
    intros Hascii. split; [|apply strip_is_stripped].
    unfold PyMore.strip. now apply rstrip_isascii, lstrip_isascii.
  - intros Hd. unfold prepare_text_for_embedding, get. rewrite Hd.
    reflexivity.
Qed.

End EmbeddingTextProps.

Lemma stored_metadata_break_the_context_witness :
  exists metadata,
    ExtractVideoMetadata.main MoreFixtures.storage_environ unit
      MoreFixtures.stub_storage MoreFixtures.stub_get_blob_properties
      MoreFixtures.stub_round MoreFixtures.stub_now Fixtures.stub_isoformat
      Fixtures.demo_video
    = Ok metadata /\
    prepare_insights_context MoreFixtures.stub_round Fixtures.demo_video
      metadata MoreFixtures.demo_analysis
    = Raise (PyMore.type_error
               "unsupported operand type(s) for /: 'NoneType' and 'int'").
Proof.
  eexists. split; [vm_compute; reflexivity|].
  eapply (stored_metadata_break_the_context MoreFixtures.storage_environ
            unit MoreFixtures.stub_storage
            MoreFixtures.stub_get_blob_properties MoreFixtures.stub_round
            MoreFixtures.stub_now Fixtures.stub_isoformat
            "DefaultEndpointsProtocol=https;AccountName=demo"
            Fixtures.demo_video).
  - reflexivity.
  - discriminate.
  - discriminate.
  - vm_compute. reflexivity.
Defined.

Lemma context_lists_are_capped_witness :
  exists ctx topics labels,
    prepare_insights_context MoreFixtures.stub_round Fixtures.demo_video
      (VDict []) MoreFixtures.demo_analysis
    = Ok ctx /\
    get ctx "topics" VNone = Ok (VList topics) /\
    get ctx "labels" VNone = Ok (VList labels) /\
    (List.length topics <= 10)%nat /\
    (List.length labels <= 15)%nat.
Proof.
  eexists.
  assert (Hctx : prepare_insights_context MoreFixtures.stub_round
                   Fixtures.demo_video (VDict []) MoreFixtures.demo_analysis
                 = Ok _) by (vm_compute; reflexivity).
  destruct (context_lists_are_capped MoreFixtures.stub_round _ _ _ _ Hctx)
    as [topics [labels H]].
  exists topics, labels. split; [exact Hctx|exact H].
Defined.

Lemma embedding_text_is_stripped_witness :
  exists texts combined,
    prepare_text_for_embedding Fixtures.stub_str MoreFixtures.demo_analysis
    = Ok texts /\
    get texts "combined_content" VNone = Ok (VStr combined) /\
    PyMore.isascii combined = true /\
    PyMore.lstrip combined = combined /\
    PyMore.rstrip combined = combined.
Proof.
  eexists.
  assert (Htexts : prepare_text_for_embedding Fixtures.stub_str
                     MoreFixtures.demo_analysis
                   = Ok _) by (vm_compute; reflexivity).
  destruct (proj1 (embedding_text_is_stripped Fixtures.stub_str []
                     MoreFixtures.demo_analysis _) Htexts)
    as (ft & topics & labels & scenes & keyframes & combined
        & Hshape & Hcombined & Hstripped).
  exists combined. split; [exact Htexts|].
  injection Hshape as <- <- <- <- <- <-.
  split; [reflexivity|]. apply Hstripped. vm_compute. reflexivity.
Defined.

End ActivityProps.
